(** * MLX90614 infra-red thermometer driver: model and verification

    A shallow embedding of [Src/mlx90614_ir_thermometer_driver.c]: the
    driver's static variables become one record, the STM32 HAL it calls
    becomes a record of transition functions over an abstract bus state,
    and every driver function is a state-passing function that also logs
    the HAL calls it makes, in order. *)

From Stdlib Require Import ZArith List Lia Bool QArith Qabs.
From Stdlib Require Import Floats.SpecFloat.
From Stdlib Require Import Lqa.
From Equations Require Import Equations.
Import ListNotations.
Local Open Scope Z_scope.

(** ** Fixed-width integers *)

(** Conversion to [uint8_t] and [uint16_t]: reduction modulo the width. *)
Definition uint8 (x : Z) : Z := x mod 2 ^ 8.
Definition uint16 (x : Z) : Z := x mod 2 ^ 16.

(** ** Constants of the driver and of its header *)

Definition MLX90614_I2C_TIMEOUT : Z := 100.
Definition MLX90614_ERASE_OR_WRITE_CELL_TIME : Z := 1000.
Definition IS_MLX90614_READY_NUMBER_OF_TRIALS : Z := 1.

Definition MLX90614_RAM_OR_EEPROM_ADDRESS_SIZE : Z := 1.
Definition MLX90614_TA_RAM_ADDRESS : Z := 0x06.
Definition MLX90614_TOBJ1_RAM_ADDRESS : Z := 0x07.
Definition MLX90614_TOBJ2_RAM_ADDRESS : Z := 0x08.
Definition MLX90614_TEMPERATURE_RESULT_SIZE : Z := 2.
Definition MLX90614_EEPROM_SLAVE_ADDRESS_SIZE : Z := 2.
Definition MLX90614_I2C_WRITE_COMMAND_SIZE : Z := 4.
Definition MLX90614_SLAVE_ADDRESS_EEPROM_ADDRESS : Z := 0x2E.
Definition MLX90614_PEC_RESET_VALUE : Z := 0x00.
Definition MLX90614_SLAVE_ADDRESS_EEPROM_ERASE_VALUE : Z := 0x00.
Definition MLX90614_MAX_VALID_SLAVE_ADDRESS_VALUE : Z := 0x7E.
Definition MLX90614_MAX_VALID_SLAVE_ADDRESS_VALUE_PLUS_ONE : Z := 0x7F.
Definition MLX90614_MIN_VALID_SLAVE_ADDRESS_VALUE : Z := 0x03.

(** ** Status codes *)

(** Modelled from the spec: the HAL's [HAL_StatusTypeDef] is declared in
    the STM32 HAL headers, which are not part of the repository; the
    transport reports one of ok, error, busy and timeout. *)
Inductive HAL_StatusTypeDef : Type :=
| HAL_OK
| HAL_ERROR
| HAL_BUSY
| HAL_TIMEOUT.

Inductive MLX90614_Status : Type :=
| MLX90614_EC_OK
| MLX90614_EC_STOP
| MLX90614_EC_NR
| MLX90614_EC_NA
| MLX90614_EC_ERR.

Definition MLX90614_Status_code (s : MLX90614_Status) : Z :=
  match s with
  | MLX90614_EC_OK => 0
  | MLX90614_EC_STOP => 1
  | MLX90614_EC_NR => 2
  | MLX90614_EC_NA => 3
  | MLX90614_EC_ERR => 4
  end.

(** [MLX90614_Temp_t] is a C enumeration: a caller can pass any integer,
    so the type is [Z] with the three named values. *)
Definition MLX90614_Temp_K : Z := 0.
Definition MLX90614_Temp_C : Z := 1.
Definition MLX90614_Temp_F : Z := 2.

(** [HAL_ret_handler]: the [default] branch returns its argument, and the
    only status left for it is [HAL_OK], whose value 0 is
    [MLX90614_EC_OK]. *)
Definition HAL_ret_handler (HAL_status : HAL_StatusTypeDef) : MLX90614_Status :=
  match HAL_status with
  | HAL_BUSY | HAL_TIMEOUT => MLX90614_EC_NR
  | HAL_ERROR => MLX90614_EC_ERR
  | HAL_OK => MLX90614_EC_OK
  end.

(** ** The PEC byte *)

(** One turn of the loop body of [calculate_pec]. *)
Definition pec_shift (data : Z) : Z :=
  let bit_check := Z.land data 0x80 in
  let data := uint8 (Z.shiftl data 1) in
  if negb (bit_check =? 0) then uint8 (Z.lxor data 0x07) else data.

(** [for (int i=0; i<8; i++)]: [n] turns are left to run. *)
Fixpoint pec_for (n : nat) (data : Z) : Z :=
  match n with
  | O => data
  | S n' => pec_for n' (pec_shift data)
  end.

Definition calculate_pec (init_pec new_data : Z) : Z :=
  let data := uint8 (Z.lxor init_pec new_data) in
  pec_for 8 data.

(** The PEC of a whole transaction, as the driver computes it: one call of
    [calculate_pec] per byte, starting from the reset value. *)
Definition pec_of (bytes : list Z) : Z :=
  fold_left calculate_pec bytes MLX90614_PEC_RESET_VALUE.

(** The checksum as the specification words it: an 8-bit accumulator that
    starts at 0; each byte is XORed in, then eight times the accumulator is
    doubled, and XORed with 0x07 when its top bit was set before the
    doubling. *)
Module Reference.

Definition top_bit (acc : Z) : bool := Z.testbit acc 7.

Definition shift_once (acc : Z) : Z :=
  if top_bit acc
  then Z.lxor (Z.shiftl acc 1) 0x07 mod 2 ^ 8
  else Z.shiftl acc 1 mod 2 ^ 8.

Definition absorb (acc b : Z) : Z :=
  Nat.iter 8 shift_once (Z.lxor acc b).

Fixpoint run (acc : Z) (bytes : list Z) : Z :=
  match bytes with
  | [] => acc
  | b :: rest => run (absorb acc b) rest
  end.

Definition crc8 (bytes : list Z) : Z := run 0 bytes.

End Reference.

(** The ASCII digits "123456789", the usual CRC check input. *)
Definition check_input : list Z := [49; 50; 51; 52; 53; 54; 55; 56; 57].

(** ** Floating point *)

(** C's [float] and [double] are IEEE 754 binary32 and binary64. Their
    values are [spec_float]s, and every operation rounds to nearest, ties
    to even, in its own format. *)
Module FP.

Definition prec32 : Z := 24.
Definition emax32 : Z := 128.
Definition prec64 : Z := 53.
Definition emax64 : Z := 1024.

(** [(float) n] for an integer [n]. *)
Definition float_of_Z (n : Z) : spec_float :=
  binary_normalize prec32 emax32 n 0 false.

(** A decimal literal [n / d] of type [double]: the double nearest to
    the quotient. *)
Definition double_lit (n d : Z) : spec_float :=
  SFdiv prec64 emax64
    (binary_normalize prec64 emax64 n 0 false)
    (binary_normalize prec64 emax64 d 0 false).

(** The usual arithmetic conversion of a [float] operand to [double]. *)
Definition double_of_float (x : spec_float) : spec_float :=
  match x with
  | S754_finite s m e => binary_round prec64 emax64 s m e
  | _ => x
  end.

(** A [double] returned from a function whose result type is [float]. *)
Definition float_of_double (x : spec_float) : spec_float :=
  match x with
  | S754_finite s m e => binary_round prec32 emax32 s m e
  | _ => x
  end.

Definition ddiv : spec_float -> spec_float -> spec_float := SFdiv prec64 emax64.
Definition dsub : spec_float -> spec_float -> spec_float := SFsub prec64 emax64.
Definition dadd : spec_float -> spec_float -> spec_float := SFadd prec64 emax64.
Definition dmul : spec_float -> spec_float -> spec_float := SFmul prec64 emax64.

(** The exact rational value of a finite float. *)
Definition to_Q (x : spec_float) : option Q :=
  match x with
  | S754_zero _ => Some 0%Q
  | S754_finite s m e =>
      let n := if s then Z.neg m else Z.pos m in
      Some (match e with
            | Z0 => n # 1
            | Zpos p => (n * 2 ^ Zpos p) # 1
            | Zneg p => n # (2 ^ p)
            end)
  | _ => None
  end.

(** [x] is finite and differs from [c] by at most [tol]. *)
Definition within_b (x : spec_float) (c tol : Q) : bool :=
  match to_Q x with
  | Some q => Qle_bool (Qabs (q - c)%Q) tol
  | None => false
  end.

Definition within (x : spec_float) (c tol : Q) : Prop :=
  within_b x c tol = true.

End FP.

Definition get_mlx90614_converted_temperature_in_kelvin (raw_temp : Z) : spec_float :=
  FP.float_of_double
    (FP.ddiv (FP.double_of_float (FP.float_of_Z raw_temp)) (FP.double_lit 50 1)).

Definition get_mlx90614_converted_temperature_in_celsius (raw_temp : Z) : spec_float :=
  FP.float_of_double
    (FP.dsub
       (FP.ddiv (FP.double_of_float (FP.float_of_Z raw_temp)) (FP.double_lit 50 1))
       (FP.double_lit 27315 100)).

Definition get_mlx90614_converted_temperature_in_fahrenheit (raw_temp : Z) : spec_float :=
  FP.float_of_double
    (FP.dadd
       (FP.dmul
          (FP.dsub
             (FP.ddiv (FP.double_of_float (FP.float_of_Z raw_temp)) (FP.double_lit 50 1))
             (FP.double_lit 27315 100))
          (FP.double_lit 18 10))
       (FP.double_lit 32 1)).

(** The conversions as the specification writes them, over the rationals. *)
Module Formula.
Local Open Scope Q_scope.

Definition kelvin (r : Z) : Q := inject_Z r / 50.
Definition celsius (r : Z) : Q := inject_Z r / 50 - (27315 # 100).
Definition fahrenheit (r : Z) : Q :=
  (inject_Z r / 50 - (27315 # 100)) * (18 # 10) + 32.

End Formula.

(** The target of the function pointer [p_get_mlx90614_converted_temperature];
    a static pointer is null until [init_mlx90614_module] assigns it. *)
Inductive conversion_pointer : Type :=
| null_pointer
| in_kelvin
| in_celsius
| in_fahrenheit.

(** A call through the pointer; a call through a null pointer has no
    defined result. *)
Definition call_conversion (p : conversion_pointer) (raw_temp : Z) : option spec_float :=
  match p with
  | null_pointer => None
  | in_kelvin => Some (get_mlx90614_converted_temperature_in_kelvin raw_temp)
  | in_celsius => Some (get_mlx90614_converted_temperature_in_celsius raw_temp)
  | in_fahrenheit => Some (get_mlx90614_converted_temperature_in_fahrenheit raw_temp)
  end.

(** ** The bus transport *)

(** The HAL calls the driver makes, with the arguments it passes. *)
Inductive event : Type :=
| IsDeviceReady (hi2c DevAddress Trials Timeout : Z)
| Mem_Read (hi2c DevAddress MemAddress MemAddSize Size Timeout : Z)
| Mem_Write (hi2c DevAddress MemAddress MemAddSize : Z) (pData : list Z) (Timeout : Z)
| Master_Transmit (hi2c DevAddress : Z) (pData : list Z) (Size Timeout : Z)
| Delay (ms : Z).

(** The transport is outside the repository. Over a bus state [W] of its
    own it answers each call with a status and a next state; a read also
    gives the two bytes the caller's buffer holds when the call returns
    (every read of the driver is two bytes long). *)
Record HAL (W : Type) : Type := {
  HAL_I2C_IsDeviceReady : W -> Z -> Z -> Z -> Z -> HAL_StatusTypeDef * W;
  HAL_I2C_Mem_Read : W -> Z -> Z -> Z -> Z -> Z -> Z -> HAL_StatusTypeDef * (Z * Z) * W;
  HAL_I2C_Mem_Write : W -> Z -> Z -> Z -> Z -> list Z -> Z -> HAL_StatusTypeDef * W;
  HAL_I2C_Master_Transmit : W -> Z -> Z -> list Z -> Z -> Z -> HAL_StatusTypeDef * W;
  HAL_Delay : W -> Z -> W
}.
Arguments HAL_I2C_IsDeviceReady {W}.
Arguments HAL_I2C_Mem_Read {W}.
Arguments HAL_I2C_Mem_Write {W}.
Arguments HAL_I2C_Master_Transmit {W}.
Arguments HAL_Delay {W}.

(** ** The driver's state *)

(** The static variables of the translation unit. Pointers are addresses,
    0 being the null pointer. *)
Record driver : Type := Driver {
  p_hi2c : Z;
  mlx90614_slave_address : Z;
  mlx90614_slave_address_one_bit_left_shifted : Z;
  mlx90614_temperature_type : Z;
  p_get_mlx90614_converted_temperature : conversion_pointer
}.

(** The values the statics have at program start. *)
Definition startup : driver :=
  {| p_hi2c := 0;
     mlx90614_slave_address := 0x5A;
     mlx90614_slave_address_one_bit_left_shifted := 0;
     mlx90614_temperature_type := 0;
     p_get_mlx90614_converted_temperature := null_pointer |}.

(** What a driver function runs on: the statics, the bus, the HAL calls
    made so far (oldest first) and the [float] cells of the caller. *)
Record machine (W : Type) : Type := Machine {
  drv : driver;
  bus : W;
  log : list event;
  heap : Z -> spec_float
}.
Arguments Machine {W}.
Arguments drv {W}.
Arguments bus {W}.
Arguments log {W}.
Arguments heap {W}.

Definition store (h : Z -> spec_float) (p : Z) (v : spec_float) : Z -> spec_float :=
  fun q => if q =? p then v else h q.

(** A driver function either returns a value and a new machine, or makes
    a call through a null function pointer and has no defined result. *)
Definition M (W A : Type) : Type := machine W -> option (A * machine W).

Definition ret {W A} (a : A) : M W A := fun m => Some (a, m).

Definition bind {W A B} (c : M W A) (k : A -> M W B) : M W B :=
  fun m => match c m with
           | Some (a, m') => k a m'
           | None => None
           end.

Declare Scope drv_scope.
Delimit Scope drv_scope with drv.
Notation "x <- c ;; k" := (bind c (fun x => k))
  (at level 61, c at next level, right associativity) : drv_scope.
Notation "c ;;; k" := (bind c (fun _ => k))
  (at level 61, right associativity) : drv_scope.

Definition undefined {W A} : M W A := fun _ => None.

Definition read_static {W A} (f : driver -> A) : M W A :=
  fun m => Some (f (drv m), m).

Definition write_static {W} (f : driver -> driver) : M W unit :=
  fun m => Some (tt, Machine (f (drv m)) (bus m) (log m) (heap m)).

Definition store_float {W} (dst : Z) (v : spec_float) : M W unit :=
  fun m => Some (tt, Machine (drv m) (bus m) (log m) (store (heap m) dst v)).

Definition set_p_hi2c (v : Z) (d : driver) : driver :=
  Driver v (mlx90614_slave_address d)
    (mlx90614_slave_address_one_bit_left_shifted d)
    (mlx90614_temperature_type d) (p_get_mlx90614_converted_temperature d).

Definition set_slave_address (v : Z) (d : driver) : driver :=
  Driver (p_hi2c d) v
    (mlx90614_slave_address_one_bit_left_shifted d)
    (mlx90614_temperature_type d) (p_get_mlx90614_converted_temperature d).

Definition set_slave_address_one_bit_left_shifted (v : Z) (d : driver) : driver :=
  Driver (p_hi2c d) (mlx90614_slave_address d) v
    (mlx90614_temperature_type d) (p_get_mlx90614_converted_temperature d).

Definition set_temperature_type (v : Z) (d : driver) : driver :=
  Driver (p_hi2c d) (mlx90614_slave_address d)
    (mlx90614_slave_address_one_bit_left_shifted d)
    v (p_get_mlx90614_converted_temperature d).

Definition set_converted_temperature (v : conversion_pointer) (d : driver) : driver :=
  Driver (p_hi2c d) (mlx90614_slave_address d)
    (mlx90614_slave_address_one_bit_left_shifted d)
    (mlx90614_temperature_type d) v.

(** A local array of bytes. *)
Definition array_get (a : list Z) (i : nat) : Z := nth i a 0.

Fixpoint array_set (a : list Z) (i : nat) (v : Z) : list Z :=
  match a, i with
  | [], _ => []
  | _ :: rest, O => v :: rest
  | x :: rest, S i' => x :: array_set rest i' v
  end.

(** ** The driver *)

(** The [switch (temp_t)] of [init_mlx90614_module] and of
    [set_mlx90614_temperature_type]: the function the pointer is set to,
    or [None] in the [default] branch. *)
Definition select_conversion (temp_t : Z) : option conversion_pointer :=
  if temp_t =? MLX90614_Temp_K then Some in_kelvin
  else if temp_t =? MLX90614_Temp_C then Some in_celsius
  else if temp_t =? MLX90614_Temp_F then Some in_fahrenheit
  else None.

(** The turns the [for] loop of [find_mlx90614_slave_address] has left
    when its variable is [current_slave_address]. *)
Definition turns_left (current_slave_address : Z) : nat :=
  Z.to_nat (MLX90614_MAX_VALID_SLAVE_ADDRESS_VALUE_PLUS_ONE - current_slave_address).
Arguments turns_left : simpl never.

Section Driver.

Context {W : Type} (hal : HAL W).
Local Open Scope drv_scope.

(** *** HAL calls, logged *)

Definition is_device_ready (hi2c DevAddress Trials Timeout : Z) : M W HAL_StatusTypeDef :=
  fun m =>
    let r := HAL_I2C_IsDeviceReady hal (bus m) hi2c DevAddress Trials Timeout in
    Some (fst r,
          Machine (drv m) (snd r)
            (log m ++ [IsDeviceReady hi2c DevAddress Trials Timeout]) (heap m)).

(** The result carries the caller's two-byte buffer. *)
Definition mem_read (hi2c DevAddress MemAddress MemAddSize Size Timeout : Z)
  : M W (HAL_StatusTypeDef * list Z) :=
  fun m =>
    let r := HAL_I2C_Mem_Read hal (bus m) hi2c DevAddress MemAddress MemAddSize Size Timeout in
    Some ((fst (fst r), [uint8 (fst (snd (fst r))); uint8 (snd (snd (fst r)))]),
          Machine (drv m) (snd r)
            (log m ++ [Mem_Read hi2c DevAddress MemAddress MemAddSize Size Timeout]) (heap m)).

Definition mem_write (hi2c DevAddress MemAddress MemAddSize : Z) (pData : list Z) (Timeout : Z)
  : M W HAL_StatusTypeDef :=
  fun m =>
    let r := HAL_I2C_Mem_Write hal (bus m) hi2c DevAddress MemAddress MemAddSize pData Timeout in
    Some (fst r,
          Machine (drv m) (snd r)
            (log m ++ [Mem_Write hi2c DevAddress MemAddress MemAddSize pData Timeout]) (heap m)).

Definition master_transmit (hi2c DevAddress : Z) (pData : list Z) (Size Timeout : Z)
  : M W HAL_StatusTypeDef :=
  fun m =>
    let r := HAL_I2C_Master_Transmit hal (bus m) hi2c DevAddress pData Size Timeout in
    Some (fst r,
          Machine (drv m) (snd r)
            (log m ++ [Master_Transmit hi2c DevAddress pData Size Timeout]) (heap m)).

Definition delay (ms : Z) : M W unit :=
  fun m =>
    Some (tt, Machine (drv m) (HAL_Delay hal (bus m) ms) (log m ++ [Delay ms]) (heap m)).

(** *** Initialisation *)

Definition init_mlx90614_module (hi2c slave_address temp_t : Z) : M W MLX90614_Status :=
  if slave_address >? MLX90614_MAX_VALID_SLAVE_ADDRESS_VALUE then ret MLX90614_EC_ERR
  else
    (* from [p_hi2c = hi2c] to the end of the function *)
    let persist_and_switch : M W MLX90614_Status :=
      write_static (set_p_hi2c hi2c) ;;;
      match select_conversion temp_t with
      | Some f =>
          write_static (set_converted_temperature f) ;;;
          write_static (set_temperature_type temp_t) ;;;
          ret MLX90614_EC_OK
      | None => ret MLX90614_EC_ERR
      end in
    if negb (slave_address =? 0) then
      let tmp_slave_addr_one_bit_left_shifted := uint8 (Z.shiftl slave_address 1) in
      h <- read_static p_hi2c ;;
      s <- is_device_ready h tmp_slave_addr_one_bit_left_shifted
             IS_MLX90614_READY_NUMBER_OF_TRIALS MLX90614_I2C_TIMEOUT ;;
      match s with
      | HAL_OK =>
          write_static (set_slave_address slave_address) ;;;
          write_static (set_slave_address_one_bit_left_shifted
                          tmp_slave_addr_one_bit_left_shifted) ;;;
          persist_and_switch
      | _ => ret MLX90614_EC_NR
      end
    else
      a <- read_static mlx90614_slave_address ;;
      write_static (set_slave_address_one_bit_left_shifted (uint8 (Z.shiftl a 1))) ;;;
      persist_and_switch.

(** *** Discovery *)

(** The [for] loop of [find_mlx90614_slave_address], entered with the
    loop variable at [current_slave_address]. *)
Equations? find_loop (current_slave_address : Z) (m : machine W)
  : option (MLX90614_Status * machine W)
  by wf (turns_left current_slave_address) lt :=
  find_loop current_slave_address m
    with Z_lt_dec current_slave_address MLX90614_MAX_VALID_SLAVE_ADDRESS_VALUE_PLUS_ONE => {
    | right _ => Some (MLX90614_EC_NR, m)
    | left _
        with is_device_ready (p_hi2c (drv m)) (uint8 (Z.shiftl current_slave_address 1))
               IS_MLX90614_READY_NUMBER_OF_TRIALS MLX90614_I2C_TIMEOUT m => {
        | None => None
        | Some (HAL_OK, m') =>
            (write_static (set_slave_address current_slave_address) ;;;
             write_static (set_slave_address_one_bit_left_shifted
                             (uint8 (Z.shiftl current_slave_address 1))) ;;;
             ret MLX90614_EC_OK) m'
        | Some (_, m') => find_loop (uint8 (current_slave_address + 1)) m' } }.
Proof.
  all: unfold turns_left, uint8, MLX90614_MAX_VALID_SLAVE_ADDRESS_VALUE_PLUS_ONE in *;
    change (2 ^ 8) with 256.
  all: destruct (Z_lt_dec current_slave_address 0);
    [ pose proof (Z.mod_pos_bound (current_slave_address + 1) 256 eq_refl)
    | rewrite Z.mod_small by lia ]; lia.
Qed.

Definition find_mlx90614_slave_address : M W MLX90614_Status :=
  find_loop MLX90614_MIN_VALID_SLAVE_ADDRESS_VALUE.

(** *** The believed address *)

Definition get_mlx90614_module_slave_address : M W Z :=
  read_static mlx90614_slave_address.

Definition set_mlx90614_module_slave_address (slave_address : Z) : M W MLX90614_Status :=
  if (slave_address >? MLX90614_MAX_VALID_SLAVE_ADDRESS_VALUE)
     || (slave_address <? MLX90614_MIN_VALID_SLAVE_ADDRESS_VALUE)
  then ret MLX90614_EC_ERR
  else
    let tmp_slave_addr_one_bit_left_shifted := uint8 (Z.shiftl slave_address 1) in
    h <- read_static p_hi2c ;;
    s <- is_device_ready h tmp_slave_addr_one_bit_left_shifted
           IS_MLX90614_READY_NUMBER_OF_TRIALS MLX90614_I2C_TIMEOUT ;;
    match s with
    | HAL_OK =>
        write_static (set_slave_address slave_address) ;;;
        write_static (set_slave_address_one_bit_left_shifted
                        tmp_slave_addr_one_bit_left_shifted) ;;;
        ret MLX90614_EC_OK
    | _ => ret MLX90614_EC_NR
    end.

(** *** Rewriting the address the device stores *)

Definition set_mlx90614_device_slave_address (new_slave_address : Z) : M W MLX90614_Status :=
  if (new_slave_address >? MLX90614_MAX_VALID_SLAVE_ADDRESS_VALUE)
     || (new_slave_address <? MLX90614_MIN_VALID_SLAVE_ADDRESS_VALUE)
  then ret MLX90614_EC_ERR
  else
    h <- read_static p_hi2c ;;
    wire <- read_static mlx90614_slave_address_one_bit_left_shifted ;;
    (* STEP 1 *)
    r <- mem_read h wire MLX90614_SLAVE_ADDRESS_EEPROM_ADDRESS
           MLX90614_RAM_OR_EEPROM_ADDRESS_SIZE MLX90614_EEPROM_SLAVE_ADDRESS_SIZE
           MLX90614_I2C_TIMEOUT ;;
    let received_i2cdata := snd r in
    match HAL_ret_handler (fst r) with
    | MLX90614_EC_OK =>
        (* STEP 2 *)
        let v := [MLX90614_SLAVE_ADDRESS_EEPROM_ADDRESS;
                  MLX90614_SLAVE_ADDRESS_EEPROM_ERASE_VALUE;
                  MLX90614_SLAVE_ADDRESS_EEPROM_ERASE_VALUE;
                  MLX90614_PEC_RESET_VALUE] in
        let v := array_set v 3 (calculate_pec (array_get v 3) wire) in
        let v := array_set v 3 (calculate_pec (array_get v 3) (array_get v 0)) in
        let v := array_set v 3 (calculate_pec (array_get v 3) (array_get v 1)) in
        let v := array_set v 3 (calculate_pec (array_get v 3) (array_get v 2)) in
        s <- master_transmit h wire v MLX90614_I2C_WRITE_COMMAND_SIZE MLX90614_I2C_TIMEOUT ;;
        match HAL_ret_handler s with
        | MLX90614_EC_OK =>
            delay MLX90614_ERASE_OR_WRITE_CELL_TIME ;;;
            (* STEP 3 *)
            let v := array_set v 1 new_slave_address in
            let v := array_set v 2 (array_get received_i2cdata 1) in
            let v := array_set v 3 (calculate_pec MLX90614_PEC_RESET_VALUE wire) in
            let v := array_set v 3 (calculate_pec (array_get v 3) (array_get v 0)) in
            let v := array_set v 3 (calculate_pec (array_get v 3) (array_get v 1)) in
            let v := array_set v 3 (calculate_pec (array_get v 3) (array_get v 2)) in
            s <- master_transmit h wire v MLX90614_I2C_WRITE_COMMAND_SIZE MLX90614_I2C_TIMEOUT ;;
            match HAL_ret_handler s with
            | MLX90614_EC_OK =>
                delay MLX90614_ERASE_OR_WRITE_CELL_TIME ;;;
                write_static (set_slave_address new_slave_address) ;;;
                write_static (set_slave_address_one_bit_left_shifted
                                (uint8 (Z.shiftl new_slave_address 1))) ;;;
                ret MLX90614_EC_OK
            | failure => ret failure
            end
        | failure => ret failure
        end
    | failure => ret failure
    end.

(** *** The temperature unit *)

Definition get_mlx90614_temperature_type : M W Z :=
  read_static mlx90614_temperature_type.

Definition set_mlx90614_temperature_type (temp_t : Z) : M W MLX90614_Status :=
  match select_conversion temp_t with
  | Some f =>
      write_static (set_converted_temperature f) ;;;
      write_static (set_temperature_type temp_t) ;;;
      ret MLX90614_EC_OK
  | None => ret MLX90614_EC_ERR
  end.

(** *** The three temperature channels *)

Definition get_mlx90614_ambient_temperature (dst : Z) : M W MLX90614_Status :=
  h <- read_static p_hi2c ;;
  wire <- read_static mlx90614_slave_address_one_bit_left_shifted ;;
  r <- mem_read h wire MLX90614_TA_RAM_ADDRESS MLX90614_RAM_OR_EEPROM_ADDRESS_SIZE
         MLX90614_TEMPERATURE_RESULT_SIZE MLX90614_I2C_TIMEOUT ;;
  let i2cdata := snd r in
  match HAL_ret_handler (fst r) with
  | MLX90614_EC_OK =>
      let raw_temp := uint16 (Z.lor (Z.shiftl (array_get i2cdata 1) 8) (array_get i2cdata 0)) in
      if raw_temp >? 0x7FFF then ret MLX90614_EC_ERR
      else
        f <- read_static p_get_mlx90614_converted_temperature ;;
        match call_conversion f raw_temp with
        | Some t => store_float dst t ;;; ret MLX90614_EC_OK
        | None => undefined
        end
  | failure => ret failure
  end.

Definition get_mlx90614_object1_temperature (dst : Z) : M W MLX90614_Status :=
  h <- read_static p_hi2c ;;
  wire <- read_static mlx90614_slave_address_one_bit_left_shifted ;;
  r <- mem_read h wire MLX90614_TOBJ1_RAM_ADDRESS MLX90614_RAM_OR_EEPROM_ADDRESS_SIZE
         MLX90614_TEMPERATURE_RESULT_SIZE MLX90614_I2C_TIMEOUT ;;
  let i2cdata := snd r in
  match HAL_ret_handler (fst r) with
  | MLX90614_EC_OK =>
      let raw_temp := uint16 (Z.lor (Z.shiftl (array_get i2cdata 1) 8) (array_get i2cdata 0)) in
      if raw_temp >? 0x7FFF then ret MLX90614_EC_ERR
      else
        f <- read_static p_get_mlx90614_converted_temperature ;;
        match call_conversion f raw_temp with
        | Some t => store_float dst t ;;; ret MLX90614_EC_OK
        | None => undefined
        end
  | failure => ret failure
  end.

Definition get_mlx90614_object2_temperature (dst : Z) : M W MLX90614_Status :=
  h <- read_static p_hi2c ;;
  wire <- read_static mlx90614_slave_address_one_bit_left_shifted ;;
  r <- mem_read h wire MLX90614_TOBJ2_RAM_ADDRESS MLX90614_RAM_OR_EEPROM_ADDRESS_SIZE
         MLX90614_TEMPERATURE_RESULT_SIZE MLX90614_I2C_TIMEOUT ;;
  let i2cdata := snd r in
  match HAL_ret_handler (fst r) with
  | MLX90614_EC_OK =>
      let raw_temp := uint16 (Z.lor (Z.shiftl (array_get i2cdata 1) 8) (array_get i2cdata 0)) in
      if raw_temp >? 0x7FFF then ret MLX90614_EC_ERR
      else
        f <- read_static p_get_mlx90614_converted_temperature ;;
        match call_conversion f raw_temp with
        | Some t => store_float dst t ;;; ret MLX90614_EC_OK
        | None => undefined
        end
  | failure => ret failure
  end.

End Driver.

(** ** The earlier revision of the address rewrite *)

(** The repository also holds an earlier revision of the driver, in which
    the valid addresses are 1 to 0x7F and the rewrite addresses the device
    at the any-device address, sends no PEC and reads the cell back. *)
Module Earlier.

Definition MLX90614_HAL_I2C_ANY_SLAVE_ADDRESS_ONE_BIT_LEFT_SHIFTED : Z := 0x00.

Section Driver.

Context {W : Type} (hal : HAL W).
Local Open Scope drv_scope.

Definition set_mlx90614_device_slave_address (slave_address : Z) : M W MLX90614_Status :=
  if (slave_address >? 0x7F) || (slave_address =? 0) then ret MLX90614_EC_ERR
  else
    let SLAVE_ADDR_ERASE_VALUE :=
      [MLX90614_SLAVE_ADDRESS_EEPROM_ERASE_VALUE;
       MLX90614_SLAVE_ADDRESS_EEPROM_ERASE_VALUE] in
    h <- read_static p_hi2c ;;
    (* STEP 1 *)
    s <- mem_write hal h MLX90614_HAL_I2C_ANY_SLAVE_ADDRESS_ONE_BIT_LEFT_SHIFTED
           MLX90614_SLAVE_ADDRESS_EEPROM_ADDRESS MLX90614_RAM_OR_EEPROM_ADDRESS_SIZE
           SLAVE_ADDR_ERASE_VALUE MLX90614_I2C_TIMEOUT ;;
    match HAL_ret_handler s with
    | MLX90614_EC_OK =>
        delay hal MLX90614_ERASE_OR_WRITE_CELL_TIME ;;;
        (* STEP 2 *)
        let send_i2c := [slave_address; MLX90614_SLAVE_ADDRESS_EEPROM_ERASE_VALUE] in
        s <- mem_write hal h MLX90614_HAL_I2C_ANY_SLAVE_ADDRESS_ONE_BIT_LEFT_SHIFTED
               MLX90614_SLAVE_ADDRESS_EEPROM_ADDRESS MLX90614_RAM_OR_EEPROM_ADDRESS_SIZE
               send_i2c MLX90614_I2C_TIMEOUT ;;
        match HAL_ret_handler s with
        | MLX90614_EC_OK =>
            delay hal MLX90614_ERASE_OR_WRITE_CELL_TIME ;;;
            (* STEP 3 *)
            r <- mem_read hal h MLX90614_HAL_I2C_ANY_SLAVE_ADDRESS_ONE_BIT_LEFT_SHIFTED
                   MLX90614_SLAVE_ADDRESS_EEPROM_ADDRESS MLX90614_RAM_OR_EEPROM_ADDRESS_SIZE
                   MLX90614_EEPROM_SLAVE_ADDRESS_SIZE MLX90614_I2C_TIMEOUT ;;
            let i2cdata := snd r in
            match HAL_ret_handler (fst r) with
            | MLX90614_EC_OK =>
                if negb (array_get i2cdata 0 =? slave_address) then ret MLX90614_EC_ERR
                else
                  write_static (set_slave_address slave_address) ;;;
                  write_static (set_slave_address_one_bit_left_shifted
                                  (uint8 (Z.shiftl slave_address 1))) ;;;
                  ret MLX90614_EC_OK
            | failure => ret failure
            end
        | failure => ret failure
        end
    | failure => ret failure
    end.

(** The other functions of the earlier revision that differ from the
    current one: the valid addresses are 1 to 0x7F. *)
Definition MLX90614_MAX_SENSORS_PLUS_ONE : Z := 128.

Definition init_mlx90614_module (hi2c slave_address temp_t : Z) : M W MLX90614_Status :=
  if slave_address >? 0x7F then ret MLX90614_EC_ERR
  else
    let persist_and_switch : M W MLX90614_Status :=
      write_static (set_p_hi2c hi2c) ;;;
      match select_conversion temp_t with
      | Some f =>
          write_static (set_converted_temperature f) ;;;
          write_static (set_temperature_type temp_t) ;;;
          ret MLX90614_EC_OK
      | None => ret MLX90614_EC_ERR
      end in
    if negb (slave_address =? 0) then
      let tmp_slave_addr_one_bit_left_shifted := uint8 (Z.shiftl slave_address 1) in
      h <- read_static p_hi2c ;;
      s <- is_device_ready hal h tmp_slave_addr_one_bit_left_shifted
             IS_MLX90614_READY_NUMBER_OF_TRIALS MLX90614_I2C_TIMEOUT ;;
      match s with
      | HAL_OK =>
          write_static (set_slave_address slave_address) ;;;
          write_static (set_slave_address_one_bit_left_shifted
                          tmp_slave_addr_one_bit_left_shifted) ;;;
          persist_and_switch
      | _ => ret MLX90614_EC_NR
      end
    else
      a <- read_static mlx90614_slave_address ;;
      write_static (set_slave_address_one_bit_left_shifted (uint8 (Z.shiftl a 1))) ;;;
      persist_and_switch.

(** The turns the [for] loop of the earlier [find_mlx90614_slave_address]
    has left when its variable is [current_slave_address]. *)
Definition search_turns_left (current_slave_address : Z) : nat :=
  Z.to_nat (MLX90614_MAX_SENSORS_PLUS_ONE - current_slave_address).
Arguments search_turns_left : simpl never.

(** The loop, entered with the loop variable at [current_slave_address]. *)
Equations? search_loop (current_slave_address : Z) (m : machine W)
  : option (MLX90614_Status * machine W)
  by wf (search_turns_left current_slave_address) lt :=
  search_loop current_slave_address m
    with Z_lt_dec current_slave_address MLX90614_MAX_SENSORS_PLUS_ONE => {
    | right _ => Some (MLX90614_EC_NR, m)
    | left _
        with is_device_ready hal (p_hi2c (drv m)) (uint8 (Z.shiftl current_slave_address 1))
               IS_MLX90614_READY_NUMBER_OF_TRIALS MLX90614_I2C_TIMEOUT m => {
        | None => None
        | Some (HAL_OK, m') =>
            (write_static (set_slave_address current_slave_address) ;;;
             write_static (set_slave_address_one_bit_left_shifted
                             (uint8 (Z.shiftl current_slave_address 1))) ;;;
             ret MLX90614_EC_OK) m'
        | Some (_, m') => search_loop (uint8 (current_slave_address + 1)) m' } }.
Proof.
  all: unfold search_turns_left, uint8, MLX90614_MAX_SENSORS_PLUS_ONE in *;
    change (2 ^ 8) with 256.
  all: destruct (Z_lt_dec current_slave_address 0);
    [ pose proof (Z.mod_pos_bound (current_slave_address + 1) 256 eq_refl)
    | rewrite Z.mod_small by lia ]; lia.
Qed.

Definition find_mlx90614_slave_address : M W MLX90614_Status :=
  search_loop 1.

Definition set_mlx90614_module_slave_address (slave_address : Z) : M W MLX90614_Status :=
  if (slave_address >? 0x7F) || (slave_address =? 0) then ret MLX90614_EC_ERR
  else
    let tmp_slave_addr_one_bit_left_shifted := uint8 (Z.shiftl slave_address 1) in
    h <- read_static p_hi2c ;;
    s <- is_device_ready hal h tmp_slave_addr_one_bit_left_shifted
           IS_MLX90614_READY_NUMBER_OF_TRIALS MLX90614_I2C_TIMEOUT ;;
    match s with
    | HAL_OK =>
        write_static (set_slave_address slave_address) ;;;
        write_static (set_slave_address_one_bit_left_shifted
                        tmp_slave_addr_one_bit_left_shifted) ;;;
        ret MLX90614_EC_OK
    | _ => ret MLX90614_EC_NR
    end.

End Driver.

End Earlier.

(** ** The transactions of the address rewrite, as the specification words them *)

(** A write to the non-volatile memory carries the register address, two
    payload bytes and the checksum of the wire address byte, the register
    address byte and the payload bytes. *)
Module Protocol.

Definition transaction (wire register low high : Z) : list Z :=
  [register; low; high; Reference.crc8 [wire; register; low; high]].

(** The erase transaction: payload zeroed. *)
Definition erase (wire : Z) : list Z :=
  transaction wire MLX90614_SLAVE_ADDRESS_EEPROM_ADDRESS 0 0.

(** The write transaction: the new address low, the preserved byte high. *)
Definition write (wire new_address preserved : Z) : list Z :=
  transaction wire MLX90614_SLAVE_ADDRESS_EEPROM_ADDRESS new_address preserved.

End Protocol.

(** An event of the address rewrite is well formed: a transmit carries a
    transaction of the cell's register, and the other calls are reads and
    delays. *)
Definition rewrite_event (e : event) : Prop :=
  match e with
  | Master_Transmit _ wire pData _ _ =>
      exists low high,
        pData = Protocol.transaction wire MLX90614_SLAVE_ADDRESS_EEPROM_ADDRESS low high
  | Mem_Read _ _ _ _ _ _ | Delay _ => True
  | _ => False
  end.

Definition is_read (e : event) : Prop :=
  match e with
  | Mem_Read _ _ _ _ _ _ => True
  | _ => False
  end.

(** The three channels and what tells their read functions apart. *)
Inductive channel : Type := ambient | object1 | object2.

Definition channel_register (c : channel) : Z :=
  match c with
  | ambient => MLX90614_TA_RAM_ADDRESS
  | object1 => MLX90614_TOBJ1_RAM_ADDRESS
  | object2 => MLX90614_TOBJ2_RAM_ADDRESS
  end.

Definition read_channel {W : Type} (hal : HAL W) (c : channel)
  : Z -> M W MLX90614_Status :=
  match c with
  | ambient => get_mlx90614_ambient_temperature hal
  | object1 => get_mlx90614_object1_temperature hal
  | object2 => get_mlx90614_object2_temperature hal
  end.

(** The addresses [first], [first + 1], ... : [n] of them. *)
Fixpoint addresses_from (first : Z) (n : nat) : list Z :=
  match n with
  | O => []
  | S n' => first :: addresses_from (first + 1) n'
  end.

(** The probe of the 7-bit address [a], as the driver issues it. *)
Definition probe_of (hi2c a : Z) : event :=
  IsDeviceReady hi2c (uint8 (Z.shiftl a 1))
    IS_MLX90614_READY_NUMBER_OF_TRIALS MLX90614_I2C_TIMEOUT.

(** The device at the 7-bit address [a] answers a probe made on the bus
    state [w] through the handle [hi2c]. *)
Definition ready {W : Type} (hal : HAL W) (hi2c : Z) (w : W) (a : Z) : Prop :=
  fst (HAL_I2C_IsDeviceReady hal w hi2c (uint8 (Z.shiftl a 1))
         IS_MLX90614_READY_NUMBER_OF_TRIALS MLX90614_I2C_TIMEOUT) = HAL_OK.

(** The 16-bit value of two bytes, low byte first. *)
Definition little_endian (b0 b1 : Z) : Z := b0 + 256 * b1.

(** The in-range test the address setters make. *)
Definition valid_slave_address (a : Z) : Prop :=
  MLX90614_MIN_VALID_SLAVE_ADDRESS_VALUE <= a <= MLX90614_MAX_VALID_SLAVE_ADDRESS_VALUE.

(** ** A simulated bus *)

(** One device on the bus, for running the driver on concrete inputs. The
    device answers at the 7-bit addresses [answers] accepts, keeps its
    address cell at EEPROM address 0x2E, and takes a write to the cell only
    when [writable] holds; a transmit it answers returns [transmit]. *)
Module Sim.

Record config : Type := Config {
  answers : Z -> bool;
  writable : bool;
  transmit : HAL_StatusTypeDef
}.

Record state : Type := State {
  cell_low : Z;
  cell_high : Z;
  ram : Z -> Z * Z
}.

Definition addressed (c : config) (DevAddress : Z) : bool :=
  answers c (Z.shiftr DevAddress 1).

Definition write_cell (c : config) (w : state) (MemAddress low high : Z) : state :=
  if writable c && (MemAddress =? MLX90614_SLAVE_ADDRESS_EEPROM_ADDRESS)
  then State low high (ram w)
  else w.

Definition hal (c : config) : HAL state := {|
  HAL_I2C_IsDeviceReady := fun w _ DevAddress _ _ =>
    (if addressed c DevAddress then HAL_OK else HAL_ERROR, w);
  HAL_I2C_Mem_Read := fun w _ DevAddress MemAddress _ _ _ =>
    if addressed c DevAddress || (DevAddress =? 0)
    then (HAL_OK,
          if MemAddress =? MLX90614_SLAVE_ADDRESS_EEPROM_ADDRESS
          then (cell_low w, cell_high w)
          else ram w MemAddress,
          w)
    else (HAL_ERROR, (0, 0), w);
  HAL_I2C_Mem_Write := fun w _ DevAddress MemAddress _ pData _ =>
    if addressed c DevAddress || (DevAddress =? 0)
    then (HAL_OK, write_cell c w MemAddress (nth 0 pData 0) (nth 1 pData 0))
    else (HAL_ERROR, w);
  HAL_I2C_Master_Transmit := fun w _ DevAddress pData _ _ =>
    if addressed c DevAddress
    then match transmit c with
         | HAL_OK =>
             (HAL_OK, write_cell c w (nth 0 pData 0) (nth 1 pData 0) (nth 2 pData 0))
         | failure => (failure, w)
         end
    else (HAL_ERROR, w);
  HAL_Delay := fun w _ => w
|}.

(** A device at the factory address 0x5A whose cell holds 0x5A and 0xBE,
    and whose three channels read 13807, 0x8000 and 15000. *)
Definition factory_ram (MemAddress : Z) : Z * Z :=
  if MemAddress =? MLX90614_TA_RAM_ADDRESS then (0xEF, 0x35)
  else if MemAddress =? MLX90614_TOBJ1_RAM_ADDRESS then (0x00, 0x80)
  else (0x98, 0x3A).

Definition factory : state := State 0x5A 0xBE factory_ram.

Definition at_address (k : Z) : config := Config (Z.eqb k) true HAL_OK.
Definition nobody : config := Config (fun _ => false) true HAL_OK.
Definition read_only (k : Z) : config := Config (Z.eqb k) false HAL_OK.
Definition transmit_fails (k : Z) : config := Config (Z.eqb k) true HAL_ERROR.

(** The machine at program start, and the I2C handle the caller owns. *)
Definition hi2c2 : Z := 0x20000100.

Definition boot : machine state :=
  Machine startup factory [] (fun _ => S754_zero false).

(** The machine after [init_mlx90614_module(&hi2c2, 0, MLX90614_Temp_C)]. *)
Definition initialised : machine state :=
  Machine (Driver hi2c2 0x5A 0xB4 MLX90614_Temp_C in_celsius) factory []
    (fun _ => S754_zero false).

(** The machine [initialised] becomes when the device at 0x5A is given the
    address 0x41 and takes it. *)
Definition rewritten : machine state :=
  Machine (Driver hi2c2 0x41 0x82 MLX90614_Temp_C in_celsius)
    (State 0x41 0xBE factory_ram)
    [Mem_Read hi2c2 0xB4 0x2E 1 2 100;
     Master_Transmit hi2c2 0xB4 [0x2E; 0x00; 0x00; 175] 4 100;
     Delay 1000;
     Master_Transmit hi2c2 0xB4 [0x2E; 0x41; 0xBE; 210] 4 100;
     Delay 1000]
    (fun _ => S754_zero false).

End Sim.

(** ** The driver's interface as a whole *)

(** A call of one of the functions the header declares. *)
Inductive call : Type :=
| Init (hi2c slave_address temp_t : Z)
| Find
| Get_address
| Set_module_address (slave_address : Z)
| Set_device_address (new_slave_address : Z)
| Get_type
| Set_type (temp_t : Z)
| Read (c : channel) (dst : Z).

(** What a call returns: a status, or the value a getter reads. *)
Inductive result : Type :=
| Status (s : MLX90614_Status)
| Value (v : Z).

Definition perform {W : Type} (hal : HAL W) (c : call) : M W result :=
  match c with
  | Init hi2c a t => bind (init_mlx90614_module hal hi2c a t) (fun s => ret (Status s))
  | Find => bind (find_mlx90614_slave_address hal) (fun s => ret (Status s))
  | Get_address => bind get_mlx90614_module_slave_address (fun v => ret (Value v))
  | Set_module_address a =>
      bind (set_mlx90614_module_slave_address hal a) (fun s => ret (Status s))
  | Set_device_address a =>
      bind (set_mlx90614_device_slave_address hal a) (fun s => ret (Status s))
  | Get_type => bind get_mlx90614_temperature_type (fun v => ret (Value v))
  | Set_type t => bind (set_mlx90614_temperature_type t) (fun s => ret (Status s))
  | Read c dst => bind (read_channel hal c dst) (fun s => ret (Status s))
  end.

(** A client: calls made one after the other, their results dropped. *)
Fixpoint perform_all {W : Type} (hal : HAL W) (cs : list call) (m : machine W)
  : option (machine W) :=
  match cs with
  | [] => Some m
  | c :: rest =>
      match perform hal c m with
      | Some (_, m') => perform_all hal rest m'
      | None => None
      end
  end.

(** The arguments of type [uint8_t] hold a byte. *)
Definition byte_arguments (c : call) : Prop :=
  match c with
  | Init _ a _ | Set_module_address a | Set_device_address a => 0 <= a < 256
  | _ => True
  end.

(** The two assignments every function makes when it adopts an address. *)
Definition store_address (a : Z) (d : driver) : driver :=
  set_slave_address_one_bit_left_shifted (uint8 (Z.shiftl a 1)) (set_slave_address a d).

(** What [init_mlx90614_module] does to the address once the range test
    and the probe are passed, and the probe it makes before. *)
Definition init_address (a : Z) (d : driver) : driver :=
  if a =? 0
  then set_slave_address_one_bit_left_shifted
         (uint8 (Z.shiftl (mlx90614_slave_address d) 1)) d
  else store_address a d.

Definition init_probe (a : Z) (d : driver) : list event :=
  if a =? 0 then [] else [probe_of (p_hi2c d) a].

(** The HAL calls of the address rewrite and of a channel read, with the
    statics their arguments are taken from. *)
Definition cell_read (d : driver) : event :=
  Mem_Read (p_hi2c d) (mlx90614_slave_address_one_bit_left_shifted d)
    MLX90614_SLAVE_ADDRESS_EEPROM_ADDRESS MLX90614_RAM_OR_EEPROM_ADDRESS_SIZE
    MLX90614_EEPROM_SLAVE_ADDRESS_SIZE MLX90614_I2C_TIMEOUT.

Definition cell_erase (d : driver) : event :=
  Master_Transmit (p_hi2c d) (mlx90614_slave_address_one_bit_left_shifted d)
    (Protocol.erase (mlx90614_slave_address_one_bit_left_shifted d))
    MLX90614_I2C_WRITE_COMMAND_SIZE MLX90614_I2C_TIMEOUT.

Definition cell_write (d : driver) (a preserved : Z) : event :=
  Master_Transmit (p_hi2c d) (mlx90614_slave_address_one_bit_left_shifted d)
    (Protocol.write (mlx90614_slave_address_one_bit_left_shifted d) a preserved)
    MLX90614_I2C_WRITE_COMMAND_SIZE MLX90614_I2C_TIMEOUT.

Definition settle : event := Delay MLX90614_ERASE_OR_WRITE_CELL_TIME.

Definition register_read (d : driver) (c : channel) : event :=
  Mem_Read (p_hi2c d) (mlx90614_slave_address_one_bit_left_shifted d)
    (channel_register c) MLX90614_RAM_OR_EEPROM_ADDRESS_SIZE
    MLX90614_TEMPERATURE_RESULT_SIZE MLX90614_I2C_TIMEOUT.

(** The driver seen from its caller, whatever the bus answers: the statics
    before a call, the HAL calls it makes, what it returns and the statics
    after it. *)
Inductive driver_step : call -> driver -> list event -> result -> driver -> Prop :=
| step_init_refused h a t d :
    MLX90614_MAX_VALID_SLAVE_ADDRESS_VALUE < a ->
    driver_step (Init h a t) d [] (Status MLX90614_EC_ERR) d
| step_init_silent h a t d :
    a <> 0 -> a <= MLX90614_MAX_VALID_SLAVE_ADDRESS_VALUE ->
    driver_step (Init h a t) d [probe_of (p_hi2c d) a] (Status MLX90614_EC_NR) d
| step_init_unit h a t d :
    a <= MLX90614_MAX_VALID_SLAVE_ADDRESS_VALUE ->
    select_conversion t = None ->
    driver_step (Init h a t) d (init_probe a d) (Status MLX90614_EC_ERR)
      (set_p_hi2c h (init_address a d))
| step_init h a t f d :
    a <= MLX90614_MAX_VALID_SLAVE_ADDRESS_VALUE ->
    select_conversion t = Some f ->
    driver_step (Init h a t) d (init_probe a d) (Status MLX90614_EC_OK)
      (set_temperature_type t
         (set_converted_temperature f (set_p_hi2c h (init_address a d))))
| step_find_nobody d :
    driver_step Find d
      (map (probe_of (p_hi2c d))
         (addresses_from MLX90614_MIN_VALID_SLAVE_ADDRESS_VALUE 124))
      (Status MLX90614_EC_NR) d
| step_find j d :
    (1 <= j <= 124)%nat ->
    driver_step Find d
      (map (probe_of (p_hi2c d))
         (addresses_from MLX90614_MIN_VALID_SLAVE_ADDRESS_VALUE j))
      (Status MLX90614_EC_OK)
      (store_address (MLX90614_MIN_VALID_SLAVE_ADDRESS_VALUE + Z.of_nat j - 1) d)
| step_get_address d :
    driver_step Get_address d [] (Value (mlx90614_slave_address d)) d
| step_set_module_refused a d :
    ~ valid_slave_address a ->
    driver_step (Set_module_address a) d [] (Status MLX90614_EC_ERR) d
| step_set_module_silent a d :
    valid_slave_address a ->
    driver_step (Set_module_address a) d [probe_of (p_hi2c d) a]
      (Status MLX90614_EC_NR) d
| step_set_module a d :
    valid_slave_address a ->
    driver_step (Set_module_address a) d [probe_of (p_hi2c d) a]
      (Status MLX90614_EC_OK) (store_address a d)
| step_set_device_refused a d :
    ~ valid_slave_address a ->
    driver_step (Set_device_address a) d [] (Status MLX90614_EC_ERR) d
| step_set_device_failed a s preserved added d :
    valid_slave_address a ->
    s = MLX90614_EC_NR \/ s = MLX90614_EC_ERR ->
    added = [cell_read d] \/
    added = [cell_read d; cell_erase d] \/
    added = [cell_read d; cell_erase d; settle; cell_write d a preserved] ->
    driver_step (Set_device_address a) d added (Status s) d
| step_set_device a preserved d :
    valid_slave_address a ->
    driver_step (Set_device_address a) d
      [cell_read d; cell_erase d; settle; cell_write d a preserved; settle]
      (Status MLX90614_EC_OK) (store_address a d)
| step_get_type d :
    driver_step Get_type d [] (Value (mlx90614_temperature_type d)) d
| step_set_type_refused t d :
    select_conversion t = None ->
    driver_step (Set_type t) d [] (Status MLX90614_EC_ERR) d
| step_set_type t f d :
    select_conversion t = Some f ->
    driver_step (Set_type t) d [] (Status MLX90614_EC_OK)
      (set_temperature_type t (set_converted_temperature f d))
| step_read_failed c dst s d :
    s = MLX90614_EC_NR \/ s = MLX90614_EC_ERR ->
    driver_step (Read c dst) d [register_read d c] (Status s) d
| step_read c dst d :
    p_get_mlx90614_converted_temperature d <> null_pointer ->
    driver_step (Read c dst) d [register_read d c] (Status MLX90614_EC_OK) d.

(** What a call that returned has done to the machine: the HAL calls it
    added to the log, the step of the statics, and the cells of the caller,
    of which only a channel read that returns [MLX90614_EC_OK] changes
    one. *)
Definition effect {W : Type} (c : call) (m : machine W) (r : result) (m' : machine W)
  : Prop :=
  exists added,
    log m' = log m ++ added /\
    driver_step c (drv m) added r (drv m') /\
    (heap m' = heap m \/
     exists ch dst t,
       c = Read ch dst /\ r = Status MLX90614_EC_OK /\ heap m' = store (heap m) dst t).

(** Relations between the statics that the functions maintain. *)
Definition address_is_7bit (d : driver) : Prop :=
  1 <= mlx90614_slave_address d <= MLX90614_MAX_VALID_SLAVE_ADDRESS_VALUE.

Definition wire_in_sync (d : driver) : Prop :=
  mlx90614_slave_address_one_bit_left_shifted d
  = uint8 (Z.shiftl (mlx90614_slave_address d) 1).

Definition unit_in_sync (d : driver) : Prop :=
  select_conversion (mlx90614_temperature_type d)
  = Some (p_get_mlx90614_converted_temperature d).

(** The time a HAL call is given, in milliseconds: its timeout, once per
    trial, or the length of the delay. *)
Definition blocking_ms (e : event) : Z :=
  match e with
  | IsDeviceReady _ _ Trials Timeout => Trials * Timeout
  | Mem_Read _ _ _ _ _ Timeout => Timeout
  | Mem_Write _ _ _ _ _ Timeout => Timeout
  | Master_Transmit _ _ _ _ Timeout => Timeout
  | Delay ms => ms
  end.

Definition total_ms (es : list event) : Z :=
  fold_right (fun e t => blocking_ms e + t) 0 es.

(** The handle and the device address a HAL call was given. *)
Definition handle_of (e : event) : option Z :=
  match e with
  | IsDeviceReady h _ _ _ | Mem_Read h _ _ _ _ _ | Mem_Write h _ _ _ _ _
  | Master_Transmit h _ _ _ _ => Some h
  | Delay _ => None
  end.

Definition wire_of (e : event) : option Z :=
  match e with
  | IsDeviceReady _ a _ _ | Mem_Read _ a _ _ _ _ | Mem_Write _ a _ _ _ _
  | Master_Transmit _ a _ _ _ => Some a
  | Delay _ => None
  end.

(** A device address as the HAL takes it: a byte whose bit 0, the place of
    the read/write bit, is clear. *)
Definition left_aligned (a : Z) : Prop := 0 <= a < 256 /\ Z.even a = true.

(** The time a call gives the HAL at most: one timeout for a probe or a
    read, 124 probes for the discovery, three transfers and two settle
    delays for the address rewrite. *)
Definition worst_case_ms (c : call) : Z :=
  match c with
  | Init _ _ _ | Set_module_address _ | Read _ _ =>
      IS_MLX90614_READY_NUMBER_OF_TRIALS * MLX90614_I2C_TIMEOUT
  | Find => 124 * (IS_MLX90614_READY_NUMBER_OF_TRIALS * MLX90614_I2C_TIMEOUT)
  | Set_device_address _ =>
      3 * MLX90614_I2C_TIMEOUT + 2 * MLX90614_ERASE_OR_WRITE_CELL_TIME
  | Get_address | Get_type | Set_type _ => 0
  end.

(** The check the receiver of a transaction makes: the checksum over the
    device address byte and all the bytes received, the PEC included. *)
Definition received_residue (wire : Z) (pData : list Z) : Z := pec_of (wire :: pData).

(** ** The conversions over the whole range of raw values *)

(** The [double] literals of the conversions: 50.0, 273.15, 1.8, 32.0. *)
Definition lit_50_0 : spec_float := S754_finite false 7036874417766400 (-47).
Definition lit_273_15 : spec_float := S754_finite false 4805305618032230 (-44).
Definition lit_1_8 : spec_float := S754_finite false 8106479329266893 (-52).
Definition lit_32_0 : spec_float := S754_finite false 4503599627370496 (-47).

(** The three conversions of one raw value, the quotient they share
    computed once, each compared with its formula. *)
Definition accurate_b (tol : Q) (raw_temp : Z) : bool :=
  let q := FP.ddiv (FP.double_of_float (FP.float_of_Z raw_temp)) lit_50_0 in
  let c := FP.dsub q lit_273_15 in
  let f := FP.dadd (FP.dmul c lit_1_8) lit_32_0 in
  FP.within_b (FP.float_of_double q) (Formula.kelvin raw_temp) tol
  && FP.within_b (FP.float_of_double c) (Formula.celsius raw_temp) tol
  && FP.within_b (FP.float_of_double f) (Formula.fahrenheit raw_temp) tol.

(** The formula of a unit, and the conversion the driver has for it. *)
Definition formula_of (temp_t raw_temp : Z) : Q :=
  if temp_t =? MLX90614_Temp_K then Formula.kelvin raw_temp
  else if temp_t =? MLX90614_Temp_C then Formula.celsius raw_temp
  else Formula.fahrenheit raw_temp.

(** The exact value of one float is below that of another. *)
Definition value_lt (x y : spec_float) : Prop :=
  match FP.to_Q x, FP.to_Q y with
  | Some a, Some b => (a < b)%Q
  | _, _ => False
  end.

(** ** The validation test of the header *)

(** The functions the example calls that differ between the two revisions
    of the driver. The getters, [set_mlx90614_temperature_type], the
    channel reads and the conversions have the same text in both. *)
Record revision (W : Type) : Type := {
  init_module : Z -> Z -> Z -> M W MLX90614_Status;
  find_slave_address : M W MLX90614_Status;
  set_module_slave_address : Z -> M W MLX90614_Status
}.
Arguments init_module {W}.
Arguments find_slave_address {W}.
Arguments set_module_slave_address {W}.

Definition current {W : Type} (hal : HAL W) : revision W := {|
  init_module := init_mlx90614_module hal;
  find_slave_address := find_mlx90614_slave_address hal;
  set_module_slave_address := set_mlx90614_module_slave_address hal
|}.

Definition earlier {W : Type} (hal : HAL W) : revision W := {|
  init_module := Earlier.init_mlx90614_module hal;
  find_slave_address := Earlier.find_mlx90614_slave_address hal;
  set_module_slave_address := Earlier.set_mlx90614_module_slave_address hal
|}.

(** Where the code example of the header's documentation ends: at one of
    its [while(1)] after an error message, or at the last one, after
    "The MLX90614 Driver Library validation test has successfully
    concluded!". *)
Inductive outcome : Type :=
| stopped_at_initialisation
| stopped_at_discovery
| stopped_at_non_matching_address
| stopped_at_invalid_address
| stopped_at_address_check
| stopped_at_unit (temp_t : Z)
| stopped_at_unit_check (temp_t : Z)
| stopped_at_reading (temp_t : Z) (c : channel)
| concluded.

Definition DO_NOT_UPDATE_SLAVE_ADDRESS : Z := 0.

Section Example.

Context {W : Type} (hal : HAL W) (driver_library : revision W).
Context (hi2c2 current_temperature_reading : Z).
Local Open Scope drv_scope.

(** [set_mlx90614_temperature_type] and the check that follows it. *)
Definition set_unit (temp_t : Z) (and_then : M W outcome) : M W outcome :=
  ret_ <- set_mlx90614_temperature_type temp_t ;;
  match ret_ with
  | MLX90614_EC_OK =>
      t <- get_mlx90614_temperature_type ;;
      if temp_t =? t then and_then else ret (stopped_at_unit_check temp_t)
  | _ => ret (stopped_at_unit temp_t)
  end.

(** The three readings of one unit. *)
Definition three_readings (temp_t : Z) (and_then : M W outcome) : M W outcome :=
  ret_ <- get_mlx90614_ambient_temperature hal current_temperature_reading ;;
  match ret_ with
  | MLX90614_EC_OK =>
      ret_ <- get_mlx90614_object1_temperature hal current_temperature_reading ;;
      match ret_ with
      | MLX90614_EC_OK =>
          ret_ <- get_mlx90614_object2_temperature hal current_temperature_reading ;;
          match ret_ with
          | MLX90614_EC_OK => and_then
          | _ => ret (stopped_at_reading temp_t object2)
          end
      | _ => ret (stopped_at_reading temp_t object1)
      end
  | _ => ret (stopped_at_reading temp_t ambient)
  end.

(** The example, its [printf]s left out and the part it has commented
    out (the address rewrite) left out as well. *)
Definition validation_test : M W outcome :=
  ret_ <- init_module driver_library hi2c2 DO_NOT_UPDATE_SLAVE_ADDRESS MLX90614_Temp_C ;;
  match ret_ with
  | MLX90614_EC_OK =>
      ret_ <- find_slave_address driver_library ;;
      match ret_ with
      | MLX90614_EC_OK =>
          slave_address_configured_in_the_driver_library
            <- get_mlx90614_module_slave_address ;;
          let non_matching_mlx90614_slave_address :=
            if slave_address_configured_in_the_driver_library =? 0x01
            then 0x02 else 0x01 in
          ret_ <- set_module_slave_address driver_library
                    non_matching_mlx90614_slave_address ;;
          match ret_ with
          | MLX90614_EC_NR =>
              let non_valid_mlx90614_slave_address := 128 in
              ret_ <- set_module_slave_address driver_library
                        non_valid_mlx90614_slave_address ;;
              match ret_ with
              | MLX90614_EC_ERR =>
                  a <- get_mlx90614_module_slave_address ;;
                  if a =? slave_address_configured_in_the_driver_library then
                    set_unit MLX90614_Temp_K
                      (store_float current_temperature_reading (S754_zero false) ;;;
                       three_readings MLX90614_Temp_K
                         (set_unit MLX90614_Temp_C
                            (three_readings MLX90614_Temp_C
                               (set_unit MLX90614_Temp_F
                                  (three_readings MLX90614_Temp_F
                                     (ret concluded))))))
                  else ret stopped_at_address_check
              | _ => ret stopped_at_invalid_address
              end
          | _ => ret stopped_at_non_matching_address
          end
      | _ => ret stopped_at_discovery
      end
  | _ => ret stopped_at_initialisation
  end.

End Example.

(** How the part of the example after its tests of the addresses can
    end: at a reading that failed, or at the end. *)
Definition ends_after_the_addresses (v : outcome) : Prop :=
  (exists temp_t c, v = stopped_at_reading temp_t c) \/ v = concluded.

(** A device whose three channels read 13807, 14000 and 15000. *)
Definition healthy_ram (MemAddress : Z) : Z * Z :=
  if MemAddress =? MLX90614_TA_RAM_ADDRESS then (0xEF, 0x35)
  else if MemAddress =? MLX90614_TOBJ1_RAM_ADDRESS then (0xB0, 0x36)
  else (0x98, 0x3A).

Definition healthy : Sim.state := Sim.State 0x5A 0xBE healthy_ram.

(** * Verification *)

(** ** Bits and bytes *)

Lemma uint8_range x : 0 <= uint8 x < 256.
Proof. unfold uint8. change (2 ^ 8) with 256. apply Z.mod_pos_bound. lia. Qed.

Lemma uint8_small x : 0 <= x < 256 -> uint8 x = x.
Proof. intro H. unfold uint8. change (2 ^ 8) with 256. now apply Z.mod_small. Qed.

Lemma shifted_small a : 0 <= a <= 0x7F -> uint8 (Z.shiftl a 1) = 2 * a.
Proof.
  intro H. rewrite Z.shiftl_mul_pow2 by lia. change (2 ^ 1) with 2.
  rewrite uint8_small; lia.
Qed.

Lemma land_0x80 x : Z.land x 0x80 = if Z.testbit x 7 then 0x80 else 0.
Proof.
  apply Z.bits_inj'. intros n Hn.
  change 0x80 with (2 ^ 7) at 1.
  rewrite Z.land_spec, Z.pow2_bits_eqb by lia.
  destruct (Z.eqb_spec 7 n) as [<-|Hne].
  - rewrite andb_true_r. destruct (Z.testbit x 7); reflexivity.
  - rewrite andb_false_r.
    destruct (Z.testbit x 7); [| now rewrite Z.bits_0].
    change 0x80 with (2 ^ 7). rewrite Z.pow2_bits_eqb by lia.
    symmetry. now apply Z.eqb_neq.
Qed.

Lemma uint8_lxor_l x y : uint8 (Z.lxor (uint8 x) y) = uint8 (Z.lxor x y).
Proof.
  unfold uint8. apply Z.bits_inj'. intros n Hn.
  rewrite !Z.testbit_mod_pow2, !Z.lxor_spec, Z.testbit_mod_pow2 by lia.
  destruct (n <? 8); reflexivity.
Qed.

Lemma uint8_shiftl_uint8 x : uint8 (Z.shiftl (uint8 x) 1) = uint8 (Z.shiftl x 1).
Proof.
  unfold uint8. apply Z.bits_inj'. intros n Hn.
  rewrite !Z.testbit_mod_pow2, !Z.shiftl_spec, Z.testbit_mod_pow2 by lia.
  destruct (Z.ltb_spec n 8); [|reflexivity].
  destruct (Z.ltb_spec (n - 1) 8); [reflexivity|lia].
Qed.

(** Two bytes reassembled by shift and or are their little-endian value. *)
Lemma reassemble b0 b1 :
  0 <= b0 < 256 -> 0 <= b1 < 256 ->
  uint16 (Z.lor (Z.shiftl b1 8) b0) = little_endian b0 b1.
Proof.
  intros H0 H1. unfold little_endian.
  assert (E : Z.lor (Z.shiftl b1 8) b0 = b0 + 256 * b1).
  { rewrite Z.shiftl_mul_pow2 by lia. change (2 ^ 8) with 256.
    assert (D : Z.land (b1 * 256) b0 = 0).
    { apply Z.bits_inj'. intros n Hn. rewrite Z.land_spec, Z.bits_0.
      destruct (Z.ltb_spec n 8).
      - change 256 with (2 ^ 8). rewrite Z.mul_pow2_bits_low by lia. reflexivity.
      - replace b0 with (b0 mod 2 ^ 8)
          by (apply Z.mod_small; change (2 ^ 8) with 256; lia).
        rewrite Z.mod_pow2_bits_high by lia. apply andb_false_r. }
    rewrite <- Z.lxor_lor, <- Z.add_nocarry_lxor by exact D. lia. }
  rewrite E. unfold uint16. apply Z.mod_small. change (2 ^ 16) with 65536. lia.
Qed.

(** ** The PEC is the reference CRC-8 *)

Lemma pec_shift_reference x : pec_shift x = Reference.shift_once x.
Proof.
  unfold pec_shift, Reference.shift_once, Reference.top_bit.
  rewrite land_0x80.
  destruct (Z.testbit x 7); cbn [Z.eqb negb]; [ apply uint8_lxor_l | reflexivity ].
Qed.

Lemma pec_shift_uint8 x : pec_shift (uint8 x) = pec_shift x.
Proof.
  unfold pec_shift. rewrite !land_0x80, uint8_shiftl_uint8.
  replace (Z.testbit (uint8 x) 7) with (Z.testbit x 7)
    by (unfold uint8; now rewrite Z.testbit_mod_pow2 by lia).
  reflexivity.
Qed.

Lemma pec_for_iter n x : pec_for n x = Nat.iter n pec_shift x.
Proof.
  revert x. induction n as [|n IH]; intro x; [reflexivity|].
  cbn [pec_for]. rewrite IH. symmetry. apply Nat.iter_succ_r.
Qed.

Lemma iter_shift_reference n x :
  Nat.iter n pec_shift x = Nat.iter n Reference.shift_once x.
Proof.
  induction n as [|n IH]; [reflexivity|].
  rewrite !Nat.iter_succ, IH. apply pec_shift_reference.
Qed.

Lemma calculate_pec_absorb acc b : calculate_pec acc b = Reference.absorb acc b.
Proof.
  unfold calculate_pec, Reference.absorb.
  rewrite pec_for_iter, <- iter_shift_reference.
  change 8%nat with (S 7). rewrite !(Nat.iter_succ_r 7).
  now rewrite pec_shift_uint8.
Qed.

Lemma fold_calculate_pec_run acc bytes :
  fold_left calculate_pec bytes acc = Reference.run acc bytes.
Proof.
  revert acc. induction bytes as [|b rest IH]; intro acc; [reflexivity|].
  cbn [fold_left Reference.run]. now rewrite IH, calculate_pec_absorb.
Qed.

Lemma pec_of_crc8 bytes : pec_of bytes = Reference.crc8 bytes.
Proof. apply fold_calculate_pec_run. Qed.

(** The check value of CRC-8 with polynomial 0x07, zero initial value and
    no final inversion. *)
Example crc8_check_value : Reference.crc8 check_input = 0xF4.
Proof. reflexivity. Qed.

Example pec_check_value : pec_of check_input = 0xF4.
Proof. reflexivity. Qed.

(** The PEC is a byte. *)
Lemma pec_for_range n x : 0 <= x < 256 -> 0 <= pec_for n x < 256.
Proof.
  revert x. induction n as [|n IH]; intros x H; [exact H|].
  cbn [pec_for]. apply IH. unfold pec_shift.
  destruct (negb _); apply uint8_range.
Qed.

Lemma calculate_pec_range acc b : 0 <= calculate_pec acc b < 256.
Proof. apply pec_for_range, uint8_range. Qed.

(** ** What the PEC detects *)

Lemma In_addresses_from (n : nat) : forall first x,
  first <= x < first + Z.of_nat n -> In x (addresses_from first n).
Proof.
  induction n as [|n IH]; intros first x H; [lia|].
  cbn [addresses_from]. destruct (Z.eq_dec first x) as [->|Hne]; [now left|].
  right. apply IH. lia.
Qed.

Lemma for_all_bytes (P : Z -> bool) :
  forallb P (addresses_from 0 256) = true ->
  forall x, 0 <= x < 256 -> P x = true.
Proof.
  intros H x Hx. rewrite forallb_forall in H. apply H, In_addresses_from. lia.
Qed.

(** One loop turn can be undone: the low bit of its result is the top bit
    it shifted out. *)
Lemma pec_shift_undone :
  exists undo : Z -> Z, forall x, 0 <= x < 256 -> undo (pec_shift x) = x.
Proof.
  exists (fun y => if Z.odd y then Z.lxor y 0x07 / 2 + 128 else y / 2).
  intros x Hx. apply Z.eqb_eq.
  revert x Hx. apply for_all_bytes. vm_compute. reflexivity.
Qed.

Lemma pec_shift_range x : 0 <= pec_shift x < 256.
Proof. unfold pec_shift. destruct (negb _); apply uint8_range. Qed.

Lemma pec_for_injective (n : nat) : forall x y,
  0 <= x < 256 -> 0 <= y < 256 -> pec_for n x = pec_for n y -> x = y.
Proof.
  destruct pec_shift_undone as [undo Hu].
  induction n as [|n IH]; intros x y Hx Hy E; [exact E|].
  cbn [pec_for] in E. apply IH in E; try apply pec_shift_range.
  rewrite <- (Hu x Hx), <- (Hu y Hy). now f_equal.
Qed.

Lemma byte_bits_high b n : 0 <= b < 256 -> 8 <= n -> Z.testbit b n = false.
Proof.
  intros Hb Hn. replace b with (b mod 2 ^ 8)
    by (apply Z.mod_small; change (2 ^ 8) with 256; lia).
  apply Z.mod_pow2_bits_high. lia.
Qed.

Lemma uint8_lxor_injective a b b' :
  0 <= b < 256 -> 0 <= b' < 256 ->
  uint8 (Z.lxor a b) = uint8 (Z.lxor a b') -> b = b'.
Proof.
  intros Hb Hb' E. apply Z.bits_inj'. intros n Hn.
  destruct (Z.ltb_spec n 8) as [Hlt|Hge].
  - assert (T : Z.testbit (uint8 (Z.lxor a b)) n = Z.testbit (uint8 (Z.lxor a b')) n)
      by now rewrite E.
    unfold uint8 in T. rewrite !Z.mod_pow2_bits_low, !Z.lxor_spec in T by lia.
    destruct (Z.testbit a n), (Z.testbit b n), (Z.testbit b' n);
      cbn in T; congruence.
  - now rewrite !byte_bits_high by lia.
Qed.

Lemma calculate_pec_injective_data acc b b' :
  0 <= b < 256 -> 0 <= b' < 256 ->
  calculate_pec acc b = calculate_pec acc b' -> b = b'.
Proof.
  intros Hb Hb' E. unfold calculate_pec in E.
  apply pec_for_injective in E; try apply uint8_range.
  now apply uint8_lxor_injective in E.
Qed.

Lemma calculate_pec_injective_acc acc acc' b :
  0 <= acc < 256 -> 0 <= acc' < 256 ->
  calculate_pec acc b = calculate_pec acc' b -> acc = acc'.
Proof.
  intros Ha Ha' E. unfold calculate_pec in E.
  apply pec_for_injective in E; try apply uint8_range.
  rewrite (Z.lxor_comm acc), (Z.lxor_comm acc') in E.
  now apply uint8_lxor_injective in E.
Qed.

Lemma fold_calculate_pec_range bytes : forall acc,
  0 <= acc < 256 -> 0 <= fold_left calculate_pec bytes acc < 256.
Proof.
  induction bytes as [|b rest IH]; intros acc H; [exact H|].
  cbn [fold_left]. apply IH, calculate_pec_range.
Qed.

Lemma fold_calculate_pec_injective bytes : forall acc acc',
  0 <= acc < 256 -> 0 <= acc' < 256 ->
  fold_left calculate_pec bytes acc = fold_left calculate_pec bytes acc' -> acc = acc'.
Proof.
  induction bytes as [|b rest IH]; intros acc acc' H H' E; [exact E|].
  cbn [fold_left] in E. apply IH in E; try apply calculate_pec_range.
  now apply calculate_pec_injective_acc in E.
Qed.

(** Two byte sequences that differ in exactly one byte have different
    checksums. *)
Lemma single_byte_change_is_detected (before after : list Z) (b b' : Z) :
  0 <= b < 256 -> 0 <= b' < 256 -> b <> b' ->
  pec_of (before ++ b :: after) <> pec_of (before ++ b' :: after).
Proof.
  intros Hb Hb' Hne E. unfold pec_of in E.
  rewrite !fold_left_app in E. cbn [fold_left] in E.
  apply fold_calculate_pec_injective in E; try apply calculate_pec_range.
  apply calculate_pec_injective_data in E; [contradiction | assumption ..].
Qed.

(** ** The unit conversions at the raw value 13807 *)

(** The formulas of the specification put 13807 at 276.14 K, which is
    2.99 degrees Celsius and 37.382 degrees Fahrenheit. *)
Lemma formula_13807 :
  (Formula.kelvin 13807 == 27614 # 100)%Q /\
  (Formula.celsius 13807 == 299 # 100)%Q /\
  (Formula.fahrenheit 13807 == 37382 # 1000)%Q.
Proof. repeat split; reflexivity. Qed.

(** The decimal constants of the conversions, and the three results at
    13807, as mantissa and binary exponent. *)
Example conversion_constants :
  FP.double_lit 50 1 = S754_finite false 7036874417766400 (-47) /\
  FP.double_lit 27315 100 = S754_finite false 4805305618032230 (-44) /\
  FP.double_lit 18 10 = S754_finite false 8106479329266893 (-52).
Proof. repeat split; vm_compute; reflexivity. Qed.

Example conversion_13807_values :
  get_mlx90614_converted_temperature_in_kelvin 13807 = S754_finite false 9048556 (-15) /\
  get_mlx90614_converted_temperature_in_celsius 13807 = S754_finite false 12540969 (-22) /\
  get_mlx90614_converted_temperature_in_fahrenheit 13807 = S754_finite false 9799467 (-18).
Proof. repeat split; vm_compute; reflexivity. Qed.

(** C8, as stated, fails: for the raw value 13807 the Celsius conversion
    is not within 1e-3 of 0.0 and the Fahrenheit conversion is not within
    1e-2 of 32.0, however loosely "Kelvin yields 276.14" is read. *)
Lemma conversion_13807_is_not_freezing :
  ~ (FP.within (get_mlx90614_converted_temperature_in_kelvin 13807) (27614 # 100) (1 # 10000) /\
     FP.within (get_mlx90614_converted_temperature_in_celsius 13807) 0 (1 # 1000) /\
     FP.within (get_mlx90614_converted_temperature_in_fahrenheit 13807) 32 (1 # 100)).
Proof.
  intros (_ & C & _). unfold FP.within in C. vm_compute in C. discriminate C.
Qed.

(** C8, amended: for the raw value 13807 the Kelvin conversion yields the
    single-precision value nearest to 276.14, the Celsius conversion yields
    2.99 within 1e-3 and the Fahrenheit conversion yields 37.382 within
    1e-2; these are the values of r/50, r/50 - 273.15 and
    (r/50 - 273.15) * 1.8 + 32 at r = 13807. *)
Theorem conversion_13807 :
  get_mlx90614_converted_temperature_in_kelvin 13807
    = FP.float_of_double (FP.double_lit 27614 100) /\
  FP.within (get_mlx90614_converted_temperature_in_kelvin 13807)
    (Formula.kelvin 13807) (1 # 10000) /\
  FP.within (get_mlx90614_converted_temperature_in_celsius 13807)
    (Formula.celsius 13807) (1 # 1000) /\
  FP.within (get_mlx90614_converted_temperature_in_fahrenheit 13807)
    (Formula.fahrenheit 13807) (1 # 100) /\
  FP.within (get_mlx90614_converted_temperature_in_celsius 13807) (299 # 100) (1 # 1000) /\
  FP.within (get_mlx90614_converted_temperature_in_fahrenheit 13807) (37382 # 1000) (1 # 100).
Proof. repeat split; vm_compute; reflexivity. Qed.

(** 0 degrees Celsius lies between the raw values 13657 and 13658, far
    from 13807. *)
Example celsius_13658 :
  FP.within (get_mlx90614_converted_temperature_in_celsius 13658) 0 (1 # 50) /\
  FP.within (get_mlx90614_converted_temperature_in_fahrenheit 13658) 32 (1 # 50).
Proof. split; vm_compute; reflexivity. Qed.

(** ** The driver functions *)

(** Symbolic execution of a driver function: the monad and the logged HAL
    calls are unfolded, the projections of the machine are computed. *)
Ltac run :=
  unfold bind, ret, undefined, read_static, write_static, store_float,
    is_device_ready, mem_read, mem_write, master_transmit, delay;
  cbn [fst snd drv bus log heap].

Ltac log_assoc := repeat (rewrite <- app_assoc; cbn [app]).

(** For a goal [exists m', run = Some (st, m') /\ _] about a closed run:
    the machine is the one the run evaluates to. *)
Ltac evaluated :=
  match goal with
  | |- exists m', ?run = Some (_, m') /\ _ =>
      let r := eval vm_compute in run in
      match r with
      | Some (_, ?m) => exists m; split; [vm_compute; reflexivity|]
      end
  end.

Lemma gtb_false a b : a <= b -> (a >? b) = false.
Proof. intro H. rewrite Z.gtb_ltb. now apply Z.ltb_ge. Qed.

Lemma gtb_true a b : b < a -> (a >? b) = true.
Proof. intro H. rewrite Z.gtb_ltb. now apply Z.ltb_lt. Qed.

Lemma valid_slave_address_test a :
  (a >? MLX90614_MAX_VALID_SLAVE_ADDRESS_VALUE)
  || (a <? MLX90614_MIN_VALID_SLAVE_ADDRESS_VALUE) = false
  <-> valid_slave_address a.
Proof.
  unfold valid_slave_address. rewrite orb_false_iff, Z.gtb_ltb, !Z.ltb_ge. lia.
Qed.

Lemma select_conversion_unrecognised temp_t :
  temp_t <> MLX90614_Temp_K -> temp_t <> MLX90614_Temp_C -> temp_t <> MLX90614_Temp_F ->
  select_conversion temp_t = None.
Proof.
  intros HK HC HF. unfold select_conversion.
  apply Z.eqb_neq in HK, HC, HF. now rewrite HK, HC, HF.
Qed.

Section Proofs.

Context {W : Type} (hal : HAL W).

(** *** [set_mlx90614_module_slave_address] *)

(** C4: [set_mlx90614_module_slave_address] returns [MLX90614_EC_ERR]
    (the driver's invalid-argument status) for every address outside the
    valid range, without touching the machine; returns [MLX90614_EC_NR]
    for an in-range address whose probe does not return [HAL_OK]; stores
    the address and its shifted form when the probe succeeds; and leaves
    the driver's state as it was on every return other than
    [MLX90614_EC_OK]. *)
Theorem set_mlx90614_module_slave_address_atomic (m : machine W) (a : Z) :
  let probe :=
    HAL_I2C_IsDeviceReady hal (bus m) (p_hi2c (drv m)) (uint8 (Z.shiftl a 1))
      IS_MLX90614_READY_NUMBER_OF_TRIALS MLX90614_I2C_TIMEOUT in
  exists st m',
    set_mlx90614_module_slave_address hal a m = Some (st, m') /\
    (~ valid_slave_address a -> st = MLX90614_EC_ERR /\ m' = m) /\
    (valid_slave_address a -> fst probe <> HAL_OK ->
     st = MLX90614_EC_NR /\ drv m' = drv m) /\
    (valid_slave_address a -> fst probe = HAL_OK ->
     st = MLX90614_EC_OK /\
     mlx90614_slave_address (drv m') = a /\
     mlx90614_slave_address_one_bit_left_shifted (drv m') = uint8 (Z.shiftl a 1)) /\
    (st <> MLX90614_EC_OK -> drv m' = drv m) /\
    (st = MLX90614_EC_OK -> valid_slave_address a /\ fst probe = HAL_OK).
Proof.
  intro probe. unfold set_mlx90614_module_slave_address.
  destruct ((a >? _) || (a <? _)) eqn:R.
  - run. do 2 eexists. split; [reflexivity|].
    assert (~ valid_slave_address a)
      by (rewrite <- valid_slave_address_test; congruence).
    repeat split; try tauto; try discriminate; destruct m; reflexivity.
  - apply valid_slave_address_test in R. run. fold probe.
    destruct (fst probe) eqn:P; run; do 2 eexists; (split; [reflexivity|]);
      repeat split; cbn [drv]; intros;
      try tauto; try congruence; try discriminate; apply R.
Qed.

(** *** [init_mlx90614_module] *)

(** An address above the maximum is refused before any HAL call. *)
Lemma init_above_maximum (m : machine W) (hi2c a temp_t : Z) :
  MLX90614_MAX_VALID_SLAVE_ADDRESS_VALUE < a ->
  init_mlx90614_module hal hi2c a temp_t m = Some (MLX90614_EC_ERR, m).
Proof.
  intro H. unfold init_mlx90614_module.
  rewrite (gtb_true _ _ H). reflexivity.
Qed.

(** The address 0 makes no HAL call and keeps the believed address. *)
Lemma init_keeps_address (m : machine W) (hi2c temp_t : Z) (f : conversion_pointer) :
  select_conversion temp_t = Some f ->
  init_mlx90614_module hal hi2c 0 temp_t m =
  Some (MLX90614_EC_OK,
        Machine
          (Driver hi2c (mlx90614_slave_address (drv m))
             (uint8 (Z.shiftl (mlx90614_slave_address (drv m)) 1)) temp_t f)
          (bus m) (log m) (heap m)).
Proof.
  intro S. unfold init_mlx90614_module. cbn [Z.gtb Z.compare Z.eqb negb].
  run. rewrite S. run. reflexivity.
Qed.

(** A non-zero address up to the maximum is probed, and refused when the
    probe does not return [HAL_OK]. *)
Lemma init_not_responding (m : machine W) (hi2c a temp_t : Z) :
  a <> 0 -> a <= MLX90614_MAX_VALID_SLAVE_ADDRESS_VALUE ->
  let probe :=
    HAL_I2C_IsDeviceReady hal (bus m) (p_hi2c (drv m)) (uint8 (Z.shiftl a 1))
      IS_MLX90614_READY_NUMBER_OF_TRIALS MLX90614_I2C_TIMEOUT in
  fst probe <> HAL_OK ->
  init_mlx90614_module hal hi2c a temp_t m =
  Some (MLX90614_EC_NR,
        Machine (drv m) (snd probe) (log m ++ [probe_of (p_hi2c (drv m)) a]) (heap m)).
Proof.
  intros Hnz Hmax probe Hp. unfold init_mlx90614_module.
  rewrite (gtb_false _ _ Hmax).
  replace (a =? 0) with false by (symmetry; now apply Z.eqb_neq).
  cbn [negb]. run. fold probe.
  destruct (fst probe); [congruence | reflexivity ..].
Qed.

(** The lower bound is not tested: the addresses 1 and 2 are probed like
    any other and stored when the probe succeeds. *)
Lemma init_below_minimum (m : machine W) (hi2c a temp_t : Z) (f : conversion_pointer) :
  0 < a < MLX90614_MIN_VALID_SLAVE_ADDRESS_VALUE ->
  let probe :=
    HAL_I2C_IsDeviceReady hal (bus m) (p_hi2c (drv m)) (uint8 (Z.shiftl a 1))
      IS_MLX90614_READY_NUMBER_OF_TRIALS MLX90614_I2C_TIMEOUT in
  fst probe = HAL_OK ->
  select_conversion temp_t = Some f ->
  init_mlx90614_module hal hi2c a temp_t m =
  Some (MLX90614_EC_OK,
        Machine (Driver hi2c a (uint8 (Z.shiftl a 1)) temp_t f)
          (snd probe) (log m ++ [probe_of (p_hi2c (drv m)) a]) (heap m)).
Proof.
  intros Ha probe Hp S. unfold init_mlx90614_module.
  unfold MLX90614_MIN_VALID_SLAVE_ADDRESS_VALUE in Ha.
  rewrite gtb_false by (unfold MLX90614_MAX_VALID_SLAVE_ADDRESS_VALUE; lia).
  replace (a =? 0) with false by (symmetry; apply Z.eqb_neq; lia).
  cbn [negb]. run. fold probe. rewrite Hp. run. rewrite S. run. reflexivity.
Qed.

(** C10: when [init_mlx90614_module] is given a non-zero address that
    passes its range test and answers the probe, and a temperature type
    that is none of the three known ones, it returns [MLX90614_EC_ERR]
    with the believed address, its shifted form and the I2C handle
    already overwritten. *)
Theorem init_mlx90614_module_not_atomic (m : machine W) (hi2c a temp_t : Z) :
  a <> 0 -> a <= MLX90614_MAX_VALID_SLAVE_ADDRESS_VALUE ->
  fst (HAL_I2C_IsDeviceReady hal (bus m) (p_hi2c (drv m)) (uint8 (Z.shiftl a 1))
         IS_MLX90614_READY_NUMBER_OF_TRIALS MLX90614_I2C_TIMEOUT) = HAL_OK ->
  temp_t <> MLX90614_Temp_K -> temp_t <> MLX90614_Temp_C -> temp_t <> MLX90614_Temp_F ->
  exists m',
    init_mlx90614_module hal hi2c a temp_t m = Some (MLX90614_EC_ERR, m') /\
    p_hi2c (drv m') = hi2c /\
    mlx90614_slave_address (drv m') = a /\
    mlx90614_slave_address_one_bit_left_shifted (drv m') = uint8 (Z.shiftl a 1) /\
    mlx90614_temperature_type (drv m') = mlx90614_temperature_type (drv m) /\
    p_get_mlx90614_converted_temperature (drv m')
      = p_get_mlx90614_converted_temperature (drv m).
Proof.
  intros Hnz Hmax Hp HK HC HF. unfold init_mlx90614_module.
  rewrite (gtb_false _ _ Hmax).
  replace (a =? 0) with false by (symmetry; now apply Z.eqb_neq).
  cbn [negb]. run. rewrite Hp. run.
  rewrite (select_conversion_unrecognised temp_t HK HC HF). run.
  eexists. split; [reflexivity|]. cbn. repeat split.
Qed.

(** *** [set_mlx90614_temperature_type] *)

(** An unrecognised temperature type is refused and nothing changes. *)
Lemma set_mlx90614_temperature_type_unrecognised (m : machine W) (temp_t : Z) :
  temp_t <> MLX90614_Temp_K -> temp_t <> MLX90614_Temp_C -> temp_t <> MLX90614_Temp_F ->
  set_mlx90614_temperature_type temp_t m = Some (MLX90614_EC_ERR, m).
Proof.
  intros HK HC HF. unfold set_mlx90614_temperature_type.
  now rewrite (select_conversion_unrecognised temp_t HK HC HF).
Qed.

Lemma set_mlx90614_temperature_type_recognised (m : machine W) (temp_t : Z) (f : conversion_pointer) :
  select_conversion temp_t = Some f ->
  set_mlx90614_temperature_type temp_t m =
  Some (MLX90614_EC_OK,
        Machine (set_temperature_type temp_t (set_converted_temperature f (drv m)))
          (bus m) (log m) (heap m)).
Proof.
  intro S. unfold set_mlx90614_temperature_type. rewrite S. reflexivity.
Qed.

End Proofs.

(** ** The temperature channels *)

Section Channels.

Context {W : Type} (hal : HAL W).

(** C7: when the read of a channel's register succeeds and delivers a raw
    value of 0x8000 or more, the channel's read function returns
    [MLX90614_EC_ERR] and leaves the caller's cells as they were. This
    holds on every machine: whatever [mlx90614_temperature_type] and the
    function pointer are, so also when the pointer is null and a call
    through it would have no result; no conversion is called. *)
Theorem error_flag_is_refused (c : channel) (dst : Z) (m : machine W) :
  let read :=
    HAL_I2C_Mem_Read hal (bus m) (p_hi2c (drv m))
      (mlx90614_slave_address_one_bit_left_shifted (drv m)) (channel_register c)
      MLX90614_RAM_OR_EEPROM_ADDRESS_SIZE MLX90614_TEMPERATURE_RESULT_SIZE
      MLX90614_I2C_TIMEOUT in
  let b0 := uint8 (fst (snd (fst read))) in
  let b1 := uint8 (snd (snd (fst read))) in
  fst (fst read) = HAL_OK ->
  0x8000 <= little_endian b0 b1 ->
  read_channel hal c dst m =
  Some (MLX90614_EC_ERR,
        Machine (drv m) (snd read)
          (log m ++ [Mem_Read (p_hi2c (drv m))
                       (mlx90614_slave_address_one_bit_left_shifted (drv m))
                       (channel_register c) MLX90614_RAM_OR_EEPROM_ADDRESS_SIZE
                       MLX90614_TEMPERATURE_RESULT_SIZE MLX90614_I2C_TIMEOUT])
          (heap m)).
Proof.
  intros read b0 b1 Hok Hraw.
  assert (R : (uint16 (Z.lor (Z.shiftl b1 8) b0) >? 0x7FFF) = true).
  { rewrite reassemble by apply uint8_range. apply gtb_true. lia. }
  destruct c; cbn [read_channel channel_register] in *;
    [ unfold get_mlx90614_ambient_temperature
    | unfold get_mlx90614_object1_temperature
    | unfold get_mlx90614_object2_temperature ];
    run; fold read; rewrite Hok; cbn [HAL_ret_handler array_get nth];
    fold b0 b1; rewrite R; reflexivity.
Qed.

(** What a channel read does, case by case. *)
Lemma read_channel_cases (c : channel) (dst : Z) (m : machine W) :
  let read :=
    HAL_I2C_Mem_Read hal (bus m) (p_hi2c (drv m))
      (mlx90614_slave_address_one_bit_left_shifted (drv m)) (channel_register c)
      MLX90614_RAM_OR_EEPROM_ADDRESS_SIZE MLX90614_TEMPERATURE_RESULT_SIZE
      MLX90614_I2C_TIMEOUT in
  let raw := little_endian (uint8 (fst (snd (fst read)))) (uint8 (snd (snd (fst read)))) in
  let m1 :=
    Machine (drv m) (snd read)
      (log m ++ [Mem_Read (p_hi2c (drv m))
                   (mlx90614_slave_address_one_bit_left_shifted (drv m))
                   (channel_register c) MLX90614_RAM_OR_EEPROM_ADDRESS_SIZE
                   MLX90614_TEMPERATURE_RESULT_SIZE MLX90614_I2C_TIMEOUT])
      (heap m) in
  read_channel hal c dst m =
  match fst (fst read) with
  | HAL_OK =>
      if raw >? 0x7FFF then Some (MLX90614_EC_ERR, m1)
      else
        match call_conversion (p_get_mlx90614_converted_temperature (drv m)) raw with
        | Some t =>
            Some (MLX90614_EC_OK,
                  Machine (drv m) (snd read) (log m1) (store (heap m) dst t))
        | None => None
        end
  | failure => Some (HAL_ret_handler failure, m1)
  end.
Proof.
  intros read raw m1.
  assert (R : uint16 (Z.lor (Z.shiftl (uint8 (snd (snd (fst read)))) 8)
                        (uint8 (fst (snd (fst read))))) = raw)
    by (apply reassemble; apply uint8_range).
  destruct c; cbn [read_channel channel_register] in *;
    [ unfold get_mlx90614_ambient_temperature
    | unfold get_mlx90614_object1_temperature
    | unfold get_mlx90614_object2_temperature ];
    run; fold read; cbn [array_get nth]; rewrite R;
    destruct (fst (fst read)); cbn [HAL_ret_handler]; try reflexivity;
    destruct (raw >? 0x7FFF); try reflexivity; run;
    destruct (call_conversion _ raw); reflexivity.
Qed.

(** C9: a channel read that returns [MLX90614_EC_OK] has stored one value,
    the conversion of the raw reading, in the cell [dst] and in no other;
    a channel read that returns any other status has left every cell as it
    was. Once the function pointer is set, the read always returns. *)
Theorem read_channel_writes_on_success_only (c : channel) (dst : Z) (m : machine W) :
  p_get_mlx90614_converted_temperature (drv m) <> null_pointer ->
  exists st m',
    read_channel hal c dst m = Some (st, m') /\
    (st = MLX90614_EC_OK ->
     exists t, heap m' = store (heap m) dst t /\
               heap m' dst = t /\
               forall q, q <> dst -> heap m' q = heap m q) /\
    (st <> MLX90614_EC_OK -> heap m' = heap m).
Proof.
  intro Hp. rewrite read_channel_cases.
  set (read := HAL_I2C_Mem_Read _ _ _ _ _ _ _ _).
  set (raw := little_endian _ _).
  assert (S : forall h t, store h dst t dst = t /\
                          forall q, q <> dst -> store h dst t q = h q).
  { intros h t. unfold store. split; [now rewrite Z.eqb_refl|].
    intros q Hq. apply Z.eqb_neq in Hq. now rewrite Hq. }
  destruct (fst (fst read)) eqn:Hs; cbn [HAL_ret_handler].
  - destruct (raw >? 0x7FFF).
    + do 2 eexists. split; [reflexivity|]. split; [discriminate|reflexivity].
    + destruct (p_get_mlx90614_converted_temperature (drv m)) eqn:F;
        [congruence | ..]; cbn [call_conversion];
        do 2 eexists; (split; [reflexivity|]); cbn [heap];
        (split; [intros _; eexists; split; [reflexivity | apply S] | congruence]).
  - do 2 eexists. split; [reflexivity|]. split; [discriminate|reflexivity].
  - do 2 eexists. split; [reflexivity|]. split; [discriminate|reflexivity].
  - do 2 eexists. split; [reflexivity|]. split; [discriminate|reflexivity].
Qed.

(** Without the hypothesis on the pointer: whenever a channel read returns,
    the cells differ from before exactly when the status is
    [MLX90614_EC_OK], and then only at [dst]. *)
Lemma read_channel_frame (c : channel) (dst : Z) (m m' : machine W) (st : MLX90614_Status) :
  read_channel hal c dst m = Some (st, m') ->
  (st = MLX90614_EC_OK /\ exists t, heap m' = store (heap m) dst t) \/
  (st <> MLX90614_EC_OK /\ heap m' = heap m).
Proof.
  rewrite read_channel_cases.
  set (read := HAL_I2C_Mem_Read _ _ _ _ _ _ _ _).
  set (raw := little_endian _ _).
  destruct (fst (fst read)); cbn [HAL_ret_handler];
    try (intro E; injection E as <- <-; right; split; [discriminate|reflexivity]).
  destruct (raw >? 0x7FFF);
    [intro E; injection E as <- <-; right; split; [discriminate|reflexivity]|].
  destruct (call_conversion _ raw) as [t|]; [|discriminate].
  intro E; injection E as <- <-. left. split; [reflexivity|]. now exists t.
Qed.

End Channels.

(** ** The address rewrite *)

(** The four bytes the driver assembles for a write to the non-volatile
    memory are the transaction of the specification. *)
Lemma assembled_command (wire low high : Z) :
  [MLX90614_SLAVE_ADDRESS_EEPROM_ADDRESS; low; high;
   calculate_pec
     (calculate_pec
        (calculate_pec (calculate_pec MLX90614_PEC_RESET_VALUE wire)
           MLX90614_SLAVE_ADDRESS_EEPROM_ADDRESS) low) high]
  = Protocol.transaction wire MLX90614_SLAVE_ADDRESS_EEPROM_ADDRESS low high.
Proof.
  unfold Protocol.transaction. rewrite <- pec_of_crc8.
  unfold pec_of. cbn [fold_left]. reflexivity.
Qed.

Section Rewrite.

Context {W : Type} (hal : HAL W).

(** C2: for an in-range new address, [set_mlx90614_device_slave_address]
    reads the two-byte address cell; transmits the erase transaction;
    waits the settle time; transmits the write transaction, whose high
    byte is the one just read; waits the settle time; and stores the new
    address and its shifted form. The first HAL call that does not return
    [HAL_OK] ends the function with its mapped status, the driver's state
    unchanged and no later call made. *)
Theorem set_mlx90614_device_slave_address_sequence (m : machine W) (new_slave_address : Z) :
  valid_slave_address new_slave_address ->
  let h := p_hi2c (drv m) in
  let wire := mlx90614_slave_address_one_bit_left_shifted (drv m) in
  let read_cell :=
    Mem_Read h wire MLX90614_SLAVE_ADDRESS_EEPROM_ADDRESS
      MLX90614_RAM_OR_EEPROM_ADDRESS_SIZE MLX90614_EEPROM_SLAVE_ADDRESS_SIZE
      MLX90614_I2C_TIMEOUT in
  let r1 :=
    HAL_I2C_Mem_Read hal (bus m) h wire MLX90614_SLAVE_ADDRESS_EEPROM_ADDRESS
      MLX90614_RAM_OR_EEPROM_ADDRESS_SIZE MLX90614_EEPROM_SLAVE_ADDRESS_SIZE
      MLX90614_I2C_TIMEOUT in
  let preserved := uint8 (snd (snd (fst r1))) in
  let erase :=
    Master_Transmit h wire (Protocol.erase wire)
      MLX90614_I2C_WRITE_COMMAND_SIZE MLX90614_I2C_TIMEOUT in
  let r2 :=
    HAL_I2C_Master_Transmit hal (snd r1) h wire (Protocol.erase wire)
      MLX90614_I2C_WRITE_COMMAND_SIZE MLX90614_I2C_TIMEOUT in
  let settle := Delay MLX90614_ERASE_OR_WRITE_CELL_TIME in
  let write :=
    Master_Transmit h wire (Protocol.write wire new_slave_address preserved)
      MLX90614_I2C_WRITE_COMMAND_SIZE MLX90614_I2C_TIMEOUT in
  let r3 :=
    HAL_I2C_Master_Transmit hal
      (HAL_Delay hal (snd r2) MLX90614_ERASE_OR_WRITE_CELL_TIME) h wire
      (Protocol.write wire new_slave_address preserved)
      MLX90614_I2C_WRITE_COMMAND_SIZE MLX90614_I2C_TIMEOUT in
  set_mlx90614_device_slave_address hal new_slave_address m =
  Some
    match fst (fst r1), fst r2, fst r3 with
    | HAL_OK, HAL_OK, HAL_OK =>
        (MLX90614_EC_OK,
         Machine
           (set_slave_address_one_bit_left_shifted (uint8 (Z.shiftl new_slave_address 1))
              (set_slave_address new_slave_address (drv m)))
           (HAL_Delay hal (snd r3) MLX90614_ERASE_OR_WRITE_CELL_TIME)
           (log m ++ [read_cell; erase; settle; write; settle]) (heap m))
    | HAL_OK, HAL_OK, failure =>
        (HAL_ret_handler failure,
         Machine (drv m) (snd r3) (log m ++ [read_cell; erase; settle; write]) (heap m))
    | HAL_OK, failure, _ =>
        (HAL_ret_handler failure,
         Machine (drv m) (snd r2) (log m ++ [read_cell; erase]) (heap m))
    | failure, _, _ =>
        (HAL_ret_handler failure,
         Machine (drv m) (snd r1) (log m ++ [read_cell]) (heap m))
    end.
Proof.
  intros Hv h wire read_cell r1 preserved erase r2 settle write r3.
  unfold set_mlx90614_device_slave_address.
  rewrite (proj2 (valid_slave_address_test _) Hv).
  run. fold h wire r1.
  cbn [array_get array_set nth]. rewrite !assembled_command.
  change (Protocol.transaction wire _ MLX90614_SLAVE_ADDRESS_EEPROM_ERASE_VALUE
            MLX90614_SLAVE_ADDRESS_EEPROM_ERASE_VALUE) with (Protocol.erase wire).
  fold preserved.
  change (Protocol.transaction wire _ new_slave_address preserved)
    with (Protocol.write wire new_slave_address preserved).
  destruct (fst (fst r1)) eqn:E1; cbn [HAL_ret_handler]; run; log_assoc;
    try reflexivity.
  fold r2. destruct (fst r2) eqn:E2; cbn [HAL_ret_handler]; run; log_assoc;
    try reflexivity.
  fold r3. destruct (fst r3) eqn:E3; cbn [HAL_ret_handler]; run; log_assoc;
    reflexivity.
Qed.

(** An out-of-range new address is refused before any HAL call. *)
Lemma set_mlx90614_device_slave_address_invalid (m : machine W) (a : Z) :
  ~ valid_slave_address a ->
  set_mlx90614_device_slave_address hal a m = Some (MLX90614_EC_ERR, m).
Proof.
  intro H. unfold set_mlx90614_device_slave_address.
  destruct ((a >? _) || (a <? _)) eqn:R; [reflexivity|].
  now apply valid_slave_address_test in R.
Qed.

(** The events a run of [set_mlx90614_device_slave_address] adds to the
    log are well formed, and none after the first is a read. *)
Lemma set_mlx90614_device_slave_address_log (m m' : machine W) (a : Z) (st : MLX90614_Status) :
  set_mlx90614_device_slave_address hal a m = Some (st, m') ->
  exists added,
    log m' = log m ++ added /\
    Forall rewrite_event added /\
    Forall (fun e => ~ is_read e) (tl added).
Proof.
  unfold set_mlx90614_device_slave_address.
  destruct ((a >? _) || (a <? _)).
  { intro E. injection E as <- <-. exists []. rewrite app_nil_r.
    repeat split; constructor. }
  assert (D : forall ms, ~ is_read (Delay ms)) by (intros ms []).
  assert (T : forall h wire pData n t, ~ is_read (Master_Transmit h wire pData n t))
    by (intros h wire pData n t []).
  assert (R : forall h wire low high n t,
             rewrite_event
               (Master_Transmit h wire
                  (Protocol.transaction wire MLX90614_SLAVE_ADDRESS_EEPROM_ADDRESS low high)
                  n t))
    by (intros; cbn; eauto).
  run. cbn [array_get array_set nth]. rewrite !assembled_command.
  set (r1 := HAL_I2C_Mem_Read _ _ _ _ _ _ _ _).
  destruct (HAL_ret_handler (fst (fst r1))); run; log_assoc;
    try (intro E; injection E as <- <-; eexists; split; [reflexivity|];
         cbn [tl]; split; repeat constructor; auto).
  set (r2 := HAL_I2C_Master_Transmit _ _ _ _ _ _ _).
  destruct (HAL_ret_handler (fst r2)); run; log_assoc;
    try (intro E; injection E as <- <-; eexists; split; [reflexivity|];
         cbn [tl]; split; repeat constructor; auto).
  set (r3 := HAL_I2C_Master_Transmit _ _ _ _ _ _ _).
  destruct (HAL_ret_handler (fst r3)); run; log_assoc;
    intro E; injection E as <- <-; eexists; (split; [reflexivity|]);
    cbn [tl]; split; repeat constructor; auto.
Qed.

End Rewrite.

(** ** Discovery *)
Section Discovery.

Context {W : Type} (hal : HAL W).

Lemma find_loop_step (cur : Z) (m : machine W) :
  find_loop hal cur m =
  if cur <? MLX90614_MAX_VALID_SLAVE_ADDRESS_VALUE_PLUS_ONE then
    let r := HAL_I2C_IsDeviceReady hal (bus m) (p_hi2c (drv m)) (uint8 (Z.shiftl cur 1))
               IS_MLX90614_READY_NUMBER_OF_TRIALS MLX90614_I2C_TIMEOUT in
    let m1 := Machine (drv m) (snd r) (log m ++ [probe_of (p_hi2c (drv m)) cur]) (heap m) in
    match fst r with
    | HAL_OK =>
        Some (MLX90614_EC_OK,
              Machine
                (set_slave_address_one_bit_left_shifted (uint8 (Z.shiftl cur 1))
                   (set_slave_address cur (drv m)))
                (snd r) (log m1) (heap m))
    | _ => find_loop hal (uint8 (cur + 1)) m1
    end
  else Some (MLX90614_EC_NR, m).
Proof.
  simp find_loop.
  destruct (Z_lt_dec cur MLX90614_MAX_VALID_SLAVE_ADDRESS_VALUE_PLUS_ONE) as [H|H];
    cbn.
  - replace (cur <? _) with true by (symmetry; now apply Z.ltb_lt).
    unfold is_device_ready. cbn.
    destruct (fst (HAL_I2C_IsDeviceReady _ _ _ _ _ _)); reflexivity.
  - replace (cur <? _) with false by (symmetry; apply Z.ltb_ge; lia).
    reflexivity.
Qed.

Lemma find_loop_nobody (n : nat) : forall (cur : Z) (m : machine W),
  0 <= cur ->
  Z.of_nat n = MLX90614_MAX_VALID_SLAVE_ADDRESS_VALUE_PLUS_ONE - cur ->
  (forall w a, cur <= a < MLX90614_MAX_VALID_SLAVE_ADDRESS_VALUE_PLUS_ONE ->
               ~ ready hal (p_hi2c (drv m)) w a) ->
  exists w',
    find_loop hal cur m =
    Some (MLX90614_EC_NR,
          Machine (drv m) w'
            (log m ++ map (probe_of (p_hi2c (drv m))) (addresses_from cur n)) (heap m)).
Proof.
  unfold MLX90614_MAX_VALID_SLAVE_ADDRESS_VALUE_PLUS_ONE.
  induction n as [|n IH]; intros cur m Hc Hn Hq; rewrite find_loop_step;
    unfold MLX90614_MAX_VALID_SLAVE_ADDRESS_VALUE_PLUS_ONE.
  - replace (cur <? 0x7F) with false by (symmetry; apply Z.ltb_ge; lia).
    exists (bus m). cbn [addresses_from map]. rewrite app_nil_r. destruct m; reflexivity.
  - replace (cur <? 0x7F) with true by (symmetry; apply Z.ltb_lt; lia).
    cbv zeta.
    specialize (Hq (bus m) cur ltac:(lia)) as Hnow. unfold ready in Hnow.
    rewrite (uint8_small (cur + 1)) by lia.
    set (m1 := Machine (drv m) _ _ _).
    destruct (IH (cur + 1) m1 ltac:(lia) ltac:(lia)) as [w' E].
    { intros w a Ha. apply Hq. lia. }
    exists w'.
    destruct (fst (HAL_I2C_IsDeviceReady _ _ _ _ _ _)); [congruence | ..];
      rewrite E; subst m1; cbn [drv log heap addresses_from map]; log_assoc; reflexivity.
Qed.

Lemma find_loop_first (n : nat) : forall (cur k : Z) (m : machine W),
  0 <= cur -> k < MLX90614_MAX_VALID_SLAVE_ADDRESS_VALUE_PLUS_ONE ->
  Z.of_nat n = k - cur ->
  (forall w a, cur <= a < k -> ~ ready hal (p_hi2c (drv m)) w a) ->
  (forall w, ready hal (p_hi2c (drv m)) w k) ->
  exists w',
    find_loop hal cur m =
    Some (MLX90614_EC_OK,
          Machine
            (set_slave_address_one_bit_left_shifted (uint8 (Z.shiftl k 1))
               (set_slave_address k (drv m)))
            w'
            (log m ++ map (probe_of (p_hi2c (drv m))) (addresses_from cur (S n))) (heap m)).
Proof.
  unfold MLX90614_MAX_VALID_SLAVE_ADDRESS_VALUE_PLUS_ONE.
  induction n as [|n IH]; intros cur k m Hc Hk Hn Hq Hr; rewrite find_loop_step;
    unfold MLX90614_MAX_VALID_SLAVE_ADDRESS_VALUE_PLUS_ONE;
    (replace (cur <? 0x7F) with true by (symmetry; apply Z.ltb_lt; lia));
    cbv zeta.
  - assert (cur = k) by lia. subst cur.
    specialize (Hr (bus m)). unfold ready in Hr. rewrite Hr.
    eexists. cbn [log addresses_from map]. reflexivity.
  - specialize (Hq (bus m) cur ltac:(lia)) as Hnow. unfold ready in Hnow.
    rewrite (uint8_small (cur + 1)) by lia.
    set (m1 := Machine (drv m) _ _ _).
    destruct (IH (cur + 1) k m1 ltac:(lia) ltac:(lia) ltac:(lia)) as [w' E].
    { intros w a Ha. apply Hq. lia. }
    { exact Hr. }
    exists w'.
    destruct (fst (HAL_I2C_IsDeviceReady _ _ _ _ _ _)); [congruence | ..];
      rewrite E; subst m1; cbn [drv log heap addresses_from map]; log_assoc; reflexivity.
Qed.

(** Discovery stops at the first address that answers: when no address
    from 3 up to [k] answers and [k] does, whatever answers above [k], the
    probes are those of 3, ..., [k] and [k] becomes the believed address. *)
Lemma find_mlx90614_slave_address_first_ready (m : machine W) (k : Z) :
  valid_slave_address k ->
  (forall w a, MLX90614_MIN_VALID_SLAVE_ADDRESS_VALUE <= a < k ->
               ~ ready hal (p_hi2c (drv m)) w a) ->
  (forall w, ready hal (p_hi2c (drv m)) w k) ->
  exists w',
    find_mlx90614_slave_address hal m =
    Some (MLX90614_EC_OK,
          Machine
            (set_slave_address_one_bit_left_shifted (uint8 (Z.shiftl k 1))
               (set_slave_address k (drv m)))
            w'
            (log m ++ map (probe_of (p_hi2c (drv m)))
                        (addresses_from MLX90614_MIN_VALID_SLAVE_ADDRESS_VALUE
                           (S (Z.to_nat (k - MLX90614_MIN_VALID_SLAVE_ADDRESS_VALUE)))))
            (heap m)).
Proof.
  unfold valid_slave_address, find_mlx90614_slave_address,
    MLX90614_MIN_VALID_SLAVE_ADDRESS_VALUE, MLX90614_MAX_VALID_SLAVE_ADDRESS_VALUE.
  intros Hk Hbelow Hat.
  apply find_loop_first;
    unfold MLX90614_MAX_VALID_SLAVE_ADDRESS_VALUE_PLUS_ONE; try lia; assumption.
Qed.

(** C3: on a bus where, of the addresses 3 to 0x7E, exactly the address
    [k] answers a probe, [find_mlx90614_slave_address] probes 3, 4, ..., [k]
    in this order and nothing else, stores [k] and its shifted form and
    returns [MLX90614_EC_OK]; on a bus where none of them answers it
    probes 3, 4, ..., 0x7E, returns [MLX90614_EC_NR] (the driver's status
    for "no response") and leaves the driver's state as it was. The
    address 0 is never probed. *)
Theorem find_mlx90614_slave_address_discovers (m : machine W) (found : option Z) :
  (forall k, found = Some k -> valid_slave_address k) ->
  (forall w a, valid_slave_address a ->
     ready hal (p_hi2c (drv m)) w a <-> found = Some a) ->
  exists w',
    find_mlx90614_slave_address hal m =
    Some
      match found with
      | Some k =>
          (MLX90614_EC_OK,
           Machine
             (set_slave_address_one_bit_left_shifted (uint8 (Z.shiftl k 1))
                (set_slave_address k (drv m)))
             w'
             (log m ++ map (probe_of (p_hi2c (drv m)))
                         (addresses_from MLX90614_MIN_VALID_SLAVE_ADDRESS_VALUE
                            (Z.to_nat (k - MLX90614_MIN_VALID_SLAVE_ADDRESS_VALUE + 1))))
             (heap m))
      | None =>
          (MLX90614_EC_NR,
           Machine (drv m) w'
             (log m ++ map (probe_of (p_hi2c (drv m)))
                         (addresses_from MLX90614_MIN_VALID_SLAVE_ADDRESS_VALUE 124))
             (heap m))
      end.
Proof.
  intros Hv Hb. unfold find_mlx90614_slave_address.
  unfold valid_slave_address, MLX90614_MIN_VALID_SLAVE_ADDRESS_VALUE,
    MLX90614_MAX_VALID_SLAVE_ADDRESS_VALUE in *.
  destruct found as [k|].
  - specialize (Hv k eq_refl).
    replace (Z.to_nat (k - 3 + 1)) with (S (Z.to_nat (k - 3))) by lia.
    apply find_loop_first;
      unfold MLX90614_MAX_VALID_SLAVE_ADDRESS_VALUE_PLUS_ONE, ready; try lia.
    + intros w a Ha Hr. apply Hb in Hr; [|lia]. injection Hr as ->. lia.
    + intro w. now apply Hb.
  - apply find_loop_nobody;
      unfold MLX90614_MAX_VALID_SLAVE_ADDRESS_VALUE_PLUS_ONE, ready; try lia.
    intros w a Ha Hr. apply Hb in Hr; [discriminate|lia].
Qed.

End Discovery.

(** ** The checksum of the transmitted transactions *)

(** C1: the PEC the driver computes over a byte sequence, one call of
    [calculate_pec] per byte from the reset value 0, is the CRC-8 of the
    specification (each byte XORed into the accumulator, then eight
    doublings, each followed by an XOR with 0x07 when the top bit was set
    before it); and every transaction that
    [set_mlx90614_device_slave_address] transmits ends with that checksum
    of the wire address byte, the register address byte and the two payload
    bytes. *)
Theorem pec_is_reference_crc8 :
  (forall bytes : list Z, pec_of bytes = Reference.crc8 bytes) /\
  (forall (W : Type) (hal : HAL W) (a : Z) (m m' : machine W) (st : MLX90614_Status)
          (h wire : Z) (pData : list Z) (Size Timeout : Z),
      set_mlx90614_device_slave_address hal a m = Some (st, m') ->
      In (Master_Transmit h wire pData Size Timeout) (skipn (length (log m)) (log m')) ->
      exists low high : Z,
        pData = [MLX90614_SLAVE_ADDRESS_EEPROM_ADDRESS; low; high;
                 Reference.crc8 [wire; MLX90614_SLAVE_ADDRESS_EEPROM_ADDRESS; low; high]]).
Proof.
  split; [exact pec_of_crc8|].
  intros W hal a m m' st h wire pData Size Timeout Hrun Hin.
  destruct (set_mlx90614_device_slave_address_log hal m m' a st Hrun)
    as (added & Hlog & Hall & _).
  rewrite Hlog, skipn_app, skipn_all, Nat.sub_diag in Hin. cbn [skipn app] in Hin.
  rewrite Forall_forall in Hall. exact (Hall _ Hin).
Qed.

(** ** Runs on the simulated bus *)

Lemma sim_addressed (k a : Z) :
  0 <= a <= 0x7F ->
  Sim.addressed (Sim.at_address k) (uint8 (Z.shiftl a 1)) = (k =? a).
Proof.
  intro H. unfold Sim.addressed, Sim.at_address. cbn [Sim.answers].
  rewrite shifted_small by exact H.
  rewrite Z.shiftr_div_pow2 by lia. change (2 ^ 1) with 2.
  now rewrite Z.mul_comm, Z.div_mul by lia.
Qed.

Lemma sim_ready (k h a : Z) (w : Sim.state) :
  0 <= a <= 0x7F ->
  ready (Sim.hal (Sim.at_address k)) h w a <-> k = a.
Proof.
  intro H. unfold ready. cbn [Sim.hal HAL_I2C_IsDeviceReady fst].
  rewrite (sim_addressed k a H).
  destruct (Z.eqb_spec k a); split; intro; try assumption; try reflexivity;
    try discriminate; contradiction.
Qed.

(** C6, the failing input: [init_mlx90614_module(&hi2c2, 1, MLX90614_Temp_C)]
    at program start. The address 1 is below
    [MLX90614_MIN_VALID_SLAVE_ADDRESS_VALUE], yet the driver probes the bus
    at the wire address 2: where a device answers there it stores 1 as the
    believed address and returns [MLX90614_EC_OK], and where the only
    device is at 0x5A it returns [MLX90614_EC_NR], not [MLX90614_EC_ERR].
    [set_mlx90614_module_slave_address] refuses the same address without
    a probe. *)
Theorem init_accepts_address_1 :
  init_mlx90614_module (Sim.hal (Sim.at_address 1)) Sim.hi2c2 1 MLX90614_Temp_C Sim.boot
  = Some (MLX90614_EC_OK,
          Machine (Driver Sim.hi2c2 1 2 MLX90614_Temp_C in_celsius) Sim.factory
            [IsDeviceReady 0 2 IS_MLX90614_READY_NUMBER_OF_TRIALS MLX90614_I2C_TIMEOUT]
            (heap Sim.boot))
  /\ init_mlx90614_module (Sim.hal (Sim.at_address 0x5A)) Sim.hi2c2 1 MLX90614_Temp_C Sim.boot
     = Some (MLX90614_EC_NR,
             Machine startup Sim.factory
               [IsDeviceReady 0 2 IS_MLX90614_READY_NUMBER_OF_TRIALS MLX90614_I2C_TIMEOUT]
               (heap Sim.boot))
  /\ ~ valid_slave_address 1
  /\ set_mlx90614_module_slave_address (Sim.hal (Sim.at_address 1)) 1 Sim.boot
     = Some (MLX90614_EC_ERR, Sim.boot).
Proof.
  split; [vm_compute; reflexivity|]. split; [vm_compute; reflexivity|].
  split; [|vm_compute; reflexivity].
  unfold valid_slave_address, MLX90614_MIN_VALID_SLAVE_ADDRESS_VALUE. lia.
Qed.

(** C5, the failing input: the address 0x41 is requested from a device at
    0x5A that acknowledges every transaction and does not take the write.
    The driver makes no read after the write transaction, returns
    [MLX90614_EC_OK] and believes 0x41, while the cell still holds 0x5A. *)
Theorem rewrite_is_not_read_back :
  exists m',
    set_mlx90614_device_slave_address (Sim.hal (Sim.read_only 0x5A)) 0x41 Sim.initialised
    = Some (MLX90614_EC_OK, m') /\
    mlx90614_slave_address (drv m') = 0x41 /\
    Sim.cell_low (bus m') = 0x5A /\
    log m' =
    [Mem_Read Sim.hi2c2 0xB4 MLX90614_SLAVE_ADDRESS_EEPROM_ADDRESS 1 2 100;
     Master_Transmit Sim.hi2c2 0xB4 (Protocol.erase 0xB4) 4 100;
     Delay 1000;
     Master_Transmit Sim.hi2c2 0xB4 (Protocol.write 0xB4 0x41 0xBE) 4 100;
     Delay 1000].
Proof.
  evaluated. repeat split.
Qed.

(** The earlier revision, on the same input, reads the cell back, finds
    0x5A where 0x41 was asked for, returns [MLX90614_EC_ERR] and keeps the
    believed address. *)
Lemma earlier_rewrite_is_read_back :
  exists m',
    Earlier.set_mlx90614_device_slave_address (Sim.hal (Sim.read_only 0x5A)) 0x41 Sim.initialised
    = Some (MLX90614_EC_ERR, m') /\
    drv m' = drv Sim.initialised /\
    last (log m') (Delay 0)
    = Mem_Read Sim.hi2c2 0 MLX90614_SLAVE_ADDRESS_EEPROM_ADDRESS 1 2 100.
Proof.
  evaluated. split; reflexivity.
Qed.

(** In the current revision no run reads the bus after the first call:
    every later call is a transmit or a delay. *)
Lemma rewrite_reads_once {W : Type} (hal : HAL W) (m m' : machine W) (a : Z)
    (st : MLX90614_Status) :
  set_mlx90614_device_slave_address hal a m = Some (st, m') ->
  forall e, In e (tl (skipn (length (log m)) (log m'))) -> ~ is_read e.
Proof.
  intros Hrun e Hin.
  destruct (set_mlx90614_device_slave_address_log hal m m' a st Hrun)
    as (added & Hlog & _ & Hall).
  rewrite Hlog, skipn_app, skipn_all, Nat.sub_diag in Hin. cbn [skipn app] in Hin.
  rewrite Forall_forall in Hall. exact (Hall _ Hin).
Qed.

(** [init_mlx90614_module(&hi2c2, 0, MLX90614_Temp_C)] at program start. *)
Example initialisation :
  init_mlx90614_module (Sim.hal (Sim.at_address 0x5A)) Sim.hi2c2 0 MLX90614_Temp_C Sim.boot
  = Some (MLX90614_EC_OK, Sim.initialised).
Proof. vm_compute. reflexivity. Qed.

(** Discovery on a bus where nobody answers: all 124 addresses are probed
    and the driver's state is as before. *)
Example discovery_finds_nobody :
  find_mlx90614_slave_address (Sim.hal Sim.nobody) Sim.initialised
  = Some (MLX90614_EC_NR,
          Machine (drv Sim.initialised) Sim.factory
            (map (probe_of Sim.hi2c2)
               (addresses_from MLX90614_MIN_VALID_SLAVE_ADDRESS_VALUE 124))
            (heap Sim.initialised)).
Proof. vm_compute. reflexivity. Qed.

(** The ambient channel of the simulated device reads 13807, stored as
    2.99 degrees Celsius. *)
Example ambient_reading :
  exists m',
    get_mlx90614_ambient_temperature (Sim.hal (Sim.at_address 0x5A)) 7 Sim.initialised
    = Some (MLX90614_EC_OK, m') /\
    heap m' 7 = get_mlx90614_converted_temperature_in_celsius 13807 /\
    FP.within (heap m' 7) (299 # 100) (1 # 1000).
Proof.
  evaluated. split; vm_compute; reflexivity.
Qed.

(** ** The theorems at concrete inputs *)

Lemma pec_is_reference_crc8_witness :
  exists low high : Z,
    [0x2E; 0x41; 0xBE; 210]
    = [MLX90614_SLAVE_ADDRESS_EEPROM_ADDRESS; low; high;
       Reference.crc8 [0xB4; MLX90614_SLAVE_ADDRESS_EEPROM_ADDRESS; low; high]].
Proof.
  assert (E : set_mlx90614_device_slave_address (Sim.hal (Sim.at_address 0x5A)) 0x41
                Sim.initialised = Some (MLX90614_EC_OK, Sim.rewritten))
    by (vm_compute; reflexivity).
  refine (proj2 pec_is_reference_crc8 _ (Sim.hal (Sim.at_address 0x5A)) 0x41
            Sim.initialised Sim.rewritten MLX90614_EC_OK Sim.hi2c2 0xB4
            [0x2E; 0x41; 0xBE; 210] 4 100 E _).
  cbn. right. right. right. left. reflexivity.
Defined.

Lemma set_mlx90614_device_slave_address_sequence_witness :
  valid_slave_address 0x41 /\
  set_mlx90614_device_slave_address (Sim.hal (Sim.transmit_fails 0x5A)) 0x41 Sim.initialised
  = Some (MLX90614_EC_ERR,
          Machine (drv Sim.initialised) Sim.factory
            [Mem_Read Sim.hi2c2 0xB4 MLX90614_SLAVE_ADDRESS_EEPROM_ADDRESS 1 2 100;
             Master_Transmit Sim.hi2c2 0xB4 (Protocol.erase 0xB4) 4 100]
            (heap Sim.initialised)).
Proof.
  assert (V : valid_slave_address 0x41)
    by (unfold valid_slave_address, MLX90614_MIN_VALID_SLAVE_ADDRESS_VALUE,
          MLX90614_MAX_VALID_SLAVE_ADDRESS_VALUE; lia).
  split; [exact V|].
  rewrite (set_mlx90614_device_slave_address_sequence
             (Sim.hal (Sim.transmit_fails 0x5A)) Sim.initialised 0x41 V).
  reflexivity.
Defined.

Lemma find_mlx90614_slave_address_discovers_witness :
  exists w',
    find_mlx90614_slave_address (Sim.hal (Sim.at_address 0x5A)) Sim.initialised
    = Some (MLX90614_EC_OK,
            Machine (Driver Sim.hi2c2 0x5A 0xB4 MLX90614_Temp_C in_celsius) w'
              (map (probe_of Sim.hi2c2)
                 (addresses_from MLX90614_MIN_VALID_SLAVE_ADDRESS_VALUE 88))
              (heap Sim.initialised)).
Proof.
  apply (find_mlx90614_slave_address_discovers
           (Sim.hal (Sim.at_address 0x5A)) Sim.initialised (Some 0x5A)).
  - intros k E. injection E as <-.
    unfold valid_slave_address, MLX90614_MIN_VALID_SLAVE_ADDRESS_VALUE,
      MLX90614_MAX_VALID_SLAVE_ADDRESS_VALUE. lia.
  - intros w a Ha.
    unfold valid_slave_address, MLX90614_MIN_VALID_SLAVE_ADDRESS_VALUE,
      MLX90614_MAX_VALID_SLAVE_ADDRESS_VALUE in Ha.
    rewrite sim_ready by lia. split; congruence.
Defined.

Lemma set_mlx90614_module_slave_address_atomic_witness :
  set_mlx90614_module_slave_address (Sim.hal (Sim.at_address 0x5A)) 0x7F Sim.initialised
  = Some (MLX90614_EC_ERR, Sim.initialised).
Proof.
  destruct (set_mlx90614_module_slave_address_atomic
              (Sim.hal (Sim.at_address 0x5A)) Sim.initialised 0x7F)
    as (st & m' & E & Hinvalid & _).
  destruct Hinvalid as [-> ->]; [|exact E].
  unfold valid_slave_address, MLX90614_MAX_VALID_SLAVE_ADDRESS_VALUE. lia.
Defined.

Lemma error_flag_is_refused_witness :
  read_channel (Sim.hal (Sim.at_address 0x5A)) object1 7 Sim.initialised
  = Some (MLX90614_EC_ERR,
          Machine (drv Sim.initialised) Sim.factory
            [Mem_Read Sim.hi2c2 0xB4 MLX90614_TOBJ1_RAM_ADDRESS 1 2 100]
            (heap Sim.initialised)).
Proof.
  apply (error_flag_is_refused (Sim.hal (Sim.at_address 0x5A)) object1 7 Sim.initialised).
  - reflexivity.
  - vm_compute. discriminate.
Defined.

Lemma read_channel_writes_on_success_only_witness :
  exists st m',
    read_channel (Sim.hal (Sim.at_address 0x5A)) ambient 7 Sim.initialised = Some (st, m') /\
    (st = MLX90614_EC_OK ->
     exists t, heap m' = store (heap Sim.initialised) 7 t /\
               heap m' 7 = t /\
               forall q, q <> 7 -> heap m' q = heap Sim.initialised q) /\
    (st <> MLX90614_EC_OK -> heap m' = heap Sim.initialised).
Proof.
  apply (read_channel_writes_on_success_only
           (Sim.hal (Sim.at_address 0x5A)) ambient 7 Sim.initialised).
  discriminate.
Defined.

Lemma init_mlx90614_module_not_atomic_witness :
  exists m',
    init_mlx90614_module (Sim.hal (Sim.at_address 0x41)) Sim.hi2c2 0x41 7 Sim.boot
    = Some (MLX90614_EC_ERR, m') /\
    p_hi2c (drv m') = Sim.hi2c2 /\
    mlx90614_slave_address (drv m') = 0x41 /\
    mlx90614_slave_address_one_bit_left_shifted (drv m') = uint8 (Z.shiftl 0x41 1) /\
    mlx90614_temperature_type (drv m') = mlx90614_temperature_type (drv Sim.boot) /\
    p_get_mlx90614_converted_temperature (drv m')
    = p_get_mlx90614_converted_temperature (drv Sim.boot).
Proof.
  apply (init_mlx90614_module_not_atomic
           (Sim.hal (Sim.at_address 0x41)) Sim.boot Sim.hi2c2 0x41 7).
  - discriminate.
  - unfold MLX90614_MAX_VALID_SLAVE_ADDRESS_VALUE. lia.
  - reflexivity.
  - discriminate.
  - discriminate.
  - discriminate.
Defined.

(** * The interface as a whole *)

(** ** What each function does to the machine *)

Lemma HAL_ret_handler_never (s : HAL_StatusTypeDef) :
  HAL_ret_handler s <> MLX90614_EC_STOP /\ HAL_ret_handler s <> MLX90614_EC_NA.
Proof. destruct s; cbn; split; discriminate. Qed.

Section Effects.

Context {W : Type} (hal : HAL W).

(** The loop of the discovery on any bus: it probes consecutive addresses
    from [cur] on, and either runs out of addresses with the statics as
    they were, or adopts the last address it probed. *)
Lemma find_loop_any (n : nat) : forall (cur : Z) (m : machine W),
  0 <= cur ->
  Z.of_nat n = MLX90614_MAX_VALID_SLAVE_ADDRESS_VALUE_PLUS_ONE - cur ->
  exists (j : nat) (w' : W) (st : MLX90614_Status) (d' : driver),
    find_loop hal cur m =
    Some (st, Machine d' w'
                (log m ++ map (probe_of (p_hi2c (drv m))) (addresses_from cur j))
                (heap m)) /\
    (j <= n)%nat /\
    ((st = MLX90614_EC_NR /\ d' = drv m /\ j = n) \/
     (st = MLX90614_EC_OK /\ (1 <= j)%nat /\
      d' = store_address (cur + Z.of_nat j - 1) (drv m))).
Proof.
  unfold MLX90614_MAX_VALID_SLAVE_ADDRESS_VALUE_PLUS_ONE.
  induction n as [|n IH]; intros cur m Hc Hn; rewrite find_loop_step;
    unfold MLX90614_MAX_VALID_SLAVE_ADDRESS_VALUE_PLUS_ONE.
  - replace (cur <? 0x7F) with false by (symmetry; apply Z.ltb_ge; lia).
    exists 0%nat, (bus m), MLX90614_EC_NR, (drv m).
    cbn [addresses_from map]. rewrite app_nil_r.
    split; [destruct m; reflexivity|]. split; [lia|]. left. auto.
  - replace (cur <? 0x7F) with true by (symmetry; apply Z.ltb_lt; lia).
    cbv zeta. rewrite (uint8_small (cur + 1)) by lia.
    set (r := HAL_I2C_IsDeviceReady _ _ _ _ _ _).
    set (m1 := Machine (drv m) _ _ _).
    destruct (IH (cur + 1) m1 ltac:(lia) ltac:(lia))
      as (j & w' & st & d' & E & Hj & Hcase).
    assert (Hfail :
      exists (j0 : nat) (w0 : W) (st0 : MLX90614_Status) (d0 : driver),
        find_loop hal (cur + 1) m1 =
        Some (st0, Machine d0 w0
                     (log m ++ map (probe_of (p_hi2c (drv m))) (addresses_from cur j0))
                     (heap m)) /\
        (j0 <= S n)%nat /\
        ((st0 = MLX90614_EC_NR /\ d0 = drv m /\ j0 = S n) \/
         (st0 = MLX90614_EC_OK /\ (1 <= j0)%nat /\
          d0 = store_address (cur + Z.of_nat j0 - 1) (drv m)))).
    { exists (S j), w', st, d'. rewrite E. subst m1.
      cbn [drv log heap addresses_from map]. log_assoc.
      split; [reflexivity|]. split; [lia|].
      destruct Hcase as [(-> & -> & ->)|(-> & Hj1 & ->)]; [left; auto|].
      right. split; [reflexivity|]. split; [lia|]. f_equal. lia. }
    destruct (fst r); try exact Hfail.
    exists 1%nat, (snd r), MLX90614_EC_OK, (store_address cur (drv m)).
    cbn [addresses_from map log]. split; [reflexivity|]. split; [lia|].
    right. split; [reflexivity|]. split; [lia|]. f_equal. lia.
Qed.

Lemma find_any (m : machine W) :
  exists (j : nat) (w' : W) (st : MLX90614_Status) (d' : driver),
    find_mlx90614_slave_address hal m =
    Some (st, Machine d' w'
                (log m ++ map (probe_of (p_hi2c (drv m)))
                            (addresses_from MLX90614_MIN_VALID_SLAVE_ADDRESS_VALUE j))
                (heap m)) /\
    (j <= 124)%nat /\
    ((st = MLX90614_EC_NR /\ d' = drv m /\ j = 124%nat) \/
     (st = MLX90614_EC_OK /\ (1 <= j)%nat /\
      d' = store_address (MLX90614_MIN_VALID_SLAVE_ADDRESS_VALUE + Z.of_nat j - 1) (drv m))).
Proof.
  unfold find_mlx90614_slave_address, MLX90614_MIN_VALID_SLAVE_ADDRESS_VALUE.
  apply find_loop_any; unfold MLX90614_MAX_VALID_SLAVE_ADDRESS_VALUE_PLUS_ONE; lia.
Qed.

Lemma perform_init (h a t : Z) (m m' : machine W) (r : result) :
  perform hal (Init h a t) m = Some (r, m') -> effect (Init h a t) m r m'.
Proof.
  unfold perform, init_mlx90614_module.
  destruct (Z.gtb_spec a MLX90614_MAX_VALID_SLAVE_ADDRESS_VALUE) as [Hhi|Hlo].
  { run. intro E. injection E as <- <-.
    exists []. rewrite app_nil_r. split; [reflexivity|].
    split; [now constructor | now left]. }
  assert (Hle : a <= MLX90614_MAX_VALID_SLAVE_ADDRESS_VALUE) by lia.
  assert (I : a <> 0 -> init_address a (drv m) = store_address a (drv m)).
  { intro Hnz. unfold init_address. apply Z.eqb_neq in Hnz. now rewrite Hnz. }
  assert (P : a <> 0 -> init_probe a (drv m) = [probe_of (p_hi2c (drv m)) a]).
  { intro Hnz. unfold init_probe. apply Z.eqb_neq in Hnz. now rewrite Hnz. }
  destruct (Z.eqb_spec a 0) as [->|Hnz]; cbn [negb]; run.
  - destruct (select_conversion t) as [f|] eqn:S; run;
      intro E; injection E as <- <-; exists []; rewrite app_nil_r;
      (split; [reflexivity|]); (split; [|now left]); cbn [drv].
    + apply (step_init h 0 t f (drv m) Hle S).
    + apply (step_init_unit h 0 t (drv m) Hle S).
  - destruct (fst (HAL_I2C_IsDeviceReady _ _ _ _ _ _)); run;
      try (intro E; injection E as <- <-; eexists; split; [reflexivity|];
           split; [now constructor | now left]).
    destruct (select_conversion t) as [f|] eqn:S; run;
      intro E; injection E as <- <-; eexists; (split; [reflexivity|]);
      (split; [|now left]); cbn [drv].
    + pose proof (step_init h a t f (drv m) Hle S) as H.
      rewrite (I Hnz), (P Hnz) in H. exact H.
    + pose proof (step_init_unit h a t (drv m) Hle S) as H.
      rewrite (I Hnz), (P Hnz) in H. exact H.
Qed.

Lemma perform_find (m m' : machine W) (r : result) :
  perform hal Find m = Some (r, m') -> effect Find m r m'.
Proof.
  unfold perform, bind, ret.
  destruct (find_any m) as (j & w' & st & d' & -> & Hj & Hcase).
  cbv beta iota. intro E. injection E as <- <-.
  eexists. cbn [drv log heap]. split; [reflexivity|]. split; [|now left].
  destruct Hcase as [(-> & -> & ->)|(-> & Hj1 & ->)]; constructor. lia.
Qed.

Lemma perform_get_address (m m' : machine W) (r : result) :
  perform hal Get_address m = Some (r, m') -> effect Get_address m r m'.
Proof.
  unfold perform, get_mlx90614_module_slave_address. run.
  intro E. injection E as <- <-. exists []. rewrite app_nil_r.
  split; [reflexivity|]. split; [constructor | now left].
Qed.

Lemma perform_set_module (a : Z) (m m' : machine W) (r : result) :
  perform hal (Set_module_address a) m = Some (r, m') ->
  effect (Set_module_address a) m r m'.
Proof.
  unfold perform, set_mlx90614_module_slave_address.
  destruct ((a >? _) || (a <? _)) eqn:R.
  { run. intro E. injection E as <- <-. exists []. rewrite app_nil_r.
    split; [reflexivity|]. split; [|now left]. constructor.
    rewrite <- valid_slave_address_test. congruence. }
  apply valid_slave_address_test in R. run.
  destruct (fst (HAL_I2C_IsDeviceReady _ _ _ _ _ _)); run;
    intro E; injection E as <- <-; eexists; (split; [reflexivity|]);
    (split; [now constructor | now left]).
Qed.

Lemma perform_set_device (a : Z) (m m' : machine W) (r : result) :
  perform hal (Set_device_address a) m = Some (r, m') ->
  effect (Set_device_address a) m r m'.
Proof.
  unfold perform, set_mlx90614_device_slave_address.
  destruct ((a >? _) || (a <? _)) eqn:R.
  { run. intro E. injection E as <- <-. exists []. rewrite app_nil_r.
    split; [reflexivity|]. split; [|now left]. constructor.
    rewrite <- valid_slave_address_test. congruence. }
  apply valid_slave_address_test in R. run.
  cbn [array_get array_set nth]. rewrite !assembled_command.
  set (r1 := HAL_I2C_Mem_Read _ _ _ _ _ _ _ _).
  set (preserved := uint8 (snd (snd (fst r1)))).
  pose proof (step_set_device_failed a MLX90614_EC_NR preserved) as FN.
  pose proof (step_set_device_failed a MLX90614_EC_ERR preserved) as FE.
  pose proof (step_set_device a preserved (drv m) R) as OK.
  unfold cell_read, cell_erase, cell_write, settle, Protocol.erase, Protocol.write in *.
  destruct (HAL_ret_handler (fst (fst r1))) eqn:E1; run; log_assoc;
    try (intro E; injection E as <- <-; eexists; split; [reflexivity|];
         split; [|now left]; cbn [drv];
         first [ now apply FN; auto | now apply FE; auto
               | now destruct (HAL_ret_handler_never (fst (fst r1))) ]).
  set (r2 := HAL_I2C_Master_Transmit _ _ _ _ _ _ _).
  destruct (HAL_ret_handler (fst r2)) eqn:E2; run; log_assoc;
    try (intro E; injection E as <- <-; eexists; split; [reflexivity|];
         split; [|now left]; cbn [drv];
         first [ now apply FN; auto | now apply FE; auto
               | now destruct (HAL_ret_handler_never (fst r2)) ]).
  set (r3 := HAL_I2C_Master_Transmit _ _ _ _ _ _ _).
  destruct (HAL_ret_handler (fst r3)) eqn:E3; run; log_assoc;
    intro E; injection E as <- <-; eexists; (split; [reflexivity|]);
    (split; [|now left]); cbn [drv];
    first [ exact OK | now apply FN; auto | now apply FE; auto
          | now destruct (HAL_ret_handler_never (fst r3)) ].
Qed.

Lemma perform_get_type (m m' : machine W) (r : result) :
  perform hal Get_type m = Some (r, m') -> effect Get_type m r m'.
Proof.
  unfold perform, get_mlx90614_temperature_type. run.
  intro E. injection E as <- <-. exists []. rewrite app_nil_r.
  split; [reflexivity|]. split; [constructor | now left].
Qed.

Lemma perform_set_type (t : Z) (m m' : machine W) (r : result) :
  perform hal (Set_type t) m = Some (r, m') -> effect (Set_type t) m r m'.
Proof.
  unfold perform, set_mlx90614_temperature_type.
  destruct (select_conversion t) as [f|] eqn:S; run;
    intro E; injection E as <- <-; exists []; rewrite app_nil_r;
    (split; [reflexivity|]); (split; [now constructor | now left]).
Qed.

Lemma perform_read (c : channel) (dst : Z) (m m' : machine W) (r : result) :
  perform hal (Read c dst) m = Some (r, m') -> effect (Read c dst) m r m'.
Proof.
  unfold perform, bind, ret. rewrite read_channel_cases.
  set (read := HAL_I2C_Mem_Read _ _ _ _ _ _ _ _).
  set (raw := little_endian _ _).
  destruct (fst (fst read)); cbn [HAL_ret_handler];
    try (cbv beta iota; intro E; injection E as <- <-; eexists;
         split; [reflexivity|]; split; [|now left]; cbn [drv];
         apply step_read_failed; auto).
  destruct (raw >? 0x7FFF);
    [cbv beta iota; intro E; injection E as <- <-; eexists;
     split; [reflexivity|]; split; [|now left]; cbn [drv];
     apply step_read_failed; auto|].
  destruct (p_get_mlx90614_converted_temperature (drv m)) eqn:P;
    cbn [call_conversion]; [discriminate|..];
    cbv beta iota; intro E; injection E as <- <-; eexists;
    (split; [reflexivity|]); cbn [drv heap];
    (split; [apply step_read; rewrite P; discriminate
            | right; do 3 eexists; repeat split; reflexivity]).
Qed.

(** Every call that returns has the effect the step relation describes. *)
Lemma perform_effect (c : call) (m m' : machine W) (r : result) :
  perform hal c m = Some (r, m') -> effect c m r m'.
Proof.
  destruct c; [apply perform_init | apply perform_find
    | apply perform_get_address | apply perform_set_module
    | apply perform_set_device | apply perform_get_type
    | apply perform_set_type | apply perform_read].
Qed.

End Effects.

(** ** Sequences of calls *)

Section Clients.

Context {W : Type} (hal : HAL W).

(** A property of the statics that every step keeps, and a property of
    the HAL calls that every step from such statics makes, hold along any
    sequence of calls that returns. *)
Lemma perform_all_steps (R : call -> Prop) (P : driver -> Prop) (Q : event -> Prop) :
  (forall c d added r d',
      R c -> P d -> driver_step c d added r d' -> P d' /\ Forall Q added) ->
  forall (cs : list call) (m m' : machine W),
    Forall R cs -> P (drv m) -> perform_all hal cs m = Some m' ->
    P (drv m') /\ exists added, log m' = log m ++ added /\ Forall Q added.
Proof.
  intros Hstep cs. induction cs as [|c cs IH]; intros m m' HR HP Hrun.
  - injection Hrun as <-. split; [exact HP|]. exists []. now rewrite app_nil_r.
  - cbn [perform_all] in Hrun. inversion HR as [|? ? Rc Rcs]; subst.
    destruct (perform hal c m) as [[r m1]|] eqn:E; [|discriminate].
    apply perform_effect in E. destruct E as (added & Hlog & Hd & _).
    destruct (Hstep c _ _ _ _ Rc HP Hd) as [HP1 HQ1].
    destruct (IH m1 m' Rcs HP1 Hrun) as (HP' & rest & Hlog' & HQ').
    split; [exact HP'|]. exists (added ++ rest).
    rewrite Hlog', Hlog, app_assoc. split; [reflexivity|].
    apply Forall_app. now split.
Qed.

Lemma init_address_fields (a : Z) (d : driver) :
  mlx90614_slave_address (init_address a d)
  = (if a =? 0 then mlx90614_slave_address d else a) /\
  mlx90614_slave_address_one_bit_left_shifted (init_address a d)
  = uint8 (Z.shiftl (mlx90614_slave_address (init_address a d)) 1) /\
  p_hi2c (init_address a d) = p_hi2c d /\
  mlx90614_temperature_type (init_address a d) = mlx90614_temperature_type d /\
  p_get_mlx90614_converted_temperature (init_address a d)
  = p_get_mlx90614_converted_temperature d.
Proof. unfold init_address. destruct (a =? 0); repeat split. Qed.

Lemma uint8_shiftl_left_aligned (a : Z) : left_aligned (uint8 (Z.shiftl a 1)).
Proof.
  unfold left_aligned, uint8. split; [apply Z.mod_pos_bound; lia|].
  rewrite Z.shiftl_mul_pow2 by lia. change (2 ^ 1) with 2. change (2 ^ 8) with (2 * 128).
  rewrite (Z.mul_comm a 2), Zmult_mod_distr_l. apply Z.even_mul.
Qed.

Lemma select_conversion_not_null (t : Z) (f : conversion_pointer) :
  select_conversion t = Some f -> f <> null_pointer.
Proof.
  unfold select_conversion.
  destruct (t =? _); [congruence|]. destruct (t =? _); [congruence|].
  destruct (t =? _); congruence.
Qed.

Lemma total_ms_app (es es' : list event) :
  total_ms (es ++ es') = total_ms es + total_ms es'.
Proof.
  unfold total_ms. induction es as [|e es IH]; cbn [app fold_right]; [reflexivity|].
  rewrite IH. lia.
Qed.

Lemma total_ms_probes (h : Z) (n : nat) : forall first,
  total_ms (map (probe_of h) (addresses_from first n)) = 100 * Z.of_nat n.
Proof.
  induction n as [|n IH]; intro first; [reflexivity|].
  cbn [addresses_from map]. change (total_ms (?e :: ?es)) with (blocking_ms e + total_ms es).
  rewrite IH. cbn [probe_of blocking_ms].
  unfold IS_MLX90614_READY_NUMBER_OF_TRIALS, MLX90614_I2C_TIMEOUT. lia.
Qed.

End Clients.

(** ** Properties of every call *)

Section Calls.

Context {W : Type} (hal : HAL W).

(** X1: the functions that return a status return [MLX90614_EC_OK],
    [MLX90614_EC_NR] or [MLX90614_EC_ERR], never [MLX90614_EC_STOP] or
    [MLX90614_EC_NA]; the getters return a value. *)
Theorem statuses_returned (c : call) (m m' : machine W) (r : result) :
  perform hal c m = Some (r, m') ->
  match r with
  | Status s => s = MLX90614_EC_OK \/ s = MLX90614_EC_NR \/ s = MLX90614_EC_ERR
  | Value _ => c = Get_address \/ c = Get_type
  end.
Proof.
  intro E. apply perform_effect in E. destruct E as (added & _ & Hd & _).
  inversion Hd; subst; auto; intuition auto.
Qed.

(** X2: which part of the machine a call can change. The getters change
    nothing; [set_mlx90614_temperature_type] makes no HAL call and changes
    only the unit and the function pointer; a channel read changes no
    static and no cell other than [dst]; the functions that adopt an
    address leave the handle, the unit, the function pointer and the cells
    as they are; [init_mlx90614_module] leaves the cells as they are. *)
Theorem calls_change_only_their_part (c : call) (m m' : machine W) (r : result) :
  perform hal c m = Some (r, m') ->
  match c with
  | Get_address | Get_type => m' = m
  | Set_type _ =>
      bus m' = bus m /\ log m' = log m /\ heap m' = heap m /\
      p_hi2c (drv m') = p_hi2c (drv m) /\
      mlx90614_slave_address (drv m') = mlx90614_slave_address (drv m) /\
      mlx90614_slave_address_one_bit_left_shifted (drv m')
      = mlx90614_slave_address_one_bit_left_shifted (drv m)
  | Read _ dst => drv m' = drv m /\ forall q, q <> dst -> heap m' q = heap m q
  | Find | Set_module_address _ | Set_device_address _ =>
      heap m' = heap m /\
      p_hi2c (drv m') = p_hi2c (drv m) /\
      mlx90614_temperature_type (drv m') = mlx90614_temperature_type (drv m) /\
      p_get_mlx90614_converted_temperature (drv m')
      = p_get_mlx90614_converted_temperature (drv m)
  | Init _ _ _ => heap m' = heap m
  end.
Proof.
  intro E. pose proof (perform_effect hal c m m' r E) as (added & Hlog & Hd & Hheap).
  assert (Hh : (forall ch dst, c <> Read ch dst) -> heap m' = heap m).
  { intro Hc. destruct Hheap as [H|(ch & dst & t & -> & _)]; [exact H|].
    now destruct (Hc ch dst). }
  destruct c.
  - apply Hh. discriminate.
  - split; [apply Hh; discriminate|]. inversion Hd; subst; repeat split.
  - destruct m. cbn in E. now injection E as <- <-.
  - split; [apply Hh; discriminate|]. inversion Hd; subst; repeat split.
  - split; [apply Hh; discriminate|]. inversion Hd; subst; repeat split.
  - destruct m. cbn in E. now injection E as <- <-.
  - clear Hd Hh Hheap Hlog. unfold perform, set_mlx90614_temperature_type in E.
    destruct (select_conversion temp_t); cbn in E; injection E as <- <-;
      repeat split.
  - split; [inversion Hd; subst; reflexivity|].
    intros q Hq. destruct Hheap as [->|(ch & dst' & t & Hc & _ & ->)]; [reflexivity|].
    injection Hc as _ <-. unfold store. apply Z.eqb_neq in Hq. now rewrite Hq.
Qed.

(** X3: every HAL call a function makes goes through the handle that was
    stored when the function was called. So the probe of
    [init_mlx90614_module] does not go through the handle the call
    passes, which is stored only after the probe. *)
Theorem calls_use_the_stored_handle (c : call) (m m' : machine W) (r : result) :
  perform hal c m = Some (r, m') ->
  exists added,
    log m' = log m ++ added /\
    Forall (fun e => forall h, handle_of e = Some h -> h = p_hi2c (drv m)) added.
Proof.
  intro E. apply perform_effect in E. destruct E as (added & Hlog & Hd & _).
  exists added. split; [exact Hlog|].
  assert (P : forall n first,
             Forall (fun e => forall h, handle_of e = Some h -> h = p_hi2c (drv m))
               (map (probe_of (p_hi2c (drv m))) (addresses_from first n))).
  { induction n as [|n IH]; intro first; cbn [addresses_from map]; constructor.
    - intros h H. now injection H as <-.
    - apply IH. }
  inversion Hd; subst; try apply P; unfold init_probe;
    repeat match goal with
           | H : _ \/ _ |- _ => destruct H; subst
           | |- context [if ?b then _ else _] => destruct b
           end;
    repeat constructor; intros h' H'; cbn in H'; congruence.
Qed.

Lemma call_blocks_at_most (c : call) (m m' : machine W) (r : result) :
  perform hal c m = Some (r, m') ->
  exists added,
    log m' = log m ++ added /\ 0 <= total_ms added <= worst_case_ms c.
Proof.
  intro E. apply perform_effect in E. destruct E as (added & Hlog & Hd & _).
  exists added. split; [exact Hlog|].
  inversion Hd; subst; rewrite ?total_ms_probes; unfold init_probe;
    repeat match goal with
           | H : _ \/ _ |- _ => destruct H; subst
           | |- context [if ?b then _ else _] => destruct b
           end;
    unfold worst_case_ms, total_ms, probe_of, cell_read, cell_erase, cell_write,
      settle, register_read;
    cbn [fold_right blocking_ms];
    unfold IS_MLX90614_READY_NUMBER_OF_TRIALS, MLX90614_I2C_TIMEOUT,
      MLX90614_ERASE_OR_WRITE_CELL_TIME; lia.
Qed.

(** X4: the time the driver gives the HAL. The timeouts and delays of the
    HAL calls of one call add up to at most 100 ms for
    [init_mlx90614_module], [set_mlx90614_module_slave_address] and a
    channel read (one probe or one read), 12.4 s for the discovery (124
    probes), 2.3 s for the address rewrite (three transfers and two settle
    delays) and nothing for the getters and
    [set_mlx90614_temperature_type]; those of a sequence of calls add up to
    at most the sum of these bounds. *)
Theorem calls_block_at_most (cs : list call) (m m' : machine W) :
  perform_all hal cs m = Some m' ->
  exists added,
    log m' = log m ++ added /\
    0 <= total_ms added <= fold_right (fun c t => worst_case_ms c + t) 0 cs.
Proof.
  revert m. induction cs as [|c cs IH]; intros m Hrun.
  - injection Hrun as <-. exists []. rewrite app_nil_r. split; [reflexivity|].
    cbn. lia.
  - cbn [perform_all] in Hrun.
    destruct (perform hal c m) as [[r m1]|] eqn:E; [|discriminate].
    destruct (call_blocks_at_most c m m1 r E) as (added & Hlog & Hms).
    destruct (IH m1 Hrun) as (rest & Hlog' & Hms').
    exists (added ++ rest). rewrite Hlog', Hlog, app_assoc. split; [reflexivity|].
    rewrite total_ms_app. cbn [fold_right]. lia.
Qed.

(** X5: only the address rewrite changes anything in the device. A call
    of any other function makes no HAL call but probes and reads; the
    transmits and the settle delays belong to
    [set_mlx90614_device_slave_address], which makes them only for an
    address from 3 to 0x7E; and no function of this revision calls
    [HAL_I2C_Mem_Write]. *)
Theorem only_the_rewrite_transmits (c : call) (m m' : machine W) (r : result) :
  perform hal c m = Some (r, m') ->
  exists added,
    log m' = log m ++ added /\
    Forall (fun e =>
              match e with
              | IsDeviceReady _ _ _ _ | Mem_Read _ _ _ _ _ _ => True
              | Master_Transmit _ _ _ _ _ | Delay _ =>
                  exists a, c = Set_device_address a /\ valid_slave_address a
              | Mem_Write _ _ _ _ _ _ => False
              end) added.
Proof.
  intro E. apply perform_effect in E. destruct E as (added & Hlog & Hd & _).
  exists added. split; [exact Hlog|].
  assert (P : forall (Q : event -> Prop) h n first,
             (forall a t u v, Q (IsDeviceReady a t u v)) ->
             Forall Q (map (probe_of h) (addresses_from first n))).
  { intros Q h n. induction n as [|n IH]; intros first HQ;
      cbn [addresses_from map]; constructor; [apply HQ | now apply IH]. }
  inversion Hd; subst; try (apply P; intros; exact I); unfold init_probe;
    repeat match goal with
           | H : _ \/ _ |- _ => destruct H; subst
           | |- context [if ?b then _ else _] => destruct b
           end;
    repeat (apply Forall_cons; [first [exact I | eexists; split; [reflexivity|assumption]]|]);
    apply Forall_nil.
Qed.

End Calls.

(** ** Invariants of the statics *)

Section Invariants.

Context {W : Type} (hal : HAL W).

Lemma address_is_7bit_step (c : call) (d d' : driver) (added : list event) (r : result) :
  byte_arguments c -> address_is_7bit d -> driver_step c d added r d' ->
  address_is_7bit d'.
Proof.
  unfold address_is_7bit, byte_arguments, valid_slave_address,
    MLX90614_MIN_VALID_SLAVE_ADDRESS_VALUE, MLX90614_MAX_VALID_SLAVE_ADDRESS_VALUE.
  intros Hb Hd Hs. inversion Hs; subst; try exact Hd;
    cbn [mlx90614_slave_address set_p_hi2c set_temperature_type
         set_converted_temperature store_address
         set_slave_address_one_bit_left_shifted set_slave_address];
    try rewrite (proj1 (init_address_fields _ _));
    try match goal with |- context [?x =? 0] => destruct (Z.eqb_spec x 0) end;
    unfold valid_slave_address, MLX90614_MIN_VALID_SLAVE_ADDRESS_VALUE,
      MLX90614_MAX_VALID_SLAVE_ADDRESS_VALUE in *;
    lia.
Qed.

Lemma wire_in_sync_step (c : call) (d d' : driver) (added : list event) (r : result) :
  wire_in_sync d -> driver_step c d added r d' -> wire_in_sync d'.
Proof.
  unfold wire_in_sync. intros Hd Hs.
  inversion Hs; subst; try exact Hd; try reflexivity; cbn;
    apply init_address_fields.
Qed.

Lemma unit_in_sync_step (c : call) (d d' : driver) (added : list event) (r : result) :
  unit_in_sync d -> driver_step c d added r d' -> unit_in_sync d'.
Proof.
  unfold unit_in_sync. intros Hd Hs.
  inversion Hs; subst; try exact Hd; cbn; try assumption;
    unfold init_address;
    match goal with |- context [?x =? 0] => destruct (x =? 0) end;
    cbn; assumption.
Qed.

(** A call made when the function pointer is set returns. *)
Lemma perform_returns (c : call) (m : machine W) :
  p_get_mlx90614_converted_temperature (drv m) <> null_pointer ->
  exists r m', perform hal c m = Some (r, m').
Proof.
  intro Hp. destruct c; unfold perform, bind, ret.
  - unfold init_mlx90614_module.
    destruct (slave_address >? _); [run; eauto|].
    destruct (negb (slave_address =? 0)); run.
    + destruct (fst (HAL_I2C_IsDeviceReady _ _ _ _ _ _)); run; eauto.
      destruct (select_conversion temp_t); run; eauto.
    + destruct (select_conversion temp_t); run; eauto.
  - destruct (find_any hal m) as (j & w' & st & d' & -> & _). eauto.
  - unfold get_mlx90614_module_slave_address. run. eauto.
  - unfold set_mlx90614_module_slave_address.
    destruct ((_ >? _) || (_ <? _)); run; eauto.
    destruct (fst (HAL_I2C_IsDeviceReady _ _ _ _ _ _)); run; eauto.
  - unfold set_mlx90614_device_slave_address.
    destruct ((_ >? _) || (_ <? _)); run; eauto.
    cbn [array_get array_set nth]. rewrite !assembled_command.
    set (r1 := HAL_I2C_Mem_Read _ _ _ _ _ _ _ _).
    destruct (HAL_ret_handler (fst (fst r1))); run; eauto.
    set (r2 := HAL_I2C_Master_Transmit _ _ _ _ _ _ _).
    destruct (HAL_ret_handler (fst r2)); run; eauto.
    set (r3 := HAL_I2C_Master_Transmit _ _ _ _ _ _ _).
    destruct (HAL_ret_handler (fst r3)); run; eauto.
  - unfold get_mlx90614_temperature_type. run. eauto.
  - unfold set_mlx90614_temperature_type.
    destruct (select_conversion temp_t); run; eauto.
  - rewrite read_channel_cases.
    set (read := HAL_I2C_Mem_Read _ _ _ _ _ _ _ _).
    set (raw := little_endian _ _).
    destruct (fst (fst read)); cbn [HAL_ret_handler]; eauto.
    destruct (raw >? 0x7FFF); eauto.
    destruct (p_get_mlx90614_converted_temperature (drv m));
      [congruence|..]; cbn [call_conversion]; eauto.
Qed.

(** X6: the believed address stays a non-zero 7-bit address below 0x7F.
    It is one at program start (0x5A), and no sequence of calls whose
    address arguments are bytes makes it 0, 0x7F or more. *)
Theorem believed_address_stays_7bit (cs : list call) (m m' : machine W) :
  Forall byte_arguments cs ->
  address_is_7bit (drv m) ->
  perform_all hal cs m = Some m' ->
  address_is_7bit (drv m').
Proof.
  intros Hb Hd Hrun.
  apply (perform_all_steps hal byte_arguments address_is_7bit (fun _ => True)
           (fun c d added r d' Hc Hd Hs =>
              conj (address_is_7bit_step c d d' added r Hc Hd Hs)
                   (proj2 (Forall_forall _ _) (fun _ _ => I)))
           cs m m' Hb Hd Hrun).
Qed.

(** X7: once the shifted address is the believed address shifted left, it
    stays so, and the shift loses no bit: after any sequence of calls a
    channel read is addressed to twice the believed address. *)
Theorem reads_address_the_believed_device
    (cs : list call) (c : channel) (dst : Z) (m m1 m2 : machine W) (st : MLX90614_Status) :
  Forall byte_arguments cs ->
  address_is_7bit (drv m) ->
  wire_in_sync (drv m) ->
  perform_all hal cs m = Some m1 ->
  read_channel hal c dst m1 = Some (st, m2) ->
  mlx90614_slave_address_one_bit_left_shifted (drv m1)
  = 2 * mlx90614_slave_address (drv m1) /\
  log m2 =
  log m1 ++ [Mem_Read (p_hi2c (drv m1)) (2 * mlx90614_slave_address (drv m1))
               (channel_register c) MLX90614_RAM_OR_EEPROM_ADDRESS_SIZE
               MLX90614_TEMPERATURE_RESULT_SIZE MLX90614_I2C_TIMEOUT].
Proof.
  intros Hb H7 Hs Hrun Hread.
  assert (H7' : address_is_7bit (drv m1)).
  { apply (perform_all_steps hal byte_arguments address_is_7bit (fun _ => True)
             (fun c d added r d' Hc Hd Hs =>
                conj (address_is_7bit_step c d d' added r Hc Hd Hs)
                     (proj2 (Forall_forall _ _) (fun _ _ => I)))
             cs m m1 Hb H7 Hrun). }
  assert (Hs' : wire_in_sync (drv m1)).
  { apply (perform_all_steps hal (fun _ => True) wire_in_sync (fun _ => True)
             (fun c d added r d' _ Hd Hs =>
                conj (wire_in_sync_step c d d' added r Hd Hs)
                     (proj2 (Forall_forall _ _) (fun _ _ => I)))
             cs m m1 (proj2 (Forall_forall _ _) (fun _ _ => I)) Hs Hrun). }
  assert (E : mlx90614_slave_address_one_bit_left_shifted (drv m1)
              = 2 * mlx90614_slave_address (drv m1)).
  { rewrite Hs'. apply shifted_small.
    unfold address_is_7bit, MLX90614_MAX_VALID_SLAVE_ADDRESS_VALUE in H7'. lia. }
  split; [exact E|].
  assert (P : perform hal (Read c dst) m1 = Some (Status st, m2)).
  { unfold perform, bind, ret. now rewrite Hread. }
  apply perform_effect in P. destruct P as (added & -> & Hd & _).
  inversion Hd; subst; unfold register_read; now rewrite E.
Qed.

(** X8: once the unit and the function pointer agree, as they do after a
    successful [init_mlx90614_module] or [set_mlx90614_temperature_type],
    they agree for good, and every call returns: no sequence of calls
    reaches the call through a null function pointer. *)
Theorem configured_driver_always_returns (cs : list call) (m : machine W) :
  unit_in_sync (drv m) ->
  exists m', perform_all hal cs m = Some m' /\ unit_in_sync (drv m').
Proof.
  revert m. induction cs as [|c cs IH]; intros m Hu; [now exists m|].
  cbn [perform_all].
  destruct (perform_returns c m) as (r & m1 & E).
  { apply (select_conversion_not_null _ _ Hu). }
  rewrite E. apply IH.
  apply perform_effect in E. destruct E as (added & _ & Hd & _).
  exact (unit_in_sync_step c _ _ added r Hu Hd).
Qed.

(** X9: every device address the driver passes to the HAL is a byte with
    bit 0 clear, the form the HAL wants a 7-bit address in. This holds from
    program start on, where the shifted address is still 0, for every
    sequence of calls and whatever their arguments are. *)
Theorem device_addresses_are_left_aligned (cs : list call) (m m' : machine W) :
  left_aligned (mlx90614_slave_address_one_bit_left_shifted (drv m)) ->
  perform_all hal cs m = Some m' ->
  left_aligned (mlx90614_slave_address_one_bit_left_shifted (drv m')) /\
  exists added,
    log m' = log m ++ added /\
    Forall (fun e => forall a, wire_of e = Some a -> left_aligned a) added.
Proof.
  intros Hl Hrun.
  refine (perform_all_steps hal (fun _ => True)
            (fun d => left_aligned (mlx90614_slave_address_one_bit_left_shifted d))
            (fun e => forall a, wire_of e = Some a -> left_aligned a)
            _ cs m m' _ Hl Hrun);
    [|apply Forall_forall; auto].
  clear. intros c d added r d' _ Hl Hs.
  assert (P : forall n first,
             Forall (fun e => forall a, wire_of e = Some a -> left_aligned a)
               (map (probe_of (p_hi2c d)) (addresses_from first n))).
  { induction n as [|n IH]; intro first; cbn [addresses_from map]; constructor.
    - intros a H. injection H as <-. apply uint8_shiftl_left_aligned.
    - apply IH. }
  assert (I : forall a, left_aligned
                (mlx90614_slave_address_one_bit_left_shifted (init_address a d))).
  { intro a. rewrite (proj1 (proj2 (init_address_fields a d))).
    apply uint8_shiftl_left_aligned. }
  assert (Q : forall e, (forall a, wire_of e = Some a ->
                           a = mlx90614_slave_address_one_bit_left_shifted d \/
                           exists k, a = uint8 (Z.shiftl k 1)) ->
                        forall a, wire_of e = Some a -> left_aligned a).
  { intros e He a Ha. destruct (He a Ha) as [->|(k & ->)];
      [exact Hl | apply uint8_shiftl_left_aligned]. }
  split.
  - inversion Hs; subst; try exact Hl; try apply I; apply uint8_shiftl_left_aligned.
  - inversion Hs; subst; try apply P; unfold init_probe;
      repeat match goal with
             | H : _ \/ _ |- _ => destruct H; subst
             | |- context [if ?b then _ else _] => destruct b
             end;
      repeat (apply Forall_cons;
              [apply Q; intros a' H';
               unfold probe_of, cell_read, cell_erase, cell_write, settle,
                 register_read in H';
               cbn [wire_of] in H';
               first [ discriminate
                     | injection H' as <-;
                       first [left; reflexivity | right; eexists; reflexivity] ]|]);
      apply Forall_nil.
Qed.

End Invariants.

(** ** Functions composed *)

Section Compositions.

Context {W : Type} (hal : HAL W).

(** X10: [get_mlx90614_temperature_type] after
    [set_mlx90614_temperature_type]. A recognised unit (0, 1 or 2) is
    accepted and read back; any other value is refused and the unit read
    back is the one from before. Neither function touches the bus, the log
    or the caller's cells. *)
Theorem temperature_type_round_trip (temp_t : Z) (m : machine W) :
  exists st m1,
    set_mlx90614_temperature_type temp_t m = Some (st, m1) /\
    (st = MLX90614_EC_OK <->
     temp_t = MLX90614_Temp_K \/ temp_t = MLX90614_Temp_C \/ temp_t = MLX90614_Temp_F) /\
    (st = MLX90614_EC_OK \/ st = MLX90614_EC_ERR /\ m1 = m) /\
    get_mlx90614_temperature_type m1
    = Some (match st with
            | MLX90614_EC_OK => temp_t
            | _ => mlx90614_temperature_type (drv m)
            end, m1) /\
    bus m1 = bus m /\ log m1 = log m /\ heap m1 = heap m.
Proof.
  unfold set_mlx90614_temperature_type, get_mlx90614_temperature_type,
    select_conversion, MLX90614_Temp_K, MLX90614_Temp_C, MLX90614_Temp_F.
  destruct (Z.eqb_spec temp_t 0) as [->|HK];
    [|destruct (Z.eqb_spec temp_t 1) as [->|HC];
      [|destruct (Z.eqb_spec temp_t 2) as [->|HF]]];
    run; do 2 eexists; (split; [reflexivity|]); cbn [drv bus log heap];
    repeat split; auto; try discriminate; try lia.
Qed.

(** X11: the unit that was set selects the conversion of the next reading.
    After [set_mlx90614_temperature_type] accepted [temp_t], a channel read
    that returns [MLX90614_EC_OK] has read a raw value of at most 0x7FFF and
    has stored at [dst] its conversion to Kelvin for [MLX90614_Temp_K], to
    degrees Celsius for [MLX90614_Temp_C] and to degrees Fahrenheit for
    [MLX90614_Temp_F]. *)
Theorem unit_selects_conversion
    (temp_t : Z) (c : channel) (dst : Z) (m m1 m2 : machine W) :
  set_mlx90614_temperature_type temp_t m = Some (MLX90614_EC_OK, m1) ->
  read_channel hal c dst m1 = Some (MLX90614_EC_OK, m2) ->
  let read :=
    HAL_I2C_Mem_Read hal (bus m) (p_hi2c (drv m))
      (mlx90614_slave_address_one_bit_left_shifted (drv m)) (channel_register c)
      MLX90614_RAM_OR_EEPROM_ADDRESS_SIZE MLX90614_TEMPERATURE_RESULT_SIZE
      MLX90614_I2C_TIMEOUT in
  let raw := little_endian (uint8 (fst (snd (fst read)))) (uint8 (snd (snd (fst read)))) in
  fst (fst read) = HAL_OK /\
  0 <= raw <= 0x7FFF /\
  heap m2 dst =
  (if temp_t =? MLX90614_Temp_K then get_mlx90614_converted_temperature_in_kelvin raw
   else if temp_t =? MLX90614_Temp_C then get_mlx90614_converted_temperature_in_celsius raw
   else get_mlx90614_converted_temperature_in_fahrenheit raw).
Proof.
  intros Hset Hread read raw.
  unfold set_mlx90614_temperature_type in Hset.
  destruct (select_conversion temp_t) as [f|] eqn:S; [|discriminate].
  cbn in Hset. injection Hset as <-.
  rewrite read_channel_cases in Hread. cbn [drv bus log heap] in Hread.
  cbn [set_temperature_type set_converted_temperature p_hi2c
       mlx90614_slave_address_one_bit_left_shifted
       p_get_mlx90614_converted_temperature] in Hread.
  fold read raw in Hread.
  assert (R0 : 0 <= raw).
  { unfold raw, little_endian.
    pose proof (uint8_range (fst (snd (fst read)))).
    pose proof (uint8_range (snd (snd (fst read)))). lia. }
  destruct (fst (fst read)); cbn [HAL_ret_handler] in Hread; try discriminate.
  destruct (raw >? 0x7FFF) eqn:R; [discriminate|].
  rewrite Z.gtb_ltb in R. apply Z.ltb_ge in R.
  split; [reflexivity|]. split; [lia|].
  unfold select_conversion in S.
  destruct (temp_t =? MLX90614_Temp_K);
    [|destruct (temp_t =? MLX90614_Temp_C);
      [|destruct (temp_t =? MLX90614_Temp_F); [|discriminate]]];
    injection S as <-; cbn [call_conversion] in Hread; injection Hread as <-;
    cbn [heap]; unfold store; now rewrite Z.eqb_refl.
Qed.

(** X12: the one way a channel read has no defined result. It calls
    through a null function pointer exactly when the pointer was never set,
    the read of the register succeeds and the raw value is at most
    0x7FFF; in every other case it returns. *)
Theorem read_channel_undefined_iff (c : channel) (dst : Z) (m : machine W) :
  let read :=
    HAL_I2C_Mem_Read hal (bus m) (p_hi2c (drv m))
      (mlx90614_slave_address_one_bit_left_shifted (drv m)) (channel_register c)
      MLX90614_RAM_OR_EEPROM_ADDRESS_SIZE MLX90614_TEMPERATURE_RESULT_SIZE
      MLX90614_I2C_TIMEOUT in
  let raw := little_endian (uint8 (fst (snd (fst read)))) (uint8 (snd (snd (fst read)))) in
  read_channel hal c dst m = None <->
  p_get_mlx90614_converted_temperature (drv m) = null_pointer /\
  fst (fst read) = HAL_OK /\ raw <= 0x7FFF.
Proof.
  intros read raw. rewrite read_channel_cases. fold read raw.
  destruct (fst (fst read)); cbn [HAL_ret_handler];
    try (split; [discriminate | intros (_ & H & _); discriminate]).
  destruct (raw >? 0x7FFF) eqn:R; rewrite Z.gtb_ltb in R.
  - apply Z.ltb_lt in R. split; [discriminate | intros (_ & _ & H); lia].
  - apply Z.ltb_ge in R.
    destruct (p_get_mlx90614_converted_temperature (drv m)); cbn [call_conversion];
      split; try discriminate; auto; intros (H & _); discriminate.
Qed.

Lemma addresses_from_snoc (n : nat) : forall first,
  addresses_from first (S n) = addresses_from first n ++ [first + Z.of_nat n].
Proof.
  induction n as [|n IH]; intro first.
  - cbn. now rewrite Z.add_0_r.
  - change (addresses_from first (S (S n)))
      with (first :: addresses_from (first + 1) (S n)).
    rewrite IH. cbn [addresses_from app]. do 3 f_equal. lia.
Qed.

(** X13: the discovery on any bus, whatever answers and however the
    answers change between probes. It returns; its probes are those of the
    addresses 3, 4, ... in this order, at least one and at most 124 of
    them, so never of the address 0; the cells are untouched. With
    [MLX90614_EC_NR] there were 124 probes and the statics are as before;
    with [MLX90614_EC_OK] the believed address is the address of the last
    probe, and the shifted address is twice that. *)
Theorem discovery_on_any_bus (m : machine W) :
  exists (j : nat) (st : MLX90614_Status) (m' : machine W),
    find_mlx90614_slave_address hal m = Some (st, m') /\
    (1 <= j <= 124)%nat /\
    log m' = log m ++ map (probe_of (p_hi2c (drv m)))
                        (addresses_from MLX90614_MIN_VALID_SLAVE_ADDRESS_VALUE j) /\
    heap m' = heap m /\
    ((st = MLX90614_EC_NR /\ j = 124%nat /\ drv m' = drv m) \/
     (st = MLX90614_EC_OK /\
      mlx90614_slave_address (drv m') = 2 + Z.of_nat j /\
      mlx90614_slave_address_one_bit_left_shifted (drv m') = 2 * (2 + Z.of_nat j) /\
      last (log m') (Delay 0) = probe_of (p_hi2c (drv m)) (2 + Z.of_nat j))).
Proof.
  destruct (find_any hal m) as (j & w' & st & d' & E & Hj & Hcase).
  exists j, st. eexists. split; [exact E|]. cbn [log heap drv].
  assert (L : forall n first d, (1 <= n)%nat ->
            last (log m ++ map (probe_of (p_hi2c (drv m))) (addresses_from first n)) d
            = probe_of (p_hi2c (drv m)) (first + Z.of_nat n - 1)).
  { intros n first d Hn. destruct n as [|n]; [lia|].
    rewrite addresses_from_snoc, map_app, app_assoc. cbn [map].
    rewrite last_last. f_equal. lia. }
  destruct Hcase as [(-> & -> & ->)|(-> & Hj1 & ->)].
  - repeat split; try lia. left. auto.
  - repeat split; try lia. right.
    unfold MLX90614_MIN_VALID_SLAVE_ADDRESS_VALUE.
    replace (3 + Z.of_nat j - 1) with (2 + Z.of_nat j) by lia.
    cbn [store_address set_slave_address set_slave_address_one_bit_left_shifted
         mlx90614_slave_address mlx90614_slave_address_one_bit_left_shifted].
    split; [reflexivity|]. split; [reflexivity|]. split; [apply shifted_small; lia|].
    rewrite (L j 3 (Delay 0) Hj1). f_equal. lia.
Qed.

(** X14: what [get_mlx90614_module_slave_address] returns after a call
    that can adopt an address. After [set_mlx90614_module_slave_address]
    and [set_mlx90614_device_slave_address] it is the address they were
    given when they returned [MLX90614_EC_OK], and the address from before
    otherwise. After [init_mlx90614_module] it is the address from before
    when the address given was 0 or above 0x7E or the probe failed, and
    the address given otherwise, also when the unit was then refused. *)
Theorem adopted_address_is_reported (c : call) (m m1 : machine W) (st : MLX90614_Status) :
  perform hal c m = Some (Status st, m1) ->
  match c with
  | Set_module_address a | Set_device_address a =>
      get_mlx90614_module_slave_address m1
      = Some (match st with
              | MLX90614_EC_OK => a
              | _ => mlx90614_slave_address (drv m)
              end, m1)
  | Init _ a _ =>
      get_mlx90614_module_slave_address m1
      = Some (if (a =? 0) || (MLX90614_MAX_VALID_SLAVE_ADDRESS_VALUE <? a)
              then mlx90614_slave_address (drv m)
              else match st with
                   | MLX90614_EC_NR => mlx90614_slave_address (drv m)
                   | _ => a
                   end, m1)
  | _ => True
  end.
Proof.
  intro E. apply perform_effect in E. destruct E as (added & _ & Hd & _).
  unfold get_mlx90614_module_slave_address, read_static.
  destruct c; try exact I; inversion Hd; subst;
    repeat match goal with H : _ \/ _ |- _ => destruct H; subst end;
    try reflexivity; do 2 f_equal;
    cbn [mlx90614_slave_address set_p_hi2c set_temperature_type
         set_converted_temperature];
    try rewrite (proj1 (init_address_fields _ _));
    repeat match goal with
           | |- context [?x =? 0] => destruct (Z.eqb_spec x 0)
           | |- context [?x <? ?y] => destruct (Z.ltb_spec x y)
           end; cbn [orb]; try reflexivity; lia.
Qed.

(** X15: from the minimum valid address on, [init_mlx90614_module] is
    [set_mlx90614_module_slave_address] followed, when that returned
    [MLX90614_EC_OK], by the storing of the handle and by
    [set_mlx90614_temperature_type]: the same result and the same
    machine, whatever the bus answers. (For the addresses 1 and 2 the two
    differ: the first probes, the second refuses.) *)
Theorem init_is_set_address_then_unit (hi2c slave_address temp_t : Z) (m : machine W) :
  MLX90614_MIN_VALID_SLAVE_ADDRESS_VALUE <= slave_address ->
  init_mlx90614_module hal hi2c slave_address temp_t m =
  bind (set_mlx90614_module_slave_address hal slave_address)
    (fun s =>
       match s with
       | MLX90614_EC_OK =>
           bind (write_static (set_p_hi2c hi2c))
             (fun _ => set_mlx90614_temperature_type temp_t)
       | failure => ret failure
       end) m.
Proof.
  unfold MLX90614_MIN_VALID_SLAVE_ADDRESS_VALUE. intro Hmin.
  unfold init_mlx90614_module, set_mlx90614_module_slave_address,
    set_mlx90614_temperature_type.
  replace (slave_address <? MLX90614_MIN_VALID_SLAVE_ADDRESS_VALUE) with false
    by (symmetry; apply Z.ltb_ge; unfold MLX90614_MIN_VALID_SLAVE_ADDRESS_VALUE; lia).
  rewrite orb_false_r.
  destruct (slave_address >? MLX90614_MAX_VALID_SLAVE_ADDRESS_VALUE); [reflexivity|].
  destruct (Z.eqb_spec slave_address 0) as [->|_]; [lia|]. cbn [negb]. run.
  destruct (fst (HAL_I2C_IsDeviceReady _ _ _ _ _ _)); run; reflexivity.
Qed.

(** X16: in the earlier revision the two agree on every address but 0,
    the address that makes [init_mlx90614_module] keep the one it has:
    there the initialisation and the setter accept the same addresses, 1
    to 0x7F. *)
Theorem earlier_init_is_set_address_then_unit
    (hi2c slave_address temp_t : Z) (m : machine W) :
  slave_address <> 0 ->
  Earlier.init_mlx90614_module hal hi2c slave_address temp_t m =
  bind (Earlier.set_mlx90614_module_slave_address hal slave_address)
    (fun s =>
       match s with
       | MLX90614_EC_OK =>
           bind (write_static (set_p_hi2c hi2c))
             (fun _ => set_mlx90614_temperature_type temp_t)
       | failure => ret failure
       end) m.
Proof.
  intro Hnz. unfold Earlier.init_mlx90614_module, Earlier.set_mlx90614_module_slave_address,
    set_mlx90614_temperature_type.
  apply Z.eqb_neq in Hnz. rewrite Hnz, orb_false_r. cbn [negb].
  destruct (slave_address >? 0x7F); [reflexivity|]. run.
  destruct (fst (HAL_I2C_IsDeviceReady _ _ _ _ _ _)); run; reflexivity.
Qed.

End Compositions.

(** ** The checksum at the receiver *)

Lemma calculate_pec_same (x : Z) : calculate_pec x x = 0.
Proof. unfold calculate_pec. now rewrite Z.lxor_nilpotent. Qed.

Lemma pec_of_snoc (bytes : list Z) (b : Z) :
  pec_of (bytes ++ [b]) = calculate_pec (pec_of bytes) b.
Proof. unfold pec_of. now rewrite fold_left_app. Qed.

Lemma pec_of_range (bytes : list Z) : 0 <= pec_of bytes < 256.
Proof.
  unfold pec_of. apply fold_calculate_pec_range.
  unfold MLX90614_PEC_RESET_VALUE. lia.
Qed.

(** X17: a byte sequence followed by its PEC has the checksum 0, which is
    what the receiver of a transaction tests. *)
Theorem pec_residue_is_zero (bytes : list Z) :
  pec_of (bytes ++ [pec_of bytes]) = 0.
Proof. rewrite pec_of_snoc. apply calculate_pec_same. Qed.

(** X18: the receiver's test fails when one byte of the sequence was
    changed on the way and the PEC was not. *)
Theorem corrupted_byte_fails_the_check (before after : list Z) (b b' : Z) :
  0 <= b < 256 -> 0 <= b' < 256 -> b <> b' ->
  pec_of ((before ++ b' :: after) ++ [pec_of (before ++ b :: after)]) <> 0.
Proof.
  intros Hb Hb' Hne E. rewrite pec_of_snoc in E.
  rewrite <- (calculate_pec_same (pec_of (before ++ b' :: after))) in E.
  apply calculate_pec_injective_data in E; try apply pec_of_range.
  now apply (single_byte_change_is_detected before after b b' Hb Hb' Hne).
Qed.

Lemma pec_residue_zero_frame (wire register low high : Z) :
  pec_of [wire; register; low; high; pec_of [wire; register; low; high]] = 0.
Proof.
  change [wire; register; low; high; pec_of [wire; register; low; high]]
    with ([wire; register; low; high] ++ [pec_of [wire; register; low; high]]).
  rewrite pec_of_snoc. apply calculate_pec_same.
Qed.

Section Rewrites.

Context {W : Type} (hal : HAL W).

(** X19: every transaction [set_mlx90614_device_slave_address] transmits
    passes the receiver's test: the checksum over the device address byte
    it was sent to and its four bytes is 0. *)
Theorem transmitted_transactions_pass_the_check
    (a : Z) (m m' : machine W) (st : MLX90614_Status) :
  set_mlx90614_device_slave_address hal a m = Some (st, m') ->
  exists added,
    log m' = log m ++ added /\
    Forall (fun e =>
              match e with
              | Master_Transmit _ wire pData _ _ =>
                  length pData = 4%nat /\ received_residue wire pData = 0
              | _ => True
              end) added.
Proof.
  intro Hrun.
  destruct (set_mlx90614_device_slave_address_log hal m m' a st Hrun)
    as (added & Hlog & Hall & _).
  exists added. split; [exact Hlog|].
  apply (Forall_impl _ (P := rewrite_event)); [|exact Hall].
  intros [] He; try exact I. destruct He as (low & high & ->).
  split; [reflexivity|].
  unfold received_residue, Protocol.transaction. rewrite <- pec_of_crc8.
  apply (pec_residue_zero_frame DevAddress MLX90614_SLAVE_ADDRESS_EEPROM_ADDRESS low high).
Qed.

(** X20: after the address rewrite returned [MLX90614_EC_OK], and after
    [set_mlx90614_module_slave_address] did, the channel reads are
    addressed to the new address, through the handle from before. *)
Theorem new_address_is_read_from
    (c : call) (a : Z) (ch : channel) (dst : Z) (m m1 m2 : machine W)
    (st : MLX90614_Status) :
  c = Set_device_address a \/ c = Set_module_address a ->
  perform hal c m = Some (Status MLX90614_EC_OK, m1) ->
  read_channel hal ch dst m1 = Some (st, m2) ->
  valid_slave_address a /\
  log m2 =
  log m1 ++ [Mem_Read (p_hi2c (drv m)) (2 * a) (channel_register ch)
               MLX90614_RAM_OR_EEPROM_ADDRESS_SIZE MLX90614_TEMPERATURE_RESULT_SIZE
               MLX90614_I2C_TIMEOUT].
Proof.
  intros Hc Hset Hread.
  apply perform_effect in Hset. destruct Hset as (added & _ & Hd & _).
  assert (P : perform hal (Read ch dst) m1 = Some (Status st, m2)).
  { unfold perform, bind, ret. now rewrite Hread. }
  apply perform_effect in P. destruct P as (added' & -> & Hd' & _).
  assert (V : valid_slave_address a /\ drv m1 = store_address a (drv m)).
  { destruct Hc as [-> | ->]; inversion Hd; subst; auto;
      repeat match goal with H : _ \/ _ |- _ => destruct H; try discriminate end. }
  destruct V as [V E]. split; [exact V|].
  assert (R : register_read (drv m1) ch
              = Mem_Read (p_hi2c (drv m)) (2 * a) (channel_register ch)
                  MLX90614_RAM_OR_EEPROM_ADDRESS_SIZE MLX90614_TEMPERATURE_RESULT_SIZE
                  MLX90614_I2C_TIMEOUT).
  { unfold register_read. rewrite E.
    cbn [store_address set_slave_address set_slave_address_one_bit_left_shifted
         p_hi2c mlx90614_slave_address_one_bit_left_shifted].
    rewrite shifted_small; [reflexivity|].
    unfold valid_slave_address, MLX90614_MIN_VALID_SLAVE_ADDRESS_VALUE,
      MLX90614_MAX_VALID_SLAVE_ADDRESS_VALUE in V. lia. }
  inversion Hd'; subst; now rewrite R.
Qed.

Lemma HAL_ret_handler_ok (s : HAL_StatusTypeDef) :
  HAL_ret_handler s = MLX90614_EC_OK <-> s = HAL_OK.
Proof. destruct s; cbn; split; congruence. Qed.

(** X21: the earlier revision of the address rewrite, on any bus. For an
    address from 1 to 0x7F it erases the cell, writes the address, reads
    the cell back, all at the any-device address 0, and returns
    [MLX90614_EC_OK] exactly when the three transfers succeeded and the
    low byte read back is the address asked for; only then is the believed
    address changed. A low byte that differs gives [MLX90614_EC_ERR]. *)
Theorem earlier_rewrite_checks_the_cell (a : Z) (m : machine W) :
  a <> 0 -> a <= 0x7F ->
  let h := p_hi2c (drv m) in
  let any := Earlier.MLX90614_HAL_I2C_ANY_SLAVE_ADDRESS_ONE_BIT_LEFT_SHIFTED in
  let erase :=
    HAL_I2C_Mem_Write hal (bus m) h any MLX90614_SLAVE_ADDRESS_EEPROM_ADDRESS
      MLX90614_RAM_OR_EEPROM_ADDRESS_SIZE
      [MLX90614_SLAVE_ADDRESS_EEPROM_ERASE_VALUE; MLX90614_SLAVE_ADDRESS_EEPROM_ERASE_VALUE]
      MLX90614_I2C_TIMEOUT in
  let write :=
    HAL_I2C_Mem_Write hal (HAL_Delay hal (snd erase) MLX90614_ERASE_OR_WRITE_CELL_TIME)
      h any MLX90614_SLAVE_ADDRESS_EEPROM_ADDRESS MLX90614_RAM_OR_EEPROM_ADDRESS_SIZE
      [a; MLX90614_SLAVE_ADDRESS_EEPROM_ERASE_VALUE] MLX90614_I2C_TIMEOUT in
  let read_back :=
    HAL_I2C_Mem_Read hal (HAL_Delay hal (snd write) MLX90614_ERASE_OR_WRITE_CELL_TIME)
      h any MLX90614_SLAVE_ADDRESS_EEPROM_ADDRESS MLX90614_RAM_OR_EEPROM_ADDRESS_SIZE
      MLX90614_EEPROM_SLAVE_ADDRESS_SIZE MLX90614_I2C_TIMEOUT in
  let transfers_succeed :=
    fst erase = HAL_OK /\ fst write = HAL_OK /\ fst (fst read_back) = HAL_OK in
  exists st m',
    Earlier.set_mlx90614_device_slave_address hal a m = Some (st, m') /\
    heap m' = heap m /\
    (st = MLX90614_EC_OK <->
     transfers_succeed /\ uint8 (fst (snd (fst read_back))) = a) /\
    (transfers_succeed -> uint8 (fst (snd (fst read_back))) <> a ->
     st = MLX90614_EC_ERR) /\
    (st = MLX90614_EC_OK ->
     drv m' = store_address a (drv m) /\
     last (log m') (Delay 0)
     = Mem_Read h any MLX90614_SLAVE_ADDRESS_EEPROM_ADDRESS
         MLX90614_RAM_OR_EEPROM_ADDRESS_SIZE MLX90614_EEPROM_SLAVE_ADDRESS_SIZE
         MLX90614_I2C_TIMEOUT) /\
    (st <> MLX90614_EC_OK -> drv m' = drv m).
Proof.
  intros Hnz Hle h any erase write read_back transfers_succeed.
  unfold Earlier.set_mlx90614_device_slave_address.
  rewrite gtb_false by exact Hle.
  apply Z.eqb_neq in Hnz. rewrite Hnz. cbn [orb]. run.
  fold h any erase.
  pose proof (HAL_ret_handler_ok (fst erase)) as O1.
  pose proof (HAL_ret_handler_never (fst erase)) as [N1 N1'].
  destruct (HAL_ret_handler (fst erase)) eqn:E1; run;
    try (do 2 eexists; split; [reflexivity|]; cbn [drv heap];
         unfold transfers_succeed; intuition congruence).
  fold write.
  pose proof (HAL_ret_handler_ok (fst write)) as O2.
  pose proof (HAL_ret_handler_never (fst write)) as [N2 N2'].
  destruct (HAL_ret_handler (fst write)) eqn:E2; run;
    try (do 2 eexists; split; [reflexivity|]; cbn [drv heap];
         unfold transfers_succeed; intuition congruence).
  fold read_back.
  pose proof (HAL_ret_handler_ok (fst (fst read_back))) as O3.
  pose proof (HAL_ret_handler_never (fst (fst read_back))) as [N3 N3'].
  destruct (HAL_ret_handler (fst (fst read_back))) eqn:E3; run;
    try (do 2 eexists; split; [reflexivity|]; cbn [drv heap];
         unfold transfers_succeed; intuition congruence).
  cbn [array_get nth].
  destruct (Z.eqb_spec (uint8 (fst (snd (fst read_back)))) a) as [Ea|Ea];
    cbn [negb]; run; do 2 eexists; (split; [reflexivity|]); cbn [drv heap log];
    unfold transfers_succeed.
  - split; [reflexivity|]. split; [intuition congruence|].
    split; [intuition congruence|]. split; [|congruence].
    intros _. split; [reflexivity|]. log_assoc.
    change (log m ++ ?x :: ?y :: ?z :: ?u :: [?v]) with (log m ++ [x; y; z; u] ++ [v]).
    now rewrite app_assoc, last_last.
  - split; [reflexivity|]. split; [intuition congruence|].
    split; [reflexivity|]. split; [discriminate|reflexivity].
Qed.

End Rewrites.

(** ** The conversions over the whole range of raw values *)

Lemma conversion_literals :
  FP.double_lit 50 1 = lit_50_0 /\ FP.double_lit 27315 100 = lit_273_15 /\
  FP.double_lit 18 10 = lit_1_8 /\ FP.double_lit 32 1 = lit_32_0.
Proof. repeat split; vm_compute; reflexivity. Qed.

Lemma accurate_b_sound (tol : Q) (raw_temp : Z) :
  accurate_b tol raw_temp = true ->
  FP.within (get_mlx90614_converted_temperature_in_kelvin raw_temp)
    (Formula.kelvin raw_temp) tol /\
  FP.within (get_mlx90614_converted_temperature_in_celsius raw_temp)
    (Formula.celsius raw_temp) tol /\
  FP.within (get_mlx90614_converted_temperature_in_fahrenheit raw_temp)
    (Formula.fahrenheit raw_temp) tol.
Proof.
  destruct conversion_literals as (L1 & L2 & L3 & L4).
  unfold accurate_b, FP.within, get_mlx90614_converted_temperature_in_kelvin,
    get_mlx90614_converted_temperature_in_celsius,
    get_mlx90614_converted_temperature_in_fahrenheit.
  rewrite L1, L2, L3, L4. cbv zeta.
  intro H. apply andb_prop in H. destruct H as [H HF].
  apply andb_prop in H. destruct H as [HK HC]. auto.
Qed.

(** Every raw value from 0 to 0x7FFF, converted and compared. *)
Lemma accurate_on_the_range :
  forallb (accurate_b (1 # 10000)) (addresses_from 0 (Z.to_nat 0x8000)) = true.
Proof. vm_compute. reflexivity. Qed.

Lemma conversions_accurate_at (raw_temp : Z) :
  0 <= raw_temp <= 0x7FFF ->
  FP.within (get_mlx90614_converted_temperature_in_kelvin raw_temp)
    (Formula.kelvin raw_temp) (1 # 10000) /\
  FP.within (get_mlx90614_converted_temperature_in_celsius raw_temp)
    (Formula.celsius raw_temp) (1 # 10000) /\
  FP.within (get_mlx90614_converted_temperature_in_fahrenheit raw_temp)
    (Formula.fahrenheit raw_temp) (1 # 10000).
Proof.
  intro H. apply accurate_b_sound.
  pose proof accurate_on_the_range as A. rewrite forallb_forall in A.
  apply A, In_addresses_from. rewrite Z2Nat.id; lia.
Qed.

(** X22: over the whole range of raw values a channel read accepts, 0 to
    0x7FFF, each conversion returns a finite [float] whose exact value
    differs from the value of its formula, r/50, r/50 - 273.15 or
    (r/50 - 273.15) * 1.8 + 32, by at most 1e-4, two hundred times less
    than the 0.02 K one step of the raw value stands for. *)
Theorem conversions_are_accurate (raw_temp : Z) :
  0 <= raw_temp <= 0x7FFF ->
  exists k c f : Q,
    FP.to_Q (get_mlx90614_converted_temperature_in_kelvin raw_temp) = Some k /\
    FP.to_Q (get_mlx90614_converted_temperature_in_celsius raw_temp) = Some c /\
    FP.to_Q (get_mlx90614_converted_temperature_in_fahrenheit raw_temp) = Some f /\
    (Qabs (k - Formula.kelvin raw_temp) <= 1 # 10000)%Q /\
    (Qabs (c - Formula.celsius raw_temp) <= 1 # 10000)%Q /\
    (Qabs (f - Formula.fahrenheit raw_temp) <= 1 # 10000)%Q.
Proof.
  intro H. destruct (conversions_accurate_at raw_temp H) as (K & C & F).
  unfold FP.within, FP.within_b in K, C, F.
  destruct (FP.to_Q (get_mlx90614_converted_temperature_in_kelvin raw_temp))
    as [k|]; [|discriminate].
  destruct (FP.to_Q (get_mlx90614_converted_temperature_in_celsius raw_temp))
    as [c|]; [|discriminate].
  destruct (FP.to_Q (get_mlx90614_converted_temperature_in_fahrenheit raw_temp))
    as [f|]; [|discriminate].
  exists k, c, f. apply Qle_bool_iff in K, C, F. repeat split; assumption.
Qed.

Lemma within_bounds (x : spec_float) (c tol : Q) :
  FP.within x c tol ->
  exists q, FP.to_Q x = Some q /\ (c - tol <= q)%Q /\ (q <= c + tol)%Q.
Proof.
  unfold FP.within, FP.within_b. destruct (FP.to_Q x) as [q|]; [|discriminate].
  intro H. apply Qle_bool_iff, Qabs_Qle_condition in H. destruct H as [Hl Hu].
  exists q. split; [reflexivity|]. split; lra.
Qed.

Lemma kelvin_step (raw raw' : Z) :
  raw < raw' -> (Formula.kelvin raw + (2 # 100) <= Formula.kelvin raw')%Q.
Proof.
  intro H. unfold Formula.kelvin.
  assert (S : (inject_Z raw + 1 <= inject_Z raw')%Q).
  { change 1%Q with (inject_Z 1). rewrite <- inject_Z_plus, <- Zle_Qle. lia. }
  unfold Qdiv. change (/ 50)%Q with (1 # 50)%Q. lra.
Qed.

(** X23: the conversions keep the order of the raw values. Of two raw
    values from 0 to 0x7FFF the larger converts to the larger temperature,
    in each of the three units; so no two raw values convert to the same
    [float]. *)
Theorem conversions_are_increasing (raw raw' : Z) :
  0 <= raw -> raw < raw' -> raw' <= 0x7FFF ->
  value_lt (get_mlx90614_converted_temperature_in_kelvin raw)
    (get_mlx90614_converted_temperature_in_kelvin raw') /\
  value_lt (get_mlx90614_converted_temperature_in_celsius raw)
    (get_mlx90614_converted_temperature_in_celsius raw') /\
  value_lt (get_mlx90614_converted_temperature_in_fahrenheit raw)
    (get_mlx90614_converted_temperature_in_fahrenheit raw').
Proof.
  intros H0 Hlt Hmax.
  destruct (conversions_accurate_at raw ltac:(lia)) as (K & C & F).
  destruct (conversions_accurate_at raw' ltac:(lia)) as (K' & C' & F').
  pose proof (kelvin_step raw raw' Hlt) as S.
  apply within_bounds in K, C, F, K', C', F'.
  destruct K as (k & Ek & Hk), C as (c & Ec & Hc), F as (f & Ef & Hf).
  destruct K' as (k' & Ek' & Hk'), C' as (c' & Ec' & Hc'), F' as (f' & Ef' & Hf').
  unfold value_lt. rewrite Ek, Ec, Ef, Ek', Ec', Ef'.
  unfold Formula.celsius, Formula.fahrenheit in *.
  fold (Formula.kelvin raw) in *. fold (Formula.kelvin raw') in *.
  set (x := Formula.kelvin raw) in *. set (x' := Formula.kelvin raw') in *.
  repeat split; lra.
Qed.

Section Readings.

Context {W : Type} (hal : HAL W).

(** X24: what a channel read stores is the temperature, to 1e-4. When the
    unit and the function pointer agree, a channel read that returns
    [MLX90614_EC_OK] has stored at [dst] a finite [float] within 1e-4 of
    the formula of the unit in force, taken at the raw value read. *)
Theorem stored_reading_is_accurate (c : channel) (dst : Z) (m m' : machine W) :
  unit_in_sync (drv m) ->
  read_channel hal c dst m = Some (MLX90614_EC_OK, m') ->
  let read :=
    HAL_I2C_Mem_Read hal (bus m) (p_hi2c (drv m))
      (mlx90614_slave_address_one_bit_left_shifted (drv m)) (channel_register c)
      MLX90614_RAM_OR_EEPROM_ADDRESS_SIZE MLX90614_TEMPERATURE_RESULT_SIZE
      MLX90614_I2C_TIMEOUT in
  let raw := little_endian (uint8 (fst (snd (fst read)))) (uint8 (snd (snd (fst read)))) in
  FP.within (heap m' dst) (formula_of (mlx90614_temperature_type (drv m)) raw) (1 # 10000).
Proof.
  intros Hu Hread read raw.
  rewrite read_channel_cases in Hread. fold read raw in Hread.
  assert (R0 : 0 <= raw).
  { unfold raw, little_endian.
    pose proof (uint8_range (fst (snd (fst read)))).
    pose proof (uint8_range (snd (snd (fst read)))). lia. }
  destruct (fst (fst read)); cbn [HAL_ret_handler] in Hread; try discriminate.
  destruct (raw >? 0x7FFF) eqn:R; [discriminate|].
  rewrite Z.gtb_ltb in R. apply Z.ltb_ge in R.
  destruct (conversions_accurate_at raw ltac:(lia)) as (K & C & F).
  unfold unit_in_sync, select_conversion in Hu. unfold formula_of.
  destruct (mlx90614_temperature_type (drv m) =? MLX90614_Temp_K);
    [|destruct (mlx90614_temperature_type (drv m) =? MLX90614_Temp_C);
      [|destruct (mlx90614_temperature_type (drv m) =? MLX90614_Temp_F);
        [|discriminate]]];
    injection Hu as Hu; rewrite <- Hu in Hread; cbn [call_conversion] in Hread;
    injection Hread as <-; cbn [heap]; unfold store; rewrite Z.eqb_refl;
    assumption.
Qed.

End Readings.

(** ** The validation test of the header *)

Section Validation.

Context {W : Type} (hal : HAL W).

Lemma set_mlx90614_module_slave_address_invalid (m : machine W) (a : Z) :
  ~ valid_slave_address a ->
  set_mlx90614_module_slave_address hal a m = Some (MLX90614_EC_ERR, m).
Proof.
  intro H. unfold set_mlx90614_module_slave_address.
  destruct ((a >? _) || (a <? _)) eqn:R; [reflexivity|].
  now apply valid_slave_address_test in R.
Qed.

Lemma set_unit_recognised (temp_t : Z) (f : conversion_pointer)
    (and_then : M W outcome) (m : machine W) :
  select_conversion temp_t = Some f ->
  set_unit temp_t and_then m =
  and_then (Machine (set_temperature_type temp_t (set_converted_temperature f (drv m)))
              (bus m) (log m) (heap m)).
Proof.
  intro S. unfold set_unit, set_mlx90614_temperature_type, get_mlx90614_temperature_type.
  rewrite S. run. cbn [set_temperature_type mlx90614_temperature_type].
  now rewrite Z.eqb_refl.
Qed.

Lemma read_channel_returns (c : channel) (dst : Z) (m : machine W) :
  p_get_mlx90614_converted_temperature (drv m) <> null_pointer ->
  exists st m', read_channel hal c dst m = Some (st, m') /\ drv m' = drv m.
Proof.
  intro Hp. rewrite read_channel_cases.
  set (read := HAL_I2C_Mem_Read _ _ _ _ _ _ _ _).
  set (raw := little_endian _ _).
  destruct (fst (fst read)); cbn [HAL_ret_handler]; eauto.
  destruct (raw >? 0x7FFF); eauto.
  destruct (p_get_mlx90614_converted_temperature (drv m));
    [congruence|..]; cbn [call_conversion]; eauto.
Qed.

(** The three readings of a unit end at a reading that failed, or go on. *)
Lemma three_readings_outcome (dst temp_t : Z) (and_then : M W outcome)
    (Q : outcome -> Prop) (m : machine W) :
  p_get_mlx90614_converted_temperature (drv m) <> null_pointer ->
  (forall m3, drv m3 = drv m -> exists v m', and_then m3 = Some (v, m') /\ Q v) ->
  exists v m',
    three_readings hal dst temp_t and_then m = Some (v, m') /\
    ((exists c, v = stopped_at_reading temp_t c) \/ Q v).
Proof.
  intros Hp Hk. unfold three_readings.
  change (get_mlx90614_ambient_temperature hal) with (read_channel hal ambient).
  change (get_mlx90614_object1_temperature hal) with (read_channel hal object1).
  change (get_mlx90614_object2_temperature hal) with (read_channel hal object2).
  unfold bind at 1.
  destruct (read_channel_returns ambient dst m Hp) as (s1 & m1 & -> & D1).
  destruct s1; try (unfold ret; eauto 6).
  unfold bind at 1.
  destruct (read_channel_returns object1 dst m1 ltac:(now rewrite D1))
    as (s2 & m2 & -> & D2).
  destruct s2; try (unfold ret; eauto 6).
  unfold bind at 1.
  destruct (read_channel_returns object2 dst m2 ltac:(now rewrite D2, D1))
    as (s3 & m3 & -> & D3).
  destruct s3; try (unfold ret; eauto 6).
  destruct (Hk m3 ltac:(now rewrite D3, D2, D1)) as (v & m' & -> & HQ). eauto.
Qed.

Lemma readings_block (dst temp_t : Z) (and_then : M W outcome) :
  (forall m0, exists v m', and_then m0 = Some (v, m') /\ ends_after_the_addresses v) ->
  forall m, p_get_mlx90614_converted_temperature (drv m) <> null_pointer ->
  exists v m',
    three_readings hal dst temp_t and_then m = Some (v, m') /\
    ends_after_the_addresses v.
Proof.
  intros Hk m Hp.
  destruct (three_readings_outcome dst temp_t and_then ends_after_the_addresses m Hp
              (fun m3 _ => Hk m3))
    as (v & m' & E & HR).
  exists v, m'. split; [exact E|].
  destruct HR as [(c & ->)|HR]; [left; eauto | exact HR].
Qed.

Lemma unit_block (dst temp_t : Z) (f : conversion_pointer) (and_then : M W outcome) :
  select_conversion temp_t = Some f -> f <> null_pointer ->
  (forall m0, exists v m', and_then m0 = Some (v, m') /\ ends_after_the_addresses v) ->
  forall m, exists v m',
    set_unit temp_t (three_readings hal dst temp_t and_then) m = Some (v, m') /\
    ends_after_the_addresses v.
Proof.
  intros S Hf Hk m. rewrite (set_unit_recognised temp_t f _ _ S).
  apply readings_block; [exact Hk | exact Hf].
Qed.

(** X25: the code example of the header's documentation, run with the
    current revision of the driver, does not get past its test of a
    non-matching address. On every bus and from every state it returns:
    the initialisation succeeds without a HAL call; the discovery makes its
    probes; when it found nobody the example stops there; when it found a
    device, the non-matching address the example then sets, 1 or 2, is
    below the minimum of this revision, so
    [set_mlx90614_module_slave_address] answers [MLX90614_EC_ERR] where
    the example wants [MLX90614_EC_NR], and the example stops. No reading
    is made and no cell is written. *)
Theorem validation_test_stops_early (hi2c2 current_temperature_reading : Z)
    (m : machine W) :
  exists (v : outcome) (m' : machine W) (j : nat),
    validation_test hal (current hal) hi2c2 current_temperature_reading m
    = Some (v, m') /\
    ((v = stopped_at_discovery /\ j = 124%nat) \/
     (v = stopped_at_non_matching_address /\ (1 <= j <= 124)%nat /\
      mlx90614_slave_address (drv m') = 2 + Z.of_nat j)) /\
    log m' = log m ++ map (probe_of hi2c2)
                        (addresses_from MLX90614_MIN_VALID_SLAVE_ADDRESS_VALUE j) /\
    heap m' = heap m.
Proof.
  unfold validation_test. cbn [current init_module find_slave_address
                               set_module_slave_address].
  unfold bind at 1. unfold DO_NOT_UPDATE_SLAVE_ADDRESS.
  rewrite (init_keeps_address hal m hi2c2 MLX90614_Temp_C in_celsius eq_refl).
  cbv beta iota.
  set (m1 := Machine _ _ _ _).
  unfold bind at 1.
  destruct (find_any hal m1) as (j & w' & st & d' & -> & Hj & Hcase).
  cbv beta iota. cbn [drv log heap p_hi2c m1].
  destruct Hcase as [(-> & -> & ->)|(-> & Hj1 & ->)].
  - do 2 eexists. exists 124%nat. unfold ret.
    split; [reflexivity|]. cbn [log heap]. auto.
  - unfold bind at 1. unfold get_mlx90614_module_slave_address, read_static.
    cbn [drv store_address set_slave_address set_slave_address_one_bit_left_shifted
         mlx90614_slave_address].
    set (non_matching := if _ =? 1 then 2 else 1).
    assert (V : ~ valid_slave_address non_matching).
    { unfold valid_slave_address, MLX90614_MIN_VALID_SLAVE_ADDRESS_VALUE, non_matching.
      destruct (_ =? 1); lia. }
    unfold bind at 1.
    rewrite (set_mlx90614_module_slave_address_invalid _ _ V).
    do 2 eexists. exists j. unfold ret. split; [reflexivity|].
    cbn [drv log heap store_address set_slave_address
         set_slave_address_one_bit_left_shifted mlx90614_slave_address].
    unfold MLX90614_MIN_VALID_SLAVE_ADDRESS_VALUE.
    split; [right; repeat split; lia|]. split; reflexivity.
Qed.

(** *** The earlier revision *)

Lemma earlier_init_keeps_address (m : machine W) (hi2c temp_t : Z) (f : conversion_pointer) :
  select_conversion temp_t = Some f ->
  Earlier.init_mlx90614_module hal hi2c 0 temp_t m =
  Some (MLX90614_EC_OK,
        Machine
          (Driver hi2c (mlx90614_slave_address (drv m))
             (uint8 (Z.shiftl (mlx90614_slave_address (drv m)) 1)) temp_t f)
          (bus m) (log m) (heap m)).
Proof.
  intro S. unfold Earlier.init_mlx90614_module. cbn [Z.gtb Z.compare Z.eqb negb].
  run. rewrite S. run. reflexivity.
Qed.

Lemma search_loop_step (cur : Z) (m : machine W) :
  Earlier.search_loop hal cur m =
  if cur <? Earlier.MLX90614_MAX_SENSORS_PLUS_ONE then
    let r := HAL_I2C_IsDeviceReady hal (bus m) (p_hi2c (drv m)) (uint8 (Z.shiftl cur 1))
               IS_MLX90614_READY_NUMBER_OF_TRIALS MLX90614_I2C_TIMEOUT in
    let m1 := Machine (drv m) (snd r) (log m ++ [probe_of (p_hi2c (drv m)) cur]) (heap m) in
    match fst r with
    | HAL_OK => Some (MLX90614_EC_OK, Machine (store_address cur (drv m)) (snd r) (log m1) (heap m))
    | _ => Earlier.search_loop hal (uint8 (cur + 1)) m1
    end
  else Some (MLX90614_EC_NR, m).
Proof.
  simp search_loop.
  destruct (Z_lt_dec cur Earlier.MLX90614_MAX_SENSORS_PLUS_ONE) as [H|H]; cbn.
  - replace (cur <? _) with true by (symmetry; now apply Z.ltb_lt).
    unfold is_device_ready. cbn.
    destruct (fst (HAL_I2C_IsDeviceReady _ _ _ _ _ _)); reflexivity.
  - replace (cur <? _) with false by (symmetry; apply Z.ltb_ge; lia).
    reflexivity.
Qed.

Lemma search_loop_any (n : nat) : forall (cur : Z) (m : machine W),
  0 <= cur ->
  Z.of_nat n = Earlier.MLX90614_MAX_SENSORS_PLUS_ONE - cur ->
  exists (j : nat) (w' : W) (st : MLX90614_Status) (d' : driver),
    Earlier.search_loop hal cur m =
    Some (st, Machine d' w'
                (log m ++ map (probe_of (p_hi2c (drv m))) (addresses_from cur j))
                (heap m)) /\
    (j <= n)%nat /\
    ((st = MLX90614_EC_NR /\ d' = drv m /\ j = n) \/
     (st = MLX90614_EC_OK /\ (1 <= j)%nat /\
      d' = store_address (cur + Z.of_nat j - 1) (drv m))).
Proof.
  unfold Earlier.MLX90614_MAX_SENSORS_PLUS_ONE.
  induction n as [|n IH]; intros cur m Hc Hn; rewrite search_loop_step;
    unfold Earlier.MLX90614_MAX_SENSORS_PLUS_ONE.
  - replace (cur <? 128) with false by (symmetry; apply Z.ltb_ge; lia).
    exists 0%nat, (bus m), MLX90614_EC_NR, (drv m).
    cbn [addresses_from map]. rewrite app_nil_r.
    split; [destruct m; reflexivity|]. split; [lia|]. left. auto.
  - replace (cur <? 128) with true by (symmetry; apply Z.ltb_lt; lia).
    cbv zeta. rewrite (uint8_small (cur + 1)) by lia.
    set (r := HAL_I2C_IsDeviceReady _ _ _ _ _ _).
    set (m1 := Machine (drv m) _ _ _).
    destruct (IH (cur + 1) m1 ltac:(lia) ltac:(lia))
      as (j & w' & st & d' & E & Hj & Hcase).
    assert (Hfail :
      exists (j0 : nat) (w0 : W) (st0 : MLX90614_Status) (d0 : driver),
        Earlier.search_loop hal (cur + 1) m1 =
        Some (st0, Machine d0 w0
                     (log m ++ map (probe_of (p_hi2c (drv m))) (addresses_from cur j0))
                     (heap m)) /\
        (j0 <= S n)%nat /\
        ((st0 = MLX90614_EC_NR /\ d0 = drv m /\ j0 = S n) \/
         (st0 = MLX90614_EC_OK /\ (1 <= j0)%nat /\
          d0 = store_address (cur + Z.of_nat j0 - 1) (drv m)))).
    { exists (S j), w', st, d'. rewrite E. subst m1.
      cbn [drv log heap addresses_from map]. log_assoc.
      split; [reflexivity|]. split; [lia|].
      destruct Hcase as [(-> & -> & ->)|(-> & Hj1 & ->)]; [left; auto|].
      right. split; [reflexivity|]. split; [lia|]. f_equal. lia. }
    destruct (fst r); try exact Hfail.
    exists 1%nat, (snd r), MLX90614_EC_OK, (store_address cur (drv m)).
    cbn [addresses_from map log]. split; [reflexivity|]. split; [lia|].
    right. split; [reflexivity|]. split; [lia|]. f_equal. lia.
Qed.

(** X26: the discovery of the earlier revision, on any bus. It returns; its
    probes are those of the addresses 1, 2, ... in this order, at least one
    and at most 127 of them, so it reaches the addresses 1, 2 and 0x7F,
    which the current revision leaves out, and never probes the address 0.
    With [MLX90614_EC_NR] there were 127 probes and the statics are as
    before; with [MLX90614_EC_OK] the believed address is the address of the
    last probe and the shifted address is twice that. *)
Theorem earlier_discovery_on_any_bus (m : machine W) :
  exists (j : nat) (st : MLX90614_Status) (m' : machine W),
    Earlier.find_mlx90614_slave_address hal m = Some (st, m') /\
    (1 <= j <= 127)%nat /\
    log m' = log m ++ map (probe_of (p_hi2c (drv m))) (addresses_from 1 j) /\
    heap m' = heap m /\
    ((st = MLX90614_EC_NR /\ j = 127%nat /\ drv m' = drv m) \/
     (st = MLX90614_EC_OK /\
      mlx90614_slave_address (drv m') = Z.of_nat j /\
      mlx90614_slave_address_one_bit_left_shifted (drv m') = 2 * Z.of_nat j)).
Proof.
  unfold Earlier.find_mlx90614_slave_address.
  destruct (search_loop_any 127 1 m ltac:(lia) ltac:(reflexivity))
    as (j & w' & st & d' & E & Hj & Hcase).
  exists j, st. eexists. split; [exact E|]. cbn [log heap drv].
  destruct Hcase as [(-> & -> & ->)|(-> & Hj1 & ->)].
  - repeat split; try lia. left. auto.
  - repeat split; try lia. right.
    replace (1 + Z.of_nat j - 1) with (Z.of_nat j) by lia.
    cbn [store_address set_slave_address set_slave_address_one_bit_left_shifted
         mlx90614_slave_address mlx90614_slave_address_one_bit_left_shifted].
    split; [reflexivity|]. split; [reflexivity|]. apply shifted_small. lia.
Qed.

Lemma earlier_set_module_cases (a : Z) (m : machine W) :
  exists st m',
    Earlier.set_mlx90614_module_slave_address hal a m = Some (st, m') /\
    heap m' = heap m /\
    (st = MLX90614_EC_OK \/ drv m' = drv m) /\
    (0x7F < a -> st = MLX90614_EC_ERR /\ m' = m) /\
    (0 < a <= 0x7F -> st <> MLX90614_EC_ERR) /\
    p_get_mlx90614_converted_temperature (drv m')
    = p_get_mlx90614_converted_temperature (drv m).
Proof.
  unfold Earlier.set_mlx90614_module_slave_address.
  destruct (Z.gtb_spec a 0x7F) as [Hhi|Hlo]; cbn [orb].
  { do 2 eexists. split; [reflexivity|]. repeat split; auto; lia. }
  destruct (Z.eqb_spec a 0) as [->|Hnz].
  { do 2 eexists. split; [reflexivity|]. repeat split; auto; lia. }
  run. destruct (fst (HAL_I2C_IsDeviceReady _ _ _ _ _ _)); run;
    do 2 eexists; (split; [reflexivity|]); cbn [drv heap];
    repeat split; auto; try lia; try discriminate.
Qed.

(** X27: the same example run with the earlier revision of the three
    functions. On every bus and from every state it returns, and
    it can stop only where the device decides: at the discovery when
    nobody answers, at the non-matching address when something answers
    there, and at a reading that fails. Its tests of the invalid address
    128, of the unchanged believed address and of the three units never
    fail. *)
Theorem validation_test_with_the_earlier_revision
    (hi2c2 current_temperature_reading : Z) (m : machine W) :
  exists (v : outcome) (m' : machine W),
    validation_test hal (earlier hal) hi2c2 current_temperature_reading m
    = Some (v, m') /\
    (v = stopped_at_discovery \/ v = stopped_at_non_matching_address \/
     (exists temp_t c, v = stopped_at_reading temp_t c) \/ v = concluded).
Proof.
  unfold validation_test. cbn [earlier init_module find_slave_address
                               set_module_slave_address].
  unfold bind at 1. unfold DO_NOT_UPDATE_SLAVE_ADDRESS.
  rewrite (earlier_init_keeps_address m hi2c2 MLX90614_Temp_C in_celsius eq_refl).
  cbv beta iota.
  set (m1 := Machine _ _ _ _).
  unfold bind at 1. unfold Earlier.find_mlx90614_slave_address.
  destruct (search_loop_any 127 1 m1 ltac:(lia) ltac:(reflexivity))
    as (j & w' & st & d' & -> & Hj & Hcase).
  cbv beta iota.
  destruct Hcase as [(-> & -> & ->)|(-> & Hj1 & ->)].
  { do 2 eexists. unfold ret. split; [reflexivity|]. left. reflexivity. }
  set (m2 := Machine _ _ _ _).
  unfold bind at 1. unfold get_mlx90614_module_slave_address, read_static.
  cbv beta iota.
  set (slave := mlx90614_slave_address (drv m2)).
  set (non_matching := if slave =? 1 then 2 else 1).
  unfold bind at 1.
  destruct (earlier_set_module_cases non_matching m2)
    as (s3 & m3 & -> & H3 & D3 & _ & N3 & P3).
  assert (Hnm : 0 < non_matching <= 0x7F) by (unfold non_matching; destruct (_ =? 1); lia).
  specialize (N3 Hnm).
  destruct s3; try (do 2 eexists; unfold ret; split; [reflexivity|];
                    right; left; reflexivity).
  destruct D3 as [D3|D3]; [discriminate|].
  unfold bind at 1.
  destruct (earlier_set_module_cases 128 m3) as (s4 & m4 & -> & _ & _ & E4 & _ & _).
  destruct (E4 ltac:(lia)) as [-> ->]. cbv beta iota.
  unfold bind at 1. unfold get_mlx90614_module_slave_address, read_static.
  cbv beta iota. rewrite D3. fold slave. rewrite Z.eqb_refl.
  (* the three units *)
  assert (F : forall m0 : machine W,
             exists v m', ret concluded m0 = Some (v, m') /\ ends_after_the_addresses v).
  { intro m0. unfold ret. do 2 eexists. split; [reflexivity|]. right. reflexivity. }
  pose proof (unit_block current_temperature_reading MLX90614_Temp_F in_fahrenheit _
                eq_refl ltac:(discriminate) F) as BF.
  pose proof (unit_block current_temperature_reading MLX90614_Temp_C in_celsius _
                eq_refl ltac:(discriminate) BF) as BC.
  rewrite (set_unit_recognised MLX90614_Temp_K in_kelvin _ _ eq_refl).
  unfold bind at 1. unfold store_float at 1. cbv beta iota.
  destruct (readings_block current_temperature_reading MLX90614_Temp_K _ BC
              (Machine (set_temperature_type MLX90614_Temp_K
                          (set_converted_temperature in_kelvin (drv m3)))
                 (bus m3) (log m3)
                 (store (heap m3) current_temperature_reading (S754_zero false)))
              ltac:(discriminate))
    as (v & m' & E & HR).
  exists v, m'. split; [exact E|]. right. right. exact HR.
Qed.

End Validation.

(** The example on the simulated bus, one healthy device at 0x5A, from
    program start: the earlier revision takes it to its end, the current
    one stops it at the non-matching address. *)
Example validation_test_on_a_healthy_device :
  (exists m',
     validation_test (Sim.hal (Sim.at_address 0x5A))
       (earlier (Sim.hal (Sim.at_address 0x5A))) Sim.hi2c2 7
       (Machine startup healthy [] (fun _ => S754_zero false))
     = Some (concluded, m') /\
     heap m' 7 = get_mlx90614_converted_temperature_in_fahrenheit 15000) /\
  (exists m',
     validation_test (Sim.hal (Sim.at_address 0x5A))
       (current (Sim.hal (Sim.at_address 0x5A))) Sim.hi2c2 7
       (Machine startup healthy [] (fun _ => S754_zero false))
     = Some (stopped_at_non_matching_address, m') /\
     mlx90614_slave_address (drv m') = 0x5A).
Proof.
  split; evaluated; vm_compute; reflexivity.
Qed.

(** ** The properties of the interface at concrete inputs *)

(** For a goal [exists m', run = Some (r, m') /\ _] or
    [exists m', run = Some m' /\ _] about a closed run: the machine is the
    one the run evaluates to, and [E] is the equation of the run. *)
Ltac run_as E :=
  match goal with
  | |- exists m', ?run = Some (?r, m') /\ _ =>
      let v := eval vm_compute in run in
      match v with
      | Some (_, ?m) =>
          exists m;
          assert (E : run = Some (r, m)) by (vm_compute; reflexivity);
          split; [exact E|]
      end
  | |- exists m', ?run = Some m' /\ _ =>
      let v := eval vm_compute in run in
      match v with
      | Some ?m =>
          exists m;
          assert (E : run = Some m) by (vm_compute; reflexivity);
          split; [exact E|]
      end
  end.

Lemma statuses_returned_witness :
  exists m',
    perform (Sim.hal (Sim.transmit_fails 0x5A)) (Set_device_address 0x41) Sim.initialised
    = Some (Status MLX90614_EC_ERR, m') /\
    (MLX90614_EC_ERR = MLX90614_EC_OK \/ MLX90614_EC_ERR = MLX90614_EC_NR \/
     MLX90614_EC_ERR = MLX90614_EC_ERR).
Proof.
  run_as E.
  exact (statuses_returned _ _ _ _ _ E).
Defined.

Lemma calls_change_only_their_part_witness :
  exists m',
    perform (Sim.hal (Sim.at_address 0x5A)) (Read ambient 7) Sim.initialised
    = Some (Status MLX90614_EC_OK, m') /\
    drv m' = drv Sim.initialised /\
    forall q, q <> 7 -> heap m' q = heap Sim.initialised q.
Proof.
  run_as E.
  exact (calls_change_only_their_part _ _ _ _ _ E).
Defined.

Lemma calls_use_the_stored_handle_witness :
  exists m',
    perform (Sim.hal (Sim.at_address 0x5A)) (Init Sim.hi2c2 0x5A MLX90614_Temp_C) Sim.boot
    = Some (Status MLX90614_EC_OK, m') /\
    exists added,
      log m' = log Sim.boot ++ added /\
      Forall (fun e => forall h, handle_of e = Some h -> h = 0) added.
Proof.
  run_as E.
  exact (calls_use_the_stored_handle _ _ _ _ _ E).
Defined.

Lemma calls_block_at_most_witness :
  exists m',
    perform_all (Sim.hal (Sim.at_address 0x5A)) [Find; Read ambient 7] Sim.initialised
    = Some m' /\
    exists added,
      log m' = log Sim.initialised ++ added /\ 0 <= total_ms added <= 12500.
Proof.
  run_as E.
  exact (calls_block_at_most _ _ _ _ E).
Defined.

Lemma only_the_rewrite_transmits_witness :
  exists added,
    log Sim.rewritten = log Sim.initialised ++ added /\
    Forall (fun e =>
              match e with
              | IsDeviceReady _ _ _ _ | Mem_Read _ _ _ _ _ _ => True
              | Master_Transmit _ _ _ _ _ | Delay _ =>
                  exists a, Set_device_address 0x41 = Set_device_address a /\
                            valid_slave_address a
              | Mem_Write _ _ _ _ _ _ => False
              end) added.
Proof.
  apply (only_the_rewrite_transmits (Sim.hal (Sim.at_address 0x5A))
           (Set_device_address 0x41) Sim.initialised Sim.rewritten
           (Status MLX90614_EC_OK)).
  vm_compute. reflexivity.
Defined.

Lemma believed_address_stays_7bit_witness :
  exists m',
    perform_all (Sim.hal (Sim.at_address 0x5A))
      [Init Sim.hi2c2 0 MLX90614_Temp_C; Set_device_address 0x41; Read ambient 7] Sim.boot
    = Some m' /\
    address_is_7bit (drv m').
Proof.
  run_as E.
  refine (believed_address_stays_7bit _ _ _ _ _ _ E).
  - repeat constructor; cbn; lia.
  - unfold address_is_7bit, MLX90614_MAX_VALID_SLAVE_ADDRESS_VALUE. cbn. lia.
Defined.

Lemma reads_address_the_believed_device_witness :
  exists m2,
    read_channel (Sim.hal (Sim.at_address 0x5A)) ambient 7 Sim.rewritten
    = Some (MLX90614_EC_ERR, m2) /\
    mlx90614_slave_address_one_bit_left_shifted (drv Sim.rewritten)
    = 2 * mlx90614_slave_address (drv Sim.rewritten) /\
    log m2 =
    log Sim.rewritten ++
    [Mem_Read (p_hi2c (drv Sim.rewritten)) (2 * mlx90614_slave_address (drv Sim.rewritten))
       (channel_register ambient) MLX90614_RAM_OR_EEPROM_ADDRESS_SIZE
       MLX90614_TEMPERATURE_RESULT_SIZE MLX90614_I2C_TIMEOUT].
Proof.
  run_as E.
  refine (reads_address_the_believed_device (Sim.hal (Sim.at_address 0x5A))
            [Set_device_address 0x41] ambient 7 Sim.initialised Sim.rewritten _
            MLX90614_EC_ERR _ _ _ _ E).
  - repeat constructor; cbn; lia.
  - unfold address_is_7bit, MLX90614_MAX_VALID_SLAVE_ADDRESS_VALUE. cbn. lia.
  - reflexivity.
  - vm_compute. reflexivity.
Defined.

Lemma configured_driver_always_returns_witness :
  exists m',
    perform_all (Sim.hal (Sim.at_address 0x5A)) [Read ambient 7; Set_type 9; Find]
      Sim.initialised = Some m' /\
    unit_in_sync (drv m').
Proof.
  apply (configured_driver_always_returns (Sim.hal (Sim.at_address 0x5A))
           [Read ambient 7; Set_type 9; Find] Sim.initialised).
  reflexivity.
Defined.

Lemma device_addresses_are_left_aligned_witness :
  exists m',
    perform_all (Sim.hal (Sim.at_address 0x5A))
      [Init Sim.hi2c2 0x5A MLX90614_Temp_K; Read object2 7] Sim.boot = Some m' /\
    left_aligned (mlx90614_slave_address_one_bit_left_shifted (drv m')) /\
    exists added,
      log m' = log Sim.boot ++ added /\
      Forall (fun e => forall a, wire_of e = Some a -> left_aligned a) added.
Proof.
  run_as E.
  refine (device_addresses_are_left_aligned _ _ _ _ _ E).
  unfold left_aligned. cbn. split; [lia | reflexivity].
Defined.

Lemma unit_selects_conversion_witness :
  exists m2,
    read_channel (Sim.hal (Sim.at_address 0x5A)) ambient 7
      (Machine (Driver Sim.hi2c2 0x5A 0xB4 MLX90614_Temp_F in_fahrenheit) Sim.factory []
         (fun _ => S754_zero false))
    = Some (MLX90614_EC_OK, m2) /\
    heap m2 7 = get_mlx90614_converted_temperature_in_fahrenheit 13807.
Proof.
  run_as E.
  refine (proj2 (proj2 (unit_selects_conversion (Sim.hal (Sim.at_address 0x5A))
                          MLX90614_Temp_F ambient 7 Sim.initialised _ _ _ E))).
  vm_compute. reflexivity.
Defined.

Lemma adopted_address_is_reported_witness :
  exists m1,
    perform (Sim.hal (Sim.at_address 0x5A)) (Set_device_address 0x41) Sim.initialised
    = Some (Status MLX90614_EC_OK, m1) /\
    get_mlx90614_module_slave_address m1 = Some (0x41, m1).
Proof.
  run_as E.
  exact (adopted_address_is_reported _ _ _ _ _ E).
Defined.

Lemma init_is_set_address_then_unit_witness :
  init_mlx90614_module (Sim.hal (Sim.at_address 0x5A)) Sim.hi2c2 0x5A MLX90614_Temp_C Sim.boot
  = bind (set_mlx90614_module_slave_address (Sim.hal (Sim.at_address 0x5A)) 0x5A)
      (fun s =>
         match s with
         | MLX90614_EC_OK =>
             bind (write_static (set_p_hi2c Sim.hi2c2))
               (fun _ => set_mlx90614_temperature_type MLX90614_Temp_C)
         | failure => ret failure
         end) Sim.boot.
Proof.
  apply (init_is_set_address_then_unit (Sim.hal (Sim.at_address 0x5A))).
  unfold MLX90614_MIN_VALID_SLAVE_ADDRESS_VALUE. lia.
Defined.

Lemma earlier_init_is_set_address_then_unit_witness :
  Earlier.init_mlx90614_module (Sim.hal (Sim.at_address 1)) Sim.hi2c2 1 MLX90614_Temp_C
    Sim.boot
  = bind (Earlier.set_mlx90614_module_slave_address (Sim.hal (Sim.at_address 1)) 1)
      (fun s =>
         match s with
         | MLX90614_EC_OK =>
             bind (write_static (set_p_hi2c Sim.hi2c2))
               (fun _ => set_mlx90614_temperature_type MLX90614_Temp_C)
         | failure => ret failure
         end) Sim.boot.
Proof.
  apply (earlier_init_is_set_address_then_unit (Sim.hal (Sim.at_address 1))).
  lia.
Defined.

Lemma corrupted_byte_fails_the_check_witness :
  0x41 <> 0x40 /\
  pec_of ([0xB4; 0x2E; 0x40; 0xBE] ++ [pec_of [0xB4; 0x2E; 0x41; 0xBE]]) <> 0.
Proof.
  split; [lia|].
  apply (corrupted_byte_fails_the_check [0xB4; 0x2E] [0xBE] 0x41 0x40); lia.
Defined.

Lemma transmitted_transactions_pass_the_check_witness :
  exists added,
    log Sim.rewritten = log Sim.initialised ++ added /\
    Forall (fun e =>
              match e with
              | Master_Transmit _ wire pData _ _ =>
                  length pData = 4%nat /\ received_residue wire pData = 0
              | _ => True
              end) added.
Proof.
  apply (transmitted_transactions_pass_the_check (Sim.hal (Sim.at_address 0x5A)) 0x41
           Sim.initialised Sim.rewritten MLX90614_EC_OK).
  vm_compute. reflexivity.
Defined.

Lemma new_address_is_read_from_witness :
  exists m2,
    read_channel (Sim.hal (Sim.at_address 0x5A)) object1 7 Sim.rewritten
    = Some (MLX90614_EC_ERR, m2) /\
    valid_slave_address 0x41 /\
    log m2 =
    log Sim.rewritten ++
    [Mem_Read Sim.hi2c2 (2 * 0x41) (channel_register object1)
       MLX90614_RAM_OR_EEPROM_ADDRESS_SIZE MLX90614_TEMPERATURE_RESULT_SIZE
       MLX90614_I2C_TIMEOUT].
Proof.
  run_as E.
  refine (new_address_is_read_from (Sim.hal (Sim.at_address 0x5A))
            (Set_device_address 0x41) 0x41 object1 7 Sim.initialised Sim.rewritten _
            MLX90614_EC_ERR _ _ E).
  - left. reflexivity.
  - vm_compute. reflexivity.
Defined.

Lemma earlier_rewrite_checks_the_cell_witness :
  exists st m',
    Earlier.set_mlx90614_device_slave_address (Sim.hal (Sim.read_only 0x5A)) 0x41
      Sim.initialised = Some (st, m') /\
    st = MLX90614_EC_ERR /\ drv m' = drv Sim.initialised.
Proof.
  destruct (earlier_rewrite_checks_the_cell (Sim.hal (Sim.read_only 0x5A)) 0x41
              Sim.initialised ltac:(lia) ltac:(lia))
    as (st & m' & E & _ & _ & Herr & _ & Hkeep).
  exists st, m'. split; [exact E|].
  assert (S : st = MLX90614_EC_ERR).
  { apply Herr; [repeat split | vm_compute; discriminate]. }
  split; [exact S|]. apply Hkeep. rewrite S. discriminate.
Defined.

Lemma conversions_are_accurate_witness :
  exists k c f : Q,
    FP.to_Q (get_mlx90614_converted_temperature_in_kelvin 0x7FFF) = Some k /\
    FP.to_Q (get_mlx90614_converted_temperature_in_celsius 0x7FFF) = Some c /\
    FP.to_Q (get_mlx90614_converted_temperature_in_fahrenheit 0x7FFF) = Some f /\
    (Qabs (k - Formula.kelvin 0x7FFF) <= 1 # 10000)%Q /\
    (Qabs (c - Formula.celsius 0x7FFF) <= 1 # 10000)%Q /\
    (Qabs (f - Formula.fahrenheit 0x7FFF) <= 1 # 10000)%Q.
Proof. apply (conversions_are_accurate 0x7FFF). lia. Defined.

Lemma conversions_are_increasing_witness :
  value_lt (get_mlx90614_converted_temperature_in_kelvin 13657)
    (get_mlx90614_converted_temperature_in_kelvin 13658) /\
  value_lt (get_mlx90614_converted_temperature_in_celsius 13657)
    (get_mlx90614_converted_temperature_in_celsius 13658) /\
  value_lt (get_mlx90614_converted_temperature_in_fahrenheit 13657)
    (get_mlx90614_converted_temperature_in_fahrenheit 13658).
Proof. apply (conversions_are_increasing 13657 13658); lia. Defined.

Lemma stored_reading_is_accurate_witness :
  exists m',
    read_channel (Sim.hal (Sim.at_address 0x5A)) ambient 7 Sim.initialised
    = Some (MLX90614_EC_OK, m') /\
    FP.within (heap m' 7) (formula_of MLX90614_Temp_C 13807) (1 # 10000).
Proof.
  run_as E.
  refine (stored_reading_is_accurate (Sim.hal (Sim.at_address 0x5A)) ambient 7
            Sim.initialised _ _ E).
  reflexivity.
Defined.
